(** * Market evaluators of the chain library

    A shallow embedding of [libraries/chain/market_evaluator.cpp]: the three
    evaluators [limit_order_create_evaluator::do_apply],
    [limit_order_cancel_evaluator::do_apply] and
    [call_order_update_evaluator::do_apply], over an explicit model of the
    object database they read and mutate.

    Conventions of the embedding.
        - [share_type] amounts are integers ([Z]); asset symbols, object ids and
      time stamps are naturals ([N]); account names are strings.  The range
      checks of the arithmetic of [share_type], which is declared outside
      this file, are not part of the model.
    - The database is a record of tables ([gmap]); a C++ pointer or reference
      to a stored object is the key of that object, dereferenced against the
      current store at every use.
    - An evaluator is a function from the world to an outcome and the world
      left behind.  A C++ exception does not undo the mutations made before it
      was thrown (the enclosing transaction does that, outside this file), so
      the world is returned also when the outcome is [Throw] or [Abort].
    - Code of the repository that is declared outside this file (the
      matching engine, the balance primitives, the price arithmetic) is taken
      through the interfaces [Protocol] and [Accessor]. *)

From Stdlib Require Import ZArith String List Bool Lia.
From stdpp Require Import base gmap strings list fin_maps.

Local Open Scope string_scope.
Local Open Scope Z_scope.

(** ** Protocol types *)

Record asset := mk_asset { amount : Z; symbol : N }.

Record price := mk_price { base : asset; quote : asset }.

Record price_feed := mk_price_feed {
  settlement_price : price;
  maintenance_collateral_ratio : Z
}.

Module limit_order_create_operation.
Record t := mk {
  seller : string;
  amount_to_sell : asset;
  min_to_receive : asset;
  fill_or_kill : bool;
  expiration : N
}.
End limit_order_create_operation.

Module limit_order_cancel_operation.
Record t := mk {
  order : N;
  fee_paying_account : string
}.
End limit_order_cancel_operation.

Module call_order_update_operation.
Record t := mk {
  funding_account : string;
  delta_collateral : asset;
  delta_debt : asset
}.
End call_order_update_operation.

(** ** Stored objects *)

(** An account is stored under its name and an asset under its symbol: the
    name (the id) of a stored object is its key in the table. *)
Record account_object := mk_account { statistics : N }.

Record account_statistics_object := mk_statistics { total_core_in_orders : Z }.

(** [options.whitelist_markets] and [options.blacklist_markets] are the two
    fields of the asset options this file reads; [bitasset_data_id] is set
    exactly for market-issued assets. *)
Record asset_object := mk_asset_object {
  whitelist_markets : gset N;
  blacklist_markets : gset N;
  bitasset_data_id : option N;
  dynamic_asset_data_id : N
}.

Record asset_dynamic_data_object := mk_dynamic { current_supply : Z }.

(** [short_backing_asset] is [options.short_backing_asset]. *)
Record asset_bitasset_data_object := mk_bitasset {
  is_prediction_market : bool;
  short_backing_asset : N;
  current_feed : price_feed;
  has_settlement : bool
}.

Record limit_order_object := mk_limit_order {
  seller : string;
  for_sale : Z;
  sell_price : price;
  expiration : N;
  deferred_fee : Z
}.

Record call_order_object := mk_call_order {
  borrower : string;
  collateral : Z;
  debt : Z;
  call_price : price
}.

(** ** The object database *)

Record database := mk_database {
  head_block_time : N;
  accounts : gmap string account_object;
  account_statistics : gmap N account_statistics_object;
  balances : gmap (string * N) Z;
  assets : gmap N asset_object;
  asset_dynamic_data : gmap N asset_dynamic_data_object;
  asset_bitasset_data : gmap N asset_bitasset_data_object;
  limit_orders : gmap N limit_order_object;
  next_limit_order_id : N;
  call_orders : gmap N call_order_object;
  next_call_order_id : N
}.

Definition set_account_statistics (f : gmap N account_statistics_object -> gmap N account_statistics_object)
    (d : database) : database :=
  mk_database (head_block_time d) (accounts d) (f (account_statistics d)) (balances d)
    (assets d) (asset_dynamic_data d) (asset_bitasset_data d)
    (limit_orders d) (next_limit_order_id d) (call_orders d) (next_call_order_id d).

Definition set_balances (f : gmap (string * N) Z -> gmap (string * N) Z)
    (d : database) : database :=
  mk_database (head_block_time d) (accounts d) (account_statistics d) (f (balances d))
    (assets d) (asset_dynamic_data d) (asset_bitasset_data d)
    (limit_orders d) (next_limit_order_id d) (call_orders d) (next_call_order_id d).

Definition set_asset_dynamic_data (f : gmap N asset_dynamic_data_object -> gmap N asset_dynamic_data_object)
    (d : database) : database :=
  mk_database (head_block_time d) (accounts d) (account_statistics d) (balances d)
    (assets d) (f (asset_dynamic_data d)) (asset_bitasset_data d)
    (limit_orders d) (next_limit_order_id d) (call_orders d) (next_call_order_id d).

Definition set_limit_orders (f : gmap N limit_order_object -> gmap N limit_order_object)
    (d : database) : database :=
  mk_database (head_block_time d) (accounts d) (account_statistics d) (balances d)
    (assets d) (asset_dynamic_data d) (asset_bitasset_data d)
    (f (limit_orders d)) (next_limit_order_id d) (call_orders d) (next_call_order_id d).

Definition set_next_limit_order_id (n : N) (d : database) : database :=
  mk_database (head_block_time d) (accounts d) (account_statistics d) (balances d)
    (assets d) (asset_dynamic_data d) (asset_bitasset_data d)
    (limit_orders d) n (call_orders d) (next_call_order_id d).

Definition set_call_orders (f : gmap N call_order_object -> gmap N call_order_object)
    (d : database) : database :=
  mk_database (head_block_time d) (accounts d) (account_statistics d) (balances d)
    (assets d) (asset_dynamic_data d) (asset_bitasset_data d)
    (limit_orders d) (next_limit_order_id d) (f (call_orders d)) (next_call_order_id d).

Definition set_next_call_order_id (n : N) (d : database) : database :=
  mk_database (head_block_time d) (accounts d) (account_statistics d) (balances d)
    (assets d) (asset_dynamic_data d) (asset_bitasset_data d)
    (limit_orders d) (next_limit_order_id d) (call_orders d) n.

(** ** Outcomes

    [FC_ASSERT] throws [fc::assert_exception], whose message starts with the
    text of the failed condition: [assert_exception] carries that text, which
    identifies the assertion.  [FC_THROW_EXCEPTION] and [STEEMIT_ASSERT] name
    the exception they throw.  [object_not_found] is what looking a missing
    object up by id throws; [collaborator_exception] stands for whatever a
    collaborator declared outside this file throws.

    [Abort] is the end of the process: a failed C [assert] in a build that
    compiles assertions in, or the dereference of a null or dangling
    pointer.

        [FC_CAPTURE_AND_RETHROW] adds context to the exception it catches and
    throws it again: on outcomes it is the identity, and the two [try] blocks
    of a [do_apply] are two evaluations run one after the other.

    The specification names the failures.  UnfilledMarginCall is
    [call_order_update_unfilled_margin_call] and NoPriceFeed is
    [insufficient_feeds]; the other names (InsufficientBalance, NotOwner,
    FillOrKillFailed, ...) are failures that the code throws as
    [fc::assert_exception], and each stands for the assertion of the
    condition it describes. *)

Inductive exception :=
| assert_exception (condition : string)
| insufficient_feeds
| call_order_update_unfilled_margin_call
| object_not_found
| collaborator_exception (code : N).

Inductive outcome (A : Type) :=
| Ok (a : A)
| Throw (e : exception)
| Abort.

Arguments Ok {A} a.
Arguments Throw {A} e.
Arguments Abort {A}.

(** The calls made to the matching, cancelling and liquidation collaborators,
    in the order they are made. *)
Inductive collaborator_call :=
| called_apply_order (new_order : N)
| called_cancel_order (cancelled : N) (create_virtual_op : bool)
| called_check_call_orders (mia : N) (enable_black_swan : bool).

Record world := mk_world { ledger : database; calls : list collaborator_call }.

Definition evaluation (A : Type) : Type := world -> outcome A * world.

Definition ret {A} (a : A) : evaluation A := fun w => (Ok a, w).

Definition bind {A B} (m : evaluation A) (k : A -> evaluation B) : evaluation B :=
  fun w =>
    match m w with
    | (Ok a, w') => k a w'
    | (Throw e, w') => (Throw e, w')
    | (Abort, w') => (Abort, w')
    end.

(** [x ← m; k] and [m;; k] are stdpp's notations for [bind]. *)
#[global] Instance evaluation_ret : MRet evaluation := @ret.
#[global] Instance evaluation_bind : MBind evaluation := fun A B k m => bind m k.

Definition throw {A} (e : exception) : evaluation A := fun w => (Throw e, w).

Definition abort {A} : evaluation A := fun w => (Abort, w).

(** [FC_ASSERT(cond, ...)] *)
Definition FC_ASSERT (cond : bool) (text : string) : evaluation unit :=
  if cond then ret tt else throw (assert_exception text).

(** [STEEMIT_ASSERT(cond, exc_type, format, args)]: the arguments of the
    message are evaluated when the condition fails, before the exception is
    thrown. *)
Definition STEEMIT_ASSERT {A} (cond : bool) (e : exception) (args : evaluation A)
    : evaluation unit :=
  if cond then ret tt else (args;; throw e).

(** The build.  [NDEBUG] is the macro of the C library that compiles
    [assert] out; whether the build defines it is decided outside this
    file. *)
Class Build := { NDEBUG : bool }.

(** C [assert(cond)]: nothing when [NDEBUG] is defined, and the end of the
    process on a false condition when it is not. *)
Definition c_assert `{Build} (cond : bool) : evaluation unit :=
  if NDEBUG then ret tt else if cond then ret tt else abort.

(** Reading the store. *)
Definition read {A} (f : database -> A) : evaluation A :=
  fun w => (Ok (f (ledger w)), w).

(** [d.get(id)], [id(d)]: throws when no object has that id. *)
Definition get_object {A} (f : database -> option A) : evaluation A :=
  fun w => match f (ledger w) with
           | Some a => (Ok a, w)
           | None => (Throw object_not_found, w)
           end.

(** [p->...] for a pointer [p] into the store. *)
Definition deref {A} (f : database -> option A) : evaluation A :=
  fun w => match f (ledger w) with
           | Some a => (Ok a, w)
           | None => (Abort, w)
           end.

(** A mutation of the store by the evaluator itself. *)
Definition update (f : database -> database) : evaluation unit :=
  fun w => (Ok tt, mk_world (f (ledger w)) (calls w)).

(** A call of a method of the database that is implemented outside this
    file and only acts on the store. *)
Definition lift {A} (f : database -> outcome A * database) : evaluation A :=
  fun w => let '(r, d') := f (ledger w) in (r, mk_world d' (calls w)).

(** The same for the collaborators whose calls are recorded. *)
Definition invoke {A} (c : collaborator_call)
    (f : database -> outcome A * database) : evaluation A :=
  fun w => let '(r, d') := f (ledger w) in (r, mk_world d' (calls w ++ [c])).

(** An evaluation that leaves the world as it found it, whatever its
    outcome. *)
Definition read_only {A} (m : evaluation A) : Prop := ∀ w, (m w).2 = w.

(** ** Interfaces to the code declared outside this file *)

(** Constants and methods of the protocol types ([asset], [price],
    [call_order_object], the operations) that this file uses and does not
    define.  [price_call_price] is [price::call_price], [price_inv] is
    [operator~] and [price_lt] is [operator<] on prices; [debt_type] and
    [collateral_type] give the assets a call order is denominated in. *)
Class Protocol := {
  STEEM_SYMBOL : N;
  get_price : limit_order_create_operation.t -> price;
  price_call_price : asset -> asset -> Z -> price;
  price_is_null : price -> bool;
  price_inv : price -> price;
  price_lt : price -> price -> bool;
  debt_type : call_order_object -> N;
  collateral_type : call_order_object -> N
}.

(** Methods of [database] implemented outside this file.  A stored object is
    passed by its key.  [check_call_orders_default] is the value the
    declaration of [check_call_orders] gives [enable_black_swan] when the
    caller passes one argument. *)
Class Accessor := {
  is_authorized_asset : database -> string -> N -> bool;
  adjust_balance : string -> asset -> database -> outcome unit * database;
  apply_order : N -> database -> outcome bool * database;
  cancel_order : N -> bool -> database -> outcome unit * database;
  check_call_orders : N -> bool -> database -> outcome bool * database;
  check_call_orders_default : bool
}.

(** ** Helpers on the protocol types *)

(** Modelled from the spec: [operator>=] on [asset], which the protocol
    headers declare, is the comparison of two quantities of one asset, as in
    "the seller's available balance of the sell-asset must be ≥
    amount-to-sell".  At each use below both sides are amounts of the same
    asset. *)
Definition asset_ge (a b : asset) : bool := amount b <=? amount a.

(** Unary minus on [asset]: the negated amount of the same asset. *)
Definition asset_neg (a : asset) : asset := mk_asset (- amount a) (symbol a).

(** Modelled from the spec: [get_debt] and [get_collateral] of
    [call_order_object], which market_object.hpp declares, are the
    "collateral amount, debt amount (both denominated in their respective
    assets)": the stored amounts as quantities of the assets the order is
    denominated in. *)
Definition get_debt `{Protocol} (c : call_order_object) : asset :=
  mk_asset (debt c) (debt_type c).

Definition get_collateral `{Protocol} (c : call_order_object) : asset :=
  mk_asset (collateral c) (collateral_type c).

(** Modelled from the spec: [amount_for_sale] of [limit_order_object],
    which market_object.hpp declares, is the "remaining for-sale amount":
    what is left for sale, in the asset being sold. *)
Definition amount_for_sale (o : limit_order_object) : asset :=
  mk_asset (for_sale o) (symbol (base (sell_price o))).

(** ** Helpers on the database *)

(** Modelled from the spec: [get_balance] of [database], which database.hpp
    declares, is "get_balance(account, asset) -> quantity": the balance
    recorded for the account in that asset, zero when none is recorded. *)
Definition get_balance (d : database) (owner : string) (asset_type : N) : asset :=
  mk_asset (default 0 (balances d !! (owner, asset_type))) asset_type.

(** What a successful [adjust_balance(account, delta)] leaves behind: the
    signed quantity added to the balance of the account in that asset. *)
Definition credit (owner : string) (delta : asset) (d : database) : database :=
  set_balances
    (<[(owner, symbol delta) := amount (get_balance d owner (symbol delta)) + amount delta]>) d.

(** [find_asset(symbol)]: a pointer to the asset object, null when there is
    none. *)
Definition find_asset (sym : N) (d : database) : option N :=
  match assets d !! sym with
  | Some _ => Some sym
  | None => None
  end.

(** [*p] for an asset pointer that may be null. *)
Definition deref_asset (p : option N) : evaluation asset_object :=
  match p with
  | Some a => deref (fun d => assets d !! a)
  | None => abort
  end.

(** Modelled from the spec: [is_market_issued] of [asset_object], which
    asset_object.hpp declares: an asset has "optionally bitasset data if the
    asset is market-issued". *)
Definition is_market_issued (a : asset_object) : bool :=
  bool_decide (is_Some (bitasset_data_id a)).

(** [a.bitasset_data(d)]: the bitasset data object of a market-issued asset,
    by its id. *)
Definition bitasset_data (a : asset_object) : evaluation N :=
  match bitasset_data_id a with
  | Some b => get_object (fun d => asset_bitasset_data d !! b);; ret b
  | None => throw object_not_found
  end.

(** The [by_account] index of the call orders: the order of a borrower in a
    debt asset, with its id. *)
Definition find_by_account `{Protocol} (who : string) (debt_asset : N) (d : database)
    : option (N * call_order_object) :=
  snd <$> list_find
    (fun kv : N * call_order_object => borrower kv.2 = who ∧ debt_type kv.2 = debt_asset)
    (map_to_list (call_orders d)).

(** [d.create<limit_order_object>(...)] and [d.create<call_order_object>(...)]:
    the new object gets the next id of its table. *)
Definition create_limit_order (o : limit_order_object) : evaluation N :=
  new_id ← read next_limit_order_id;
  update (fun d => set_next_limit_order_id (N.succ new_id)
                     (set_limit_orders (<[new_id := o]>) d));;
  ret new_id.

Definition create_call_order (c : call_order_object) : evaluation N :=
  new_id ← read next_call_order_id;
  update (fun d => set_next_call_order_id (N.succ new_id)
                     (set_call_orders (<[new_id := c]>) d));;
  ret new_id.

(** ** [limit_order_create_evaluator]

    The evaluator object: [fee_paying_account] and [_deferred_fee] are set by
    the evaluator framework before [do_apply] runs; [_seller], [_sell_asset]
    and [_receive_asset] are set by the first block of [do_apply] and read by
    the second. *)
Module limit_order_create_evaluator.
Import limit_order_create_operation.

Record t := mk {
  fee_paying_account : string;
  _deferred_fee : Z
}.

Record resolved := mk_resolved {
  _seller : string;
  _sell_asset : option N;
  _receive_asset : option N
}.

Section with_collaborators.
Context `{Protocol} `{Accessor}.

(** The first [try] block (lines 19-45). *)
Definition validate (ev : t) (op : limit_order_create_operation.t) : evaluation resolved :=
  now ← read head_block_time;
  FC_ASSERT (now <=? op.(expiration))%N "op.expiration >= d.head_block_time()";;
  let _seller := ev.(fee_paying_account) in
  _sell_asset ← read (find_asset (symbol op.(amount_to_sell)));
  _receive_asset ← read (find_asset (symbol op.(min_to_receive)));
  sell ← deref_asset _sell_asset;
  (if negb (size (whitelist_markets sell) =? 0)%nat then
     sell ← deref_asset _sell_asset;
     match _receive_asset with
     | Some receive_id =>
         deref_asset _receive_asset;;
         FC_ASSERT (bool_decide (receive_id ∈ whitelist_markets sell))
           "_sell_asset->options.whitelist_markets.find(_receive_asset->id) != _sell_asset->options.whitelist_markets.end()"
     | None => abort
     end
   else ret tt);;
  sell ← deref_asset _sell_asset;
  (if negb (size (blacklist_markets sell) =? 0)%nat then
     sell ← deref_asset _sell_asset;
     match _receive_asset with
     | Some receive_id =>
         deref_asset _receive_asset;;
         FC_ASSERT (bool_decide (receive_id ∉ blacklist_markets sell))
           "_sell_asset->options.blacklist_markets.find(_receive_asset->id) == _sell_asset->options.blacklist_markets.end()"
     | None => abort
     end
   else ret tt);;
  deref (fun d => accounts d !! _seller);;
  match _sell_asset with
  | Some sell_id =>
      deref_asset _sell_asset;;
      authorized ← read (fun d => is_authorized_asset d _seller sell_id);
      FC_ASSERT authorized "d.is_authorized_asset(*_seller, *_sell_asset)"
  | None => abort
  end;;
  match _receive_asset with
  | Some receive_id =>
      deref_asset _receive_asset;;
      authorized ← read (fun d => is_authorized_asset d _seller receive_id);
      FC_ASSERT authorized "d.is_authorized_asset(*_seller, *_receive_asset)"
  | None => abort
  end;;
  match _sell_asset with
  | Some sell_id =>
      balance ← read (fun d => get_balance d _seller sell_id);
      FC_ASSERT (asset_ge balance op.(amount_to_sell))
        "d.get_balance(*_seller, *_sell_asset) >= op.amount_to_sell"
  | None => abort
  end;;
  ret (mk_resolved _seller _sell_asset _receive_asset).

(** Lines 48-55 of the second [try] block: the statistics of the seller
    go through [modify], then the balance is debited. *)
Definition lock_funds (r : resolved) (op : limit_order_create_operation.t) : evaluation unit :=
  seller_account ← deref (fun d => accounts d !! r.(_seller));
  let seller_stats := statistics seller_account in
  get_object (fun d => account_statistics d !! seller_stats);;
  update (set_account_statistics (alter (fun bal =>
    if (symbol op.(amount_to_sell) =? STEEM_SYMBOL)%N
    then mk_statistics (total_core_in_orders bal + amount op.(amount_to_sell))
    else bal) seller_stats));;
  get_object (fun d => accounts d !! op.(seller));;
  lift (adjust_balance op.(seller) (asset_neg op.(amount_to_sell))).

(** Lines 57-67: the order is created and handed to the matching engine. *)
Definition place_order (ev : t) (r : resolved) (op : limit_order_create_operation.t)
    : evaluation unit :=
  deref (fun d => accounts d !! r.(_seller));;
  new_order_object ← create_limit_order
    (mk_limit_order r.(_seller) (amount op.(amount_to_sell)) (get_price op)
       op.(expiration) ev.(_deferred_fee));
  let order_id := new_order_object in
  filled ← invoke (called_apply_order new_order_object) (apply_order new_order_object);
  FC_ASSERT (negb op.(fill_or_kill) || filled) "!op.fill_or_kill || filled".

(** The second [try] block (lines 47-69). *)
Definition execute (ev : t) (r : resolved) (op : limit_order_create_operation.t)
    : evaluation unit :=
  lock_funds r op;;
  place_order ev r op.

Definition do_apply (ev : t) (op : limit_order_create_operation.t) : evaluation unit :=
  r ← validate ev op;
  execute ev r op.
End with_collaborators.
End limit_order_create_evaluator.

(** ** [limit_order_cancel_evaluator]

    [_order], the pointer to the order being cancelled, is set by the first
    block of [do_apply] and read by the second. *)
Module limit_order_cancel_evaluator.
Import limit_order_cancel_operation.

Section with_collaborators.
Context `{Accessor}.

(** The first [try] block (lines 73-79). *)
Definition validate (o : limit_order_cancel_operation.t) : evaluation N :=
  get_object (fun d => limit_orders d !! o.(order));;
  let _order := o.(order) in
  cancelled ← deref (fun d => limit_orders d !! _order);
  FC_ASSERT (bool_decide (seller cancelled = o.(fee_paying_account)))
    "_order->seller == o.fee_paying_account";;
  ret _order.

(** The second [try] block (lines 81-95).  [refunded] is computed and not
    used. *)
Definition execute (_order : N) (o : limit_order_cancel_operation.t) : evaluation unit :=
  cancelled ← deref (fun d => limit_orders d !! _order);
  let base_asset := symbol (base (sell_price cancelled)) in
  let quote_asset := symbol (quote (sell_price cancelled)) in
  let refunded := amount_for_sale cancelled in
  invoke (called_cancel_order _order false) (cancel_order _order false);;
  get_object (fun d => assets d !! base_asset);;
  invoke (called_check_call_orders base_asset check_call_orders_default)
    (check_call_orders base_asset check_call_orders_default);;
  get_object (fun d => assets d !! quote_asset);;
  invoke (called_check_call_orders quote_asset check_call_orders_default)
    (check_call_orders quote_asset check_call_orders_default);;
  ret tt.

Definition do_apply (o : limit_order_cancel_operation.t) : evaluation unit :=
  _order ← validate o;
  execute _order o.
End with_collaborators.
End limit_order_cancel_evaluator.

(** ** [call_order_update_evaluator]

    [_paying_account], [_debt_asset] and [_bitasset_data] are pointers set by
    the first block of [do_apply] and read by the second. *)
Module call_order_update_evaluator.
Import call_order_update_operation.

Record resolved := mk_resolved {
  _paying_account : string;
  _debt_asset : N;
  _bitasset_data : N
}.

(** [!p] for the pointer returned by [d.find(id)]. *)
Definition is_null {A} (p : option A) : bool :=
  match p with
  | Some _ => false
  | None => true
  end.

Section with_collaborators.
Context `{Protocol} `{Accessor} `{Build}.

(** The first [try] block (lines 99-137). *)
Definition validate (o : call_order_update_operation.t) : evaluation resolved :=
  get_object (fun d => accounts d !! o.(funding_account));;
  let _paying_account := o.(funding_account) in
  get_object (fun d => assets d !! symbol o.(delta_debt));;
  let _debt_asset := symbol o.(delta_debt) in
  debt_asset ← deref (fun d => assets d !! _debt_asset);
  FC_ASSERT (is_market_issued debt_asset) "_debt_asset->is_market_issued()";;
  _bitasset_data ← bitasset_data debt_asset;
  bitasset ← deref (fun d => asset_bitasset_data d !! _bitasset_data);
  FC_ASSERT (negb (has_settlement bitasset)) "!_bitasset_data->has_settlement()";;
  FC_ASSERT (symbol o.(delta_collateral) =? short_backing_asset bitasset)%N
    "o.delta_collateral.asset_id == _bitasset_data->options.short_backing_asset";;
  (if is_prediction_market bitasset then
     FC_ASSERT (amount o.(delta_collateral) =? amount o.(delta_debt))
       "o.delta_collateral.amount == o.delta_debt.amount"
   else if price_is_null (settlement_price (current_feed bitasset)) then
     throw insufficient_feeds
   else ret tt);;
  (if amount o.(delta_debt) <? 0 then
     balance ← read (fun d => get_balance d _paying_account _debt_asset);
     FC_ASSERT (asset_ge balance o.(delta_debt))
       "d.get_balance(*_paying_account, *_debt_asset) >= o.delta_debt"
   else ret tt);;
  (if 0 <? amount o.(delta_collateral) then
     get_object (fun d => assets d !! short_backing_asset bitasset);;
     balance ← read (fun d => get_balance d _paying_account (short_backing_asset bitasset));
     FC_ASSERT (asset_ge balance o.(delta_collateral))
       "d.get_balance(*_paying_account, _bitasset_data->options.short_backing_asset(d)) >= o.delta_collateral"
   else ret tt);;
  ret (mk_resolved _paying_account _debt_asset _bitasset_data).

(** Lines 142-150: the debt delta is applied to the balance of the funding
    account and to the supply of the debt asset. *)
Definition apply_delta_debt (r : resolved) (o : call_order_update_operation.t)
    : evaluation unit :=
  if negb (amount o.(delta_debt) =? 0) then
    lift (adjust_balance o.(funding_account) o.(delta_debt));;
    debt_asset ← deref (fun d => assets d !! r.(_debt_asset));
    let dynamic_id := dynamic_asset_data_id debt_asset in
    get_object (fun d => asset_dynamic_data d !! dynamic_id);;
    update (set_asset_dynamic_data (alter (fun dynamic_asset =>
      mk_dynamic (current_supply dynamic_asset + amount o.(delta_debt))) dynamic_id));;
    dynamic_asset ← deref (fun d => asset_dynamic_data d !! dynamic_id);
    c_assert (0 <=? current_supply dynamic_asset)
  else ret tt.

(** Lines 152-161: the collateral delta is taken from the balance of the
    funding account and, for the core asset, added to its statistics. *)
Definition apply_delta_collateral (r : resolved) (o : call_order_update_operation.t)
    : evaluation unit :=
  if negb (amount o.(delta_collateral) =? 0) then
    lift (adjust_balance o.(funding_account) (asset_neg o.(delta_collateral)));;
    if (symbol o.(delta_collateral) =? STEEM_SYMBOL)%N then
      paying_account ← deref (fun d => accounts d !! r.(_paying_account));
      let stats_id := statistics paying_account in
      get_object (fun d => account_statistics d !! stats_id);;
      update (set_account_statistics (alter (fun stats =>
        mk_statistics (total_core_in_orders stats + amount o.(delta_collateral))) stats_id))
    else ret tt
  else ret tt.

(** Lines 164-191: the call order of the funding account in the debt
    asset is created or updated; the result is [call_obj]. *)
Definition update_call_order (r : resolved) (o : call_order_update_operation.t)
    : evaluation N :=
  itr ← read (find_by_account o.(funding_account) (symbol o.(delta_debt)));
  match itr with
  | None =>
      FC_ASSERT (0 <? amount o.(delta_collateral)) "o.delta_collateral.amount > 0";;
      FC_ASSERT (0 <? amount o.(delta_debt)) "o.delta_debt.amount > 0";;
      bitasset ← deref (fun d => asset_bitasset_data d !! r.(_bitasset_data));
      create_call_order
        (mk_call_order o.(funding_account) (amount o.(delta_collateral))
           (amount o.(delta_debt))
           (price_call_price o.(delta_debt) o.(delta_collateral)
              (maintenance_collateral_ratio (current_feed bitasset))))
  | Some (call_obj, _) =>
      call ← deref (fun d => call_orders d !! call_obj);
      let call := mk_call_order (borrower call)
                    (collateral call + amount o.(delta_collateral))
                    (debt call + amount o.(delta_debt)) (call_price call) in
      call ← (if 0 <? debt call then
                bitasset ← deref (fun d => asset_bitasset_data d !! r.(_bitasset_data));
                ret (mk_call_order (borrower call) (collateral call) (debt call)
                       (price_call_price (get_debt call) (get_collateral call)
                          (maintenance_collateral_ratio (current_feed bitasset))))
              else ret call);
      update (set_call_orders (<[call_obj := call]>));;
      ret call_obj
  end.

(** The arguments of the message of lines 211-216 and 224-230:
    [~call_obj->call_price] and
    [_bitasset_data->current_feed.settlement_price], for the [call_obj] that
    [d.find] returned. *)
Definition margin_call_message (r : resolved) (call_obj : option call_order_object)
    : evaluation (price * price) :=
  match call_obj with
  | Some call =>
      bitasset ← deref (fun d => asset_bitasset_data d !! r.(_bitasset_data));
      ret (price_inv (call_price call), settlement_price (current_feed bitasset))
  | None => abort
  end.

(** Lines 193-232: a position without debt is closed; any other is
    checked for margin calls.  [owed] is the local [debt] of line 193. *)
Definition check_margin (r : resolved) (call_obj : N) : evaluation unit :=
  call ← deref (fun d => call_orders d !! call_obj);
  let owed := get_debt call in
  if amount owed =? 0 then
    FC_ASSERT (collateral call =? 0) "call_obj->collateral == 0";;
    update (set_call_orders (delete call_obj))
  else
    FC_ASSERT ((0 <? collateral call) && (0 <? debt call))
      "call_obj->collateral > 0 && call_obj->debt > 0";;
    bitasset ← deref (fun d => asset_bitasset_data d !! r.(_bitasset_data));
    if negb (is_prediction_market bitasset) then
      let call_order_id := call_obj in
      deref (fun d => assets d !! r.(_debt_asset));;
      margin_called ← invoke (called_check_call_orders r.(_debt_asset) false)
                          (check_call_orders r.(_debt_asset) false);
      if (margin_called : bool) then
        call_obj ← read (fun d => call_orders d !! call_order_id);
        STEEMIT_ASSERT (is_null call_obj) call_order_update_unfilled_margin_call
          (margin_call_message r call_obj)
      else
        call_obj ← read (fun d => call_orders d !! call_order_id);
        match call_obj with
        | None => FC_ASSERT false "call_obj"
        | Some call =>
            bitasset ← deref (fun d => asset_bitasset_data d !! r.(_bitasset_data));
            STEEMIT_ASSERT
              (price_lt (price_inv (call_price call))
                 (settlement_price (current_feed bitasset)))
              call_order_update_unfilled_margin_call
              (margin_call_message r call_obj)
        end
    else ret tt.

(** The second [try] block (lines 139-234). *)
Definition execute (r : resolved) (o : call_order_update_operation.t) : evaluation unit :=
  apply_delta_debt r o;;
  apply_delta_collateral r o;;
  call_obj ← update_call_order r o;
  check_margin r call_obj.

Definition do_apply (o : call_order_update_operation.t) : evaluation unit :=
  r ← validate o;
  execute r o.
End with_collaborators.
End call_order_update_evaluator.

(** ** What the theorems assume of the collaborators

    Each of these is a property of code declared outside this file; a
    theorem that needs one takes it as a hypothesis. *)

(** A successful [adjust_balance] has added the signed quantity to the
    balance of the account and changed nothing else. *)
Definition adjust_balance_credits `{Accessor} : Prop :=
  ∀ owner delta d d',
    adjust_balance owner delta d = (Ok tt, d') → d' = credit owner delta d.

(** [adjust_balance] goes through when the balance covers the adjustment. *)
Definition adjust_balance_covered `{Accessor} : Prop :=
  ∀ owner delta d,
    0 <= amount (get_balance d owner (symbol delta)) + amount delta →
    adjust_balance owner delta d = (Ok tt, credit owner delta d).

(** A run of [check_call_orders] that reports no fill has left the call
    orders and the bitasset data as they were. *)
Definition no_fill_no_change `{Accessor} : Prop :=
  ∀ mia enable_black_swan d d',
    check_call_orders mia enable_black_swan d = (Ok false, d') →
    call_orders d' = call_orders d ∧ asset_bitasset_data d' = asset_bitasset_data d.

(** [check_call_orders] removes no bitasset data, whatever its outcome. *)
Definition check_call_orders_keeps_bitasset_data `{Accessor} : Prop :=
  ∀ mia enable_black_swan d outcome d' bitasset_id,
    check_call_orders mia enable_black_swan d = (outcome, d') →
    is_Some (asset_bitasset_data d !! bitasset_id) →
    is_Some (asset_bitasset_data d' !! bitasset_id).

(** A cancelled order is no longer stored. *)
Definition cancel_order_removes `{Accessor} : Prop :=
  ∀ cancelled create_virtual_op d d',
    cancel_order cancelled create_virtual_op d = (Ok tt, d') →
    limit_orders d' !! cancelled = None.

(** [check_call_orders] fills limit orders and never stores one under an id
    that was free. *)
Definition check_call_orders_creates_no_limit_order `{Accessor} : Prop :=
  ∀ mia enable_black_swan d filled d' (placed : N),
    check_call_orders mia enable_black_swan d = (Ok filled, d') →
    limit_orders d !! placed = None → limit_orders d' !! placed = None.

(** A call order priced by [price::call_price] is denominated in the assets
    of the debt and of the collateral the price was computed from. *)
Definition call_price_denomination `{Protocol} : Prop :=
  ∀ who held owed debt_amount collateral_amount ratio,
    let priced := mk_call_order who held owed
                    (price_call_price debt_amount collateral_amount ratio) in
    debt_type priced = symbol debt_amount ∧
    collateral_type priced = symbol collateral_amount.

(** ** Quantities the theorems speak of *)

Section quantities.
Context `{Protocol}.
Import call_order_update_operation.

(** The id of the call order an update acts on: the order the [by_account]
    index holds for the funding account in the debt asset, or the id the
    next created call order gets. *)
Definition updated_call_order (o : call_order_update_operation.t) (d : database) : N :=
  match find_by_account o.(funding_account) (symbol o.(delta_debt)) d with
  | Some (call_obj, _) => call_obj
  | None => next_call_order_id d
  end.

(** Debt and collateral of that order once the deltas are added. *)
Definition resulting_debt (o : call_order_update_operation.t) (d : database) : Z :=
  match find_by_account o.(funding_account) (symbol o.(delta_debt)) d with
  | Some (_, call) => debt call + amount o.(delta_debt)
  | None => amount o.(delta_debt)
  end.

Definition resulting_collateral (o : call_order_update_operation.t) (d : database) : Z :=
  match find_by_account o.(funding_account) (symbol o.(delta_debt)) d with
  | Some (_, call) => collateral call + amount o.(delta_collateral)
  | None => amount o.(delta_collateral)
  end.
End quantities.

(** [total_core_in_orders] of an account, zero when the account or its
    statistics object is missing. *)
Definition core_in_orders (d : database) (who : string) : Z :=
  match accounts d !! who with
  | Some account =>
      match account_statistics d !! statistics account with
      | Some stats => total_core_in_orders stats
      | None => 0
      end
  | None => 0
  end.

(** The supply of an asset, zero when the asset or its dynamic data is
    missing. *)
Definition supply_of (d : database) (sym : N) : Z :=
  match assets d !! sym with
  | Some a =>
      match asset_dynamic_data d !! dynamic_asset_data_id a with
      | Some dynamic_asset => current_supply dynamic_asset
      | None => 0
      end
  | None => 0
  end.

(** ** A small ledger for the examples

    Two assets: the core asset (symbol 1) and a market-issued asset (symbol
    2) backed by it, with a published feed.  One account, alice, holding 100
    of the core asset and 5 of the market-issued one. *)
Module sample.
Definition core : N := 1.
Definition usd : N := 2.

(** Prices as pairs of amounts, compared by cross-multiplication; the call
    price of a position is its collateral against its debt scaled by the
    maintenance ratio (in thousandths). *)
Definition protocol : Protocol := {|
  STEEM_SYMBOL := core;
  get_price op :=
    mk_price (limit_order_create_operation.amount_to_sell op)
             (limit_order_create_operation.min_to_receive op);
  price_call_price debt_amount collateral_amount ratio :=
    mk_price (mk_asset (amount collateral_amount * 1000) (symbol collateral_amount))
             (mk_asset (amount debt_amount * ratio) (symbol debt_amount));
  price_is_null p := (amount (base p) =? 0) || (amount (quote p) =? 0);
  price_inv p := mk_price (quote p) (base p);
  price_lt a b := amount (base a) * amount (quote b) <? amount (base b) * amount (quote a);
  debt_type c := symbol (quote (call_price c));
  collateral_type c := symbol (base (call_price c))
|}.

(** Balances may not go negative; nothing ever matches; a cancelled order
    is deleted. *)
Definition accessor : Accessor := {|
  is_authorized_asset _ _ _ := true;
  adjust_balance owner delta d :=
    if 0 <=? amount (get_balance d owner (symbol delta)) + amount delta
    then (Ok tt, credit owner delta d)
    else (Throw (collaborator_exception 0), d);
  apply_order _ d := (Ok false, d);
  cancel_order cancelled _ d := (Ok tt, set_limit_orders (delete cancelled) d);
  check_call_orders _ _ d := (Ok false, d);
  check_call_orders_default := true
|}.



(** A build with assertions compiled in, and one with [NDEBUG] defined. *)
Definition build : Build := {| NDEBUG := false |}.

Definition release_build : Build := {| NDEBUG := true |}.

Definition feed : price_feed :=
  mk_price_feed (mk_price (mk_asset 1 usd) (mk_asset 2 core)) 1750.

Definition db : database := {|
  head_block_time := 1000;
  accounts := {[ "alice" := mk_account 0 ]};
  account_statistics := {[ 0%N := mk_statistics 0 ]};
  balances := {[ ("alice", core) := 100; ("alice", usd) := 5 ]};
  assets := {[ core := mk_asset_object ∅ ∅ None 0;
               usd := mk_asset_object ∅ ∅ (Some 0%N) 1 ]};
  asset_dynamic_data := {[ 0%N := mk_dynamic 1000; 1%N := mk_dynamic 50 ]};
  asset_bitasset_data := {[ 0%N := mk_bitasset false core feed false ]};
  limit_orders := ∅;
  next_limit_order_id := 0;
  call_orders := ∅;
  next_call_order_id := 0
|}.

Definition w : world := mk_world db [].

(** alice as the fee payer of a limit order; an order selling all her core
    asset, and one selling her market-issued asset, kill-unless-filled. *)
Definition creator : limit_order_create_evaluator.t :=
  limit_order_create_evaluator.mk "alice" 0.

Definition sell_core : limit_order_create_operation.t :=
  limit_order_create_operation.mk "alice" (mk_asset 100 core) (mk_asset 50 usd) false 2000.

Definition sell_usd_or_kill : limit_order_create_operation.t :=
  limit_order_create_operation.mk "alice" (mk_asset 5 usd) (mk_asset 10 core) true 2000.

(** A ledger on which alice has an order resting, and the operation by
    which she cancels it. *)
Definition resting : limit_order_object :=
  mk_limit_order "alice" 100 (mk_price (mk_asset 100 core) (mk_asset 50 usd)) 2000 0.

Definition w_resting : world :=
  mk_world (set_next_limit_order_id 1 (set_limit_orders (<[0%N := resting]>) db)) [].

Definition cancel_own : limit_order_cancel_operation.t :=
  limit_order_cancel_operation.mk 0 "alice".

(** alice borrows 10 of the market-issued asset against 40 of the core
    asset; alice pays 10 of debt back while holding 5. *)
Definition position : call_order_update_evaluator.resolved :=
  call_order_update_evaluator.mk_resolved "alice" usd 0.

Definition borrow : call_order_update_operation.t :=
  call_order_update_operation.mk "alice" (mk_asset 40 core) (mk_asset 10 usd).

Definition repay_uncovered : call_order_update_operation.t :=
  call_order_update_operation.mk "alice" (mk_asset 0 core) (mk_asset (-10) usd).

(** alice adds 40 of collateral and leaves the debt as it is. *)
Definition top_up : call_order_update_operation.t :=
  call_order_update_operation.mk "alice" (mk_asset 40 core) (mk_asset 0 usd).

(** alice gives the 10 borrowed back and takes her 40 of collateral out;
    alice borrows 10 against 20 only. *)
Definition close : call_order_update_operation.t :=
  call_order_update_operation.mk "alice" (mk_asset (-40) core) (mk_asset (-10) usd).

Definition borrow_thin : call_order_update_operation.t :=
  call_order_update_operation.mk "alice" (mk_asset 20 core) (mk_asset 10 usd).

(** The same ledger with the market-issued asset a prediction market. *)
Definition db_prediction : database :=
  mk_database (head_block_time db) (accounts db) (account_statistics db) (balances db)
    (assets db) (asset_dynamic_data db) {[ 0%N := mk_bitasset true core feed false ]}
    (limit_orders db) (next_limit_order_id db) (call_orders db) (next_call_order_id db).
End sample.

(** ** Calls, invariants and further properties of the collaborators *)

(** An evaluation that calls no recorded collaborator, whatever its
    outcome. *)
Definition quiet {A} (m : evaluation A) : Prop := ∀ w, calls (m w).2 = calls w.

(** An evaluation whose recorded calls, whatever its outcome, are a list
    that [allowed] accepts, added to those recorded before. *)
Definition emits {A} (allowed : list collaborator_call → Prop) (m : evaluation A) : Prop :=
  ∀ w, ∃ made, calls (m w).2 = (calls w ++ made)%list ∧ allowed made.

(** Every stored call order has an id below the next id of its table:
    [create] never takes the place of a stored object. *)
Definition call_order_ids_below_next (d : database) : Prop :=
  map_Forall (fun (id : N) (_ : call_order_object) => (id < next_call_order_id d)%N)
    (call_orders d).

(** The [by_account] index holds at most one call order for a borrower and
    a debt asset. *)
Definition unique_by_account `{Protocol} (d : database) : Prop :=
  ∀ id1 id2 call1 call2,
    call_orders d !! id1 = Some call1 → call_orders d !! id2 = Some call2 →
    borrower call1 = borrower call2 → debt_type call1 = debt_type call2 →
    id1 = id2.

(** The assets a call order is denominated in are read off its call price. *)
Definition denomination_by_price `{Protocol} : Prop :=
  ∀ call1 call2,
    call_price call1 = call_price call2 →
    debt_type call1 = debt_type call2 ∧ collateral_type call1 = collateral_type call2.

(** The collaborators return or throw: they do not end the process. *)
Definition collaborators_return `{Accessor} : Prop :=
  (∀ owner delta d, (adjust_balance owner delta d).1 ≠ Abort) ∧
  (∀ new_order d, (apply_order new_order d).1 ≠ Abort) ∧
  (∀ cancelled create_virtual_op d, (cancel_order cancelled create_virtual_op d).1 ≠ Abort) ∧
  (∀ mia enable_black_swan d, (check_call_orders mia enable_black_swan d).1 ≠ Abort).

(** ** More cases on the sample ledger *)
Module cases.
(** An order that expired before the head block. *)
Definition expired : limit_order_create_operation.t :=
  limit_order_create_operation.mk "alice" (mk_asset 100 sample.core) (mk_asset 50 sample.usd)
    false 999.

(** The ledger with the core asset barred from trading against the
    market-issued asset. *)
Definition db_blacklisted : database :=
  mk_database (head_block_time sample.db) (accounts sample.db)
    (account_statistics sample.db) (balances sample.db)
    {[ sample.core := mk_asset_object ∅ {[ sample.usd ]} None 0;
       sample.usd := mk_asset_object ∅ ∅ (Some 0%N) 1 ]}
    (asset_dynamic_data sample.db) (asset_bitasset_data sample.db)
    (limit_orders sample.db) (next_limit_order_id sample.db)
    (call_orders sample.db) (next_call_order_id sample.db).

(** The ledger with no feed published for the market-issued asset. *)
Definition no_feed : price_feed :=
  mk_price_feed (mk_price (mk_asset 0 sample.usd) (mk_asset 0 sample.core)) 1750.

Definition db_no_feed : database :=
  mk_database (head_block_time sample.db) (accounts sample.db)
    (account_statistics sample.db) (balances sample.db) (assets sample.db)
    (asset_dynamic_data sample.db) {[ 0%N := mk_bitasset false sample.core no_feed false ]}
    (limit_orders sample.db) (next_limit_order_id sample.db)
    (call_orders sample.db) (next_call_order_id sample.db).

(** The ledger after alice has borrowed 10 against 40. *)
Definition opened : call_order_object :=
  mk_call_order "alice" 40 10
    (mk_price (mk_asset 40000 sample.core) (mk_asset 17500 sample.usd)).

Definition db_opened : database :=
  mk_database (head_block_time sample.db) (accounts sample.db)
    {[ 0%N := mk_statistics 40 ]}
    {[ ("alice", sample.core) := 60; ("alice", sample.usd) := 15 ]}
    (assets sample.db)
    {[ 0%N := mk_dynamic 1000; 1%N := mk_dynamic 60 ]}
    (asset_bitasset_data sample.db)
    (limit_orders sample.db) (next_limit_order_id sample.db)
    {[ 0%N := opened ]} 1.

(** The ledger on which alice owes 10 against 40 and bob owes 20 against
    90, and carol, who has no position, borrowing 10 against 40. *)
Definition bob_opened : call_order_object :=
  mk_call_order "bob" 90 20
    (mk_price (mk_asset 90000 sample.core) (mk_asset 35000 sample.usd)).

Definition db_two_positions : database :=
  mk_database (head_block_time sample.db) (accounts sample.db)
    (account_statistics sample.db) (balances sample.db) (assets sample.db)
    (asset_dynamic_data sample.db) (asset_bitasset_data sample.db)
    (limit_orders sample.db) (next_limit_order_id sample.db)
    {[ 0%N := opened; 1%N := bob_opened ]} 2.

Definition carol_borrow : call_order_update_operation.t :=
  call_order_update_operation.mk "carol" (mk_asset 40 sample.core) (mk_asset 10 sample.usd).

(** A ledger that records a supply of 3 of the market-issued asset while
    alice holds 5 of it. *)
Definition db_short_supply : database :=
  mk_database (head_block_time sample.db) (accounts sample.db)
    (account_statistics sample.db) (balances sample.db) (assets sample.db)
    {[ 0%N := mk_dynamic 1000; 1%N := mk_dynamic 3 ]}
    (asset_bitasset_data sample.db)
    (limit_orders sample.db) (next_limit_order_id sample.db)
    (call_orders sample.db) (next_call_order_id sample.db).

(** Call order updates: taking collateral out of no position; paying the
    debt back and leaving collateral in; paying 4 back. *)
Definition withdraw_only : call_order_update_operation.t :=
  call_order_update_operation.mk "alice" (mk_asset (-10) sample.core) (mk_asset 5 sample.usd).

Definition repay_only : call_order_update_operation.t :=
  call_order_update_operation.mk "alice" (mk_asset 0 sample.core) (mk_asset (-10) sample.usd).

Definition repay_four : call_order_update_operation.t :=
  call_order_update_operation.mk "alice" (mk_asset 0 sample.core) (mk_asset (-4) sample.usd).

(** A prediction market position: 10 against 10. *)
Definition even : call_order_update_operation.t :=
  call_order_update_operation.mk "alice" (mk_asset 10 sample.core) (mk_asset 10 sample.usd).
End cases.

(** * Properties *)

(** ** Running evaluations step by step *)

Section steps.
Context {A B : Type}.
Implicit Types (m : evaluation A) (k : A → evaluation B) (w : world).

Lemma bind_run m k w :
  (m ≫= k) w =
    match m w with
    | (Ok a, w') => k a w'
    | (Throw e, w') => (Throw e, w')
    | (Abort, w') => (Abort, w')
    end.
Proof. reflexivity. Qed.

Lemma bind_Ok m k w a w1 : m w = (Ok a, w1) → (m ≫= k) w = k a w1.
Proof. intros Hm. rewrite bind_run, Hm. reflexivity. Qed.

Lemma bind_Throw m k w e w1 : m w = (Throw e, w1) → (m ≫= k) w = (Throw e, w1).
Proof. intros Hm. rewrite bind_run, Hm. reflexivity. Qed.

Lemma bind_Abort m k w w1 : m w = (Abort, w1) → (m ≫= k) w = (Abort, w1).
Proof. intros Hm. rewrite bind_run, Hm. reflexivity. Qed.

Lemma bind_Ok_inv m k w b w' :
  (m ≫= k) w = (Ok b, w') → ∃ a w1, m w = (Ok a, w1) ∧ k a w1 = (Ok b, w').
Proof.
  rewrite bind_run. destruct (m w) as [[a | e |] w1]; intros Hk.
  - exists a, w1. split; [reflexivity | exact Hk].
  - discriminate Hk.
  - discriminate Hk.
Qed.
End steps.

Section primitive_steps.
Context {A : Type}.
Implicit Types (f : database → option A) (w : world).

Lemma ret_inv (a b : A) w w' : ret a w = (Ok b, w') → b = a ∧ w' = w.
Proof. intros [= -> ->]. split; reflexivity. Qed.

Lemma read_inv (g : database → A) w a w' :
  read g w = (Ok a, w') → a = g (ledger w) ∧ w' = w.
Proof. intros [= <- <-]. split; reflexivity. Qed.

Lemma get_object_Some f w a : f (ledger w) = Some a → get_object f w = (Ok a, w).
Proof. unfold get_object. intros ->. reflexivity. Qed.

Lemma get_object_None f w : f (ledger w) = None → get_object f w = (Throw object_not_found, w).
Proof. unfold get_object. intros ->. reflexivity. Qed.

Lemma get_object_inv f w a w' :
  get_object f w = (Ok a, w') → f (ledger w) = Some a ∧ w' = w.
Proof.
  unfold get_object. destruct (f (ledger w)); intros [= <- <-]. split; reflexivity.
Qed.

Lemma deref_Some f w a : f (ledger w) = Some a → deref f w = (Ok a, w).
Proof. unfold deref. intros ->. reflexivity. Qed.

Lemma deref_inv f w a w' : deref f w = (Ok a, w') → f (ledger w) = Some a ∧ w' = w.
Proof.
  unfold deref. destruct (f (ledger w)); intros [= <- <-]. split; reflexivity.
Qed.

Lemma lift_inv (g : database → outcome A * database) w a w' :
  lift g w = (Ok a, w') → ∃ d', g (ledger w) = (Ok a, d') ∧ w' = mk_world d' (calls w).
Proof.
  unfold lift. destruct (g (ledger w)) as [r d']. intros [= -> <-].
  exists d'. split; reflexivity.
Qed.

Lemma lift_run (g : database → outcome A * database) w r d' :
  g (ledger w) = (r, d') → lift g w = (r, mk_world d' (calls w)).
Proof. unfold lift. intros ->. reflexivity. Qed.

Lemma invoke_inv c (g : database → outcome A * database) w a w' :
  invoke c g w = (Ok a, w') →
  ∃ d', g (ledger w) = (Ok a, d') ∧ w' = mk_world d' (calls w ++ [c]).
Proof.
  unfold invoke. destruct (g (ledger w)) as [r d']. intros [= -> <-].
  exists d'. split; reflexivity.
Qed.

Lemma invoke_run c (g : database → outcome A * database) w r d' :
  g (ledger w) = (r, d') → invoke c g w = (r, mk_world d' (calls w ++ [c])).
Proof. unfold invoke. intros ->. reflexivity. Qed.
End primitive_steps.

Lemma FC_ASSERT_inv cond text w u w' :
  FC_ASSERT cond text w = (Ok u, w') → cond = true ∧ w' = w.
Proof. destruct cond; intros Hrun; inversion Hrun. split; reflexivity. Qed.

Lemma STEEMIT_ASSERT_inv {A} cond e (args : evaluation A) w u w' :
  STEEMIT_ASSERT cond e args w = (Ok u, w') → cond = true ∧ w' = w.
Proof.
  destruct cond; intros Hrun.
  - inversion Hrun. split; reflexivity.
  - unfold STEEMIT_ASSERT in Hrun. rewrite bind_run in Hrun.
    destruct (args w) as [[a | e' |] w1]; discriminate Hrun.
Qed.

Lemma c_assert_inv `{Build} cond w u w' :
  c_assert cond w = (Ok u, w') → (NDEBUG = false → cond = true) ∧ w' = w.
Proof.
  unfold c_assert. destruct NDEBUG.
  - intros Hrun; inversion Hrun. split; [discriminate | reflexivity].
  - destruct cond; intros Hrun; inversion Hrun. split; reflexivity.
Qed.

Lemma update_inv f w u w' :
  update f w = (Ok u, w') → w' = mk_world (f (ledger w)) (calls w).
Proof. intros Hrun; inversion Hrun. reflexivity. Qed.

Lemma deref_asset_inv p w a w' :
  deref_asset p w = (Ok a, w') →
  ∃ sym, p = Some sym ∧ assets (ledger w) !! sym = Some a ∧ w' = w.
Proof.
  destruct p as [sym |]; simpl; intros Hrun; [| discriminate Hrun].
  apply deref_inv in Hrun as [Hptr ->]. exists sym. auto.
Qed.

(** Inversion of a run that ended in [Ok]: binds are split, branches are
    told apart and the steps of the primitives are turned into facts about
    the store. *)
Ltac invert_run :=
  repeat match goal with
    | H : (_ ≫= _) _ = (Ok _, _) |- _ =>
        apply bind_Ok_inv in H; destruct H as (? & ? & ? & ?)
    | H : ret _ _ = (Ok _, _) |- _ => apply ret_inv in H; destruct H as [? ?]; subst
    | H : read _ _ = (Ok _, _) |- _ => apply read_inv in H; destruct H as [? ?]; subst
    | H : get_object _ _ = (Ok _, _) |- _ =>
        apply get_object_inv in H; destruct H as [? ?]; subst
    | H : deref _ _ = (Ok _, _) |- _ => apply deref_inv in H; destruct H as [? ?]; subst
    | H : deref_asset _ _ = (Ok _, _) |- _ =>
        apply deref_asset_inv in H; destruct H as (? & ? & ? & ?); subst
    | H : FC_ASSERT _ _ _ = (Ok _, _) |- _ =>
        apply FC_ASSERT_inv in H; destruct H as [? ?]; subst
    | H : STEEMIT_ASSERT _ _ _ _ = (Ok _, _) |- _ =>
        apply STEEMIT_ASSERT_inv in H; destruct H as [? ?]; subst
    | H : c_assert _ _ = (Ok _, _) |- _ =>
        apply c_assert_inv in H; destruct H as [? ?]; subst
    | H : update _ _ = (Ok _, _) |- _ => apply update_inv in H; subst
    | H : lift _ _ = (Ok _, _) |- _ =>
        apply lift_inv in H; destruct H as (? & ? & ?); subst
    | H : invoke _ _ _ = (Ok _, _) |- _ =>
        apply invoke_inv in H; destruct H as (? & ? & ?); subst
    | H : abort _ = (Ok _, _) |- _ => discriminate H
    | H : false = true |- _ => discriminate H
    | H : throw _ _ = (Ok _, _) |- _ => discriminate H
    | H : (if ?c then _ else _) _ = (Ok _, _) |- _ => destruct c eqn:?
    | H : (match ?x with Some _ => _ | None => _ end) _ = (Ok _, _) |- _ =>
        destruct x eqn:?
    end.

(** ** The Validate phases only read *)

Lemma read_only_bind {A B} (m : evaluation A) (k : A → evaluation B) :
  read_only m → (∀ a, read_only (k a)) → read_only (m ≫= k).
Proof.
  intros Hm Hk w. rewrite bind_run. specialize (Hm w).
  destruct (m w) as [[a | e |] w1]; simpl in Hm; subst; [apply Hk | reflexivity | reflexivity].
Qed.

Lemma read_only_ret {A} (a : A) : read_only (ret a).
Proof. intros w. reflexivity. Qed.

Lemma read_only_throw {A} e : read_only (throw (A := A) e).
Proof. intros w. reflexivity. Qed.

Lemma read_only_abort {A} : read_only (abort (A := A)).
Proof. intros w. reflexivity. Qed.

Lemma read_only_read {A} (f : database → A) : read_only (read f).
Proof. intros w. reflexivity. Qed.

Lemma read_only_get_object {A} (f : database → option A) : read_only (get_object f).
Proof. intros w. unfold get_object. destruct (f (ledger w)); reflexivity. Qed.

Lemma read_only_deref {A} (f : database → option A) : read_only (deref f).
Proof. intros w. unfold deref. destruct (f (ledger w)); reflexivity. Qed.

Lemma read_only_FC_ASSERT cond text : read_only (FC_ASSERT cond text).
Proof. intros w. destruct cond; reflexivity. Qed.

Lemma read_only_deref_asset p : read_only (deref_asset p).
Proof. destruct p; [apply read_only_deref | apply read_only_abort]. Qed.

Lemma read_only_bitasset_data a : read_only (bitasset_data a).
Proof.
  unfold bitasset_data. destruct (bitasset_data_id a).
  - apply read_only_bind; [apply read_only_get_object | intros; apply read_only_ret].
  - apply read_only_throw.
Qed.

Create HintDb read_only.
#[export] Hint Resolve read_only_ret read_only_throw read_only_abort read_only_read
  read_only_get_object read_only_deref read_only_FC_ASSERT read_only_deref_asset
  read_only_bitasset_data : read_only.

Ltac read_only_steps :=
  repeat first
    [ progress auto with read_only
    | apply read_only_bind; [| intros ?]
    | match goal with
      | |- read_only (if ?b then _ else _) => destruct b
      | |- read_only (match ?x with _ => _ end) => destruct x
      end ].

Lemma limit_order_create_validate_read_only `{Protocol} `{Accessor} ev op :
  read_only (limit_order_create_evaluator.validate ev op).
Proof. unfold limit_order_create_evaluator.validate. read_only_steps. Qed.

Lemma limit_order_cancel_validate_read_only o :
  read_only (limit_order_cancel_evaluator.validate o).
Proof. unfold limit_order_cancel_evaluator.validate. read_only_steps. Qed.

Lemma call_order_update_validate_read_only `{Protocol} o :
  read_only (call_order_update_evaluator.validate o).
Proof. unfold call_order_update_evaluator.validate. read_only_steps. Qed.

(** ** Creating a limit order *)

Section limit_order_create.
Context `{Protocol} `{Accessor}.
Import limit_order_create_operation limit_order_create_evaluator.

Lemma find_asset_inv sym d p :
  find_asset sym d = Some p → p = sym ∧ is_Some (assets d !! sym).
Proof.
  unfold find_asset. destruct (assets d !! sym) eqn:Hlookup; intros [= <-].
  split; [reflexivity | eexists; reflexivity].
Qed.

(** What a successful Validate phase has established. *)
Lemma validate_Ok ev op w r w1 :
  validate ev op w = (Ok r, w1) →
  w1 = w ∧
  r = mk_resolved ev.(fee_paying_account)
        (Some (symbol op.(amount_to_sell))) (Some (symbol op.(min_to_receive))) ∧
  (head_block_time (ledger w) <= op.(expiration))%N ∧
  is_Some (accounts (ledger w) !! ev.(fee_paying_account)) ∧
  amount op.(amount_to_sell) <=
    amount (get_balance (ledger w) ev.(fee_paying_account) (symbol op.(amount_to_sell))).
Proof.
  intros Hrun. unfold validate in Hrun. invert_run.
  all: repeat match goal with
         | Hfind : find_asset _ _ = Some _ |- _ =>
             apply find_asset_inv in Hfind; destruct Hfind as [-> _]
         end.
  all: repeat split; try reflexivity; try (eexists; eassumption).
  all: try (apply N.leb_le; assumption).
  all: match goal with
       | Hge : asset_ge _ _ = true |- _ => unfold asset_ge in Hge; simpl in *; lia
       end.
Qed.

(** Lines 48-55 on a ledger that holds the two accounts and the statistics
    of the seller: the statistics are modified, then the balance is
    adjusted. *)
Lemma lock_funds_run r op w account stats account' :
  accounts (ledger w) !! r.(_seller) = Some account →
  account_statistics (ledger w) !! statistics account = Some stats →
  accounts (ledger w) !! op.(seller) = Some account' →
  lock_funds r op w =
    lift (adjust_balance op.(seller) (asset_neg op.(amount_to_sell)))
      (mk_world
         (set_account_statistics (alter (fun bal =>
            if (symbol op.(amount_to_sell) =? STEEM_SYMBOL)%N
            then mk_statistics (total_core_in_orders bal + amount op.(amount_to_sell))
            else bal) (statistics account)) (ledger w))
         (calls w)).
Proof.
  intros Hseller Hstats Hpayer. unfold lock_funds.
  rewrite (bind_Ok _ _ w account w) by (apply deref_Some; exact Hseller).
  rewrite (bind_Ok _ _ w stats w) by (apply get_object_Some; exact Hstats).
  rewrite bind_run. simpl.
  rewrite (bind_Ok _ _ _ account' _) by (apply get_object_Some; exact Hpayer).
  reflexivity.
Qed.

Lemma lock_funds_Ok r op w w' :
  adjust_balance_credits →
  lock_funds r op w = (Ok tt, w') →
  ∃ account stats,
    accounts (ledger w) !! r.(_seller) = Some account ∧
    account_statistics (ledger w) !! statistics account = Some stats ∧
    w' = mk_world
           (credit op.(seller) (asset_neg op.(amount_to_sell))
              (set_account_statistics (alter (fun bal =>
                 if (symbol op.(amount_to_sell) =? STEEM_SYMBOL)%N
                 then mk_statistics (total_core_in_orders bal + amount op.(amount_to_sell))
                 else bal) (statistics account)) (ledger w)))
           (calls w).
Proof.
  intros Hcredits Hrun. unfold lock_funds in Hrun. invert_run.
  match goal with
  | Hadjust : adjust_balance _ _ _ = (Ok ?u, _) |- _ =>
      destruct u; apply Hcredits in Hadjust; subst
  end.
  cbn [ledger calls] in *.
  eexists _, _. repeat split; eassumption.
Qed.

Lemma get_balance_credit d owner delta :
  amount (get_balance (credit owner delta d) owner (symbol delta)) =
  amount (get_balance d owner (symbol delta)) + amount delta.
Proof. unfold get_balance, credit. simpl. rewrite lookup_insert_eq. reflexivity. Qed.

Lemma get_balance_set_account_statistics f d owner sym :
  get_balance (set_account_statistics f d) owner sym = get_balance d owner sym.
Proof. reflexivity. Qed.

(** C5. After a successful Validate phase by the seller, on a ledger that
    holds the seller's statistics, the Execute phase debits the seller's
    balance of the asset sold by exactly [amount_to_sell] and, when that
    asset is the core asset, adds exactly the same amount to the seller's
    [total_core_in_orders]; the order is then created and matched on the
    ledger so changed. *)
Theorem limit_order_create_locks_amount_to_sell ev op w r w1 account stats :
  adjust_balance_covered →
  validate ev op w = (Ok r, w1) →
  ev.(fee_paying_account) = op.(seller) →
  accounts (ledger w) !! op.(seller) = Some account →
  account_statistics (ledger w) !! statistics account = Some stats →
  ∃ w2,
    lock_funds r op w1 = (Ok tt, w2) ∧
    execute ev r op w1 = place_order ev r op w2 ∧
    amount (get_balance (ledger w2) op.(seller) (symbol op.(amount_to_sell))) =
      amount (get_balance (ledger w) op.(seller) (symbol op.(amount_to_sell)))
      - amount op.(amount_to_sell) ∧
    (symbol op.(amount_to_sell) = STEEM_SYMBOL →
     core_in_orders (ledger w2) op.(seller) =
       core_in_orders (ledger w) op.(seller) + amount op.(amount_to_sell)).
Proof.
  intros Hcovered Hvalid Hpayer Haccount Hstats.
  apply validate_Ok in Hvalid as (-> & -> & _ & _ & Hbalance).
  rewrite Hpayer in Hbalance.
  set (locked := set_account_statistics (alter (fun bal =>
         if (symbol op.(amount_to_sell) =? STEEM_SYMBOL)%N
         then mk_statistics (total_core_in_orders bal + amount op.(amount_to_sell))
         else bal) (statistics account)) (ledger w)).
  assert (Hlock : lock_funds
                    (mk_resolved ev.(fee_paying_account)
                       (Some (symbol op.(amount_to_sell)))
                       (Some (symbol op.(min_to_receive)))) op w =
                  (Ok tt, mk_world (credit op.(seller) (asset_neg op.(amount_to_sell)) locked)
                            (calls w))).
  { rewrite (lock_funds_run _ op w account stats account);
      simpl; rewrite ?Hpayer; try assumption.
    apply (lift_run _ (mk_world locked (calls w))). simpl. apply Hcovered.
    unfold get_balance in *. simpl in *. lia. }
  eexists. split; [exact Hlock |]. split; [| split].
  - unfold execute. rewrite (bind_Ok _ _ _ _ _ Hlock). reflexivity.
  - unfold get_balance, credit, locked. simpl. rewrite lookup_insert_eq. simpl. lia.
  - intros Hcore. unfold core_in_orders. simpl. rewrite Haccount.
    rewrite lookup_alter_eq, Hstats. simpl.
    apply N.eqb_eq in Hcore. rewrite Hcore. reflexivity.
Qed.

Lemma create_limit_order_run o w :
  create_limit_order o w =
    (Ok (next_limit_order_id (ledger w)),
     mk_world
       (set_next_limit_order_id (N.succ (next_limit_order_id (ledger w)))
          (set_limit_orders (<[next_limit_order_id (ledger w) := o]>) (ledger w)))
       (calls w)).
Proof. reflexivity. Qed.

(** C10. When the asset sold is not the core asset, lines 48-55 leave the
    statistics of every account, and so the seller's
    [total_core_in_orders], as they were, and the order is created and
    matched on that ledger.  The statistics object is nevertheless looked
    up and passed to [modify] whatever the asset: without it the phase
    throws. *)
Theorem limit_order_create_other_asset_keeps_core_in_orders ev r op w w' :
  adjust_balance_credits →
  symbol op.(amount_to_sell) ≠ STEEM_SYMBOL →
  lock_funds r op w = (Ok tt, w') →
  account_statistics (ledger w') = account_statistics (ledger w) ∧
  core_in_orders (ledger w') r.(_seller) = core_in_orders (ledger w) r.(_seller) ∧
  execute ev r op w = place_order ev r op w' ∧
  (∀ w0 account,
     accounts (ledger w0) !! r.(_seller) = Some account →
     account_statistics (ledger w0) !! statistics account = None →
     lock_funds r op w0 = (Throw object_not_found, w0)).
Proof.
  intros Hcredits Hother Hrun.
  assert (Hexec : execute ev r op w = place_order ev r op w').
  { unfold execute. rewrite (bind_Ok _ _ _ _ _ Hrun). reflexivity. }
  apply (lock_funds_Ok _ _ _ _ Hcredits) in Hrun as (account & stats & Haccount & Hstats & ->).
  apply N.eqb_neq in Hother. rewrite Hother in *.
  assert (Hsame : alter (fun bal : account_statistics_object => bal) (statistics account)
                    (account_statistics (ledger w)) = account_statistics (ledger w)).
  { apply alter_id. reflexivity. }
  repeat split.
  - simpl. exact Hsame.
  - unfold core_in_orders. simpl. rewrite Hsame. reflexivity.
  - exact Hexec.
  - intros w0 account0 Haccount0 Hstats0. unfold lock_funds.
    rewrite (bind_Ok _ _ w0 account0 w0) by (apply deref_Some; exact Haccount0).
    apply bind_Throw. apply get_object_None. exact Hstats0.
Qed.

(** C6. Once the funds are locked, the order is created under the next
    free id and handed to the matching trigger.  When the trigger returns
    [filled], the operation ends as follows: with [fill_or_kill] set it
    succeeds if [filled] is true and throws the assertion
    [!op.fill_or_kill || filled] (the FillOrKillFailed of the specification)
    if not; with [fill_or_kill] unset it succeeds whatever [filled] is.  In
    each case the ledger is the one the trigger left. *)
Theorem limit_order_create_fill_or_kill ev op w r w1 w2 account filled d' :
  validate ev op w = (Ok r, w1) →
  lock_funds r op w1 = (Ok tt, w2) →
  accounts (ledger w2) !! r.(_seller) = Some account →
  let new_order := next_limit_order_id (ledger w2) in
  let placed :=
    set_next_limit_order_id (N.succ new_order)
      (set_limit_orders
         (<[new_order := mk_limit_order r.(_seller) (amount op.(amount_to_sell))
                           (get_price op) op.(expiration) ev.(_deferred_fee)]>)
         (ledger w2)) in
  apply_order new_order placed = (Ok filled, d') →
  (do_apply ev op w).2 = mk_world d' (calls w2 ++ [called_apply_order new_order]) ∧
  (op.(fill_or_kill) = true → filled = true → (do_apply ev op w).1 = Ok tt) ∧
  (op.(fill_or_kill) = true → filled = false →
   (do_apply ev op w).1 = Throw (assert_exception "!op.fill_or_kill || filled")) ∧
  (op.(fill_or_kill) = false → (do_apply ev op w).1 = Ok tt).
Proof.
  intros Hvalid Hlock Hseller new_order placed Hmatch.
  assert (Hrun : do_apply ev op w =
                 FC_ASSERT (negb op.(fill_or_kill) || filled) "!op.fill_or_kill || filled"
                   (mk_world d' (calls w2 ++ [called_apply_order new_order]))).
  { unfold do_apply. rewrite (bind_Ok _ _ _ _ _ Hvalid).
    unfold execute. rewrite (bind_Ok _ _ _ _ _ Hlock).
    unfold place_order.
    rewrite (bind_Ok _ _ w2 account w2) by (apply deref_Some; exact Hseller).
    rewrite (bind_Ok _ _ _ _ _ (create_limit_order_run _ w2)).
    fold new_order. fold placed.
    rewrite (bind_Ok _ _ _ filled (mk_world d' (calls w2 ++ [called_apply_order new_order])))
      by (apply (invoke_run _ _ (mk_world placed (calls w2))); exact Hmatch).
    reflexivity. }
  rewrite Hrun. repeat split.
  - destruct (fill_or_kill op), filled; reflexivity.
  - intros -> ->. reflexivity.
  - intros -> ->. reflexivity.
  - intros ->. reflexivity.
Qed.
End limit_order_create.

(** The collaborators of the sample ledger have the properties assumed
    above. *)
Lemma sample_adjust_balance_credits : @adjust_balance_credits sample.accessor.
Proof.
  intros owner delta d d'. simpl.
  destruct (0 <=? _); intros Hrun; inversion Hrun. reflexivity.
Qed.

Lemma sample_adjust_balance_covered : @adjust_balance_covered sample.accessor.
Proof.
  intros owner delta d Hcover. simpl.
  destruct (0 <=? _) eqn:Hle; [reflexivity |].
  apply Z.leb_gt in Hle. unfold get_balance in Hcover. simpl in Hcover. lia.
Qed.

Lemma sample_no_fill_no_change : @no_fill_no_change sample.accessor.
Proof. intros mia flag d d' Hrun. inversion Hrun. split; reflexivity. Qed.

Lemma sample_cancel_order_removes : @cancel_order_removes sample.accessor.
Proof.
  intros cancelled flag d d' Hrun. inversion Hrun. simpl. apply lookup_delete_eq.
Qed.

Lemma sample_check_call_orders_creates_no_limit_order :
  @check_call_orders_creates_no_limit_order sample.accessor.
Proof. intros mia flag d filled d' placed Hrun Hfree. inversion Hrun. subst. exact Hfree. Qed.

Lemma sample_call_price_denomination : @call_price_denomination sample.protocol.
Proof. intros who held owed debt_amount collateral_amount ratio. split; reflexivity. Qed.

(** alice sells her 100 of the core asset: the balance goes to 0 and
    [total_core_in_orders] to 100. *)
Lemma limit_order_create_locks_amount_to_sell_witness :
  ∃ w2,
    limit_order_create_evaluator.lock_funds (H := sample.protocol) (H0 := sample.accessor)
      (limit_order_create_evaluator.mk_resolved "alice" (Some sample.core) (Some sample.usd))
      sample.sell_core sample.w = (Ok tt, w2) ∧
    amount (get_balance (ledger w2) "alice" sample.core) = 0 ∧
    core_in_orders (ledger w2) "alice" = 100.
Proof.
  destruct (@limit_order_create_locks_amount_to_sell sample.protocol sample.accessor
              sample.creator sample.sell_core sample.w
              (limit_order_create_evaluator.mk_resolved "alice" (Some sample.core) (Some sample.usd))
              sample.w (mk_account 0) (mk_statistics 0))
    as (w2 & Hlock & _ & Hbalance & Hcore).
  - exact sample_adjust_balance_covered.
  - vm_compute. reflexivity.
  - reflexivity.
  - vm_compute. reflexivity.
  - vm_compute. reflexivity.
  - exists w2. split; [exact Hlock |]. split.
    + exact Hbalance.
    + apply Hcore. reflexivity.
Defined.

(** alice sells her 5 of the market-issued asset: her statistics stay as
    they were. *)
Lemma limit_order_create_other_asset_keeps_core_in_orders_witness :
  core_in_orders
    (credit "alice" (mk_asset (-5) sample.usd) sample.db) "alice" = 0.
Proof.
  pose proof (@limit_order_create_other_asset_keeps_core_in_orders
                sample.protocol sample.accessor sample.creator
                (limit_order_create_evaluator.mk_resolved "alice" (Some sample.usd) (Some sample.core))
                sample.sell_usd_or_kill sample.w
                (mk_world (credit "alice" (mk_asset (-5) sample.usd) sample.db) [])
                sample_adjust_balance_credits) as Hkeeps.
  destruct Hkeeps as (_ & Hcore & _).
  - vm_compute. discriminate.
  - vm_compute. reflexivity.
  - exact Hcore.
Defined.

(** alice's kill-unless-filled order finds no match and is rejected. *)
Lemma limit_order_create_fill_or_kill_witness :
  (limit_order_create_evaluator.do_apply (H := sample.protocol) (H0 := sample.accessor)
     sample.creator sample.sell_usd_or_kill sample.w).1 =
  Throw (assert_exception "!op.fill_or_kill || filled").
Proof.
  eapply (@limit_order_create_fill_or_kill sample.protocol sample.accessor
            sample.creator sample.sell_usd_or_kill sample.w
            (limit_order_create_evaluator.mk_resolved "alice" (Some sample.usd) (Some sample.core))
            sample.w
            (mk_world (credit "alice" (mk_asset (-5) sample.usd) sample.db) [])
            (mk_account 0) false).
  - vm_compute. reflexivity.
  - vm_compute. reflexivity.
  - vm_compute. reflexivity.
  - vm_compute. reflexivity.
  - reflexivity.
  - reflexivity.
Defined.

(** ** Cancelling a limit order *)

Section limit_order_cancel.
Context `{Accessor}.
Import limit_order_cancel_operation limit_order_cancel_evaluator.

Lemma cancel_validate_run o w cancelled :
  limit_orders (ledger w) !! o.(order) = Some cancelled →
  validate o w =
    (FC_ASSERT (bool_decide (seller cancelled = o.(fee_paying_account)))
       "_order->seller == o.fee_paying_account";; ret o.(order)) w.
Proof.
  intros Hstored. unfold validate.
  rewrite (bind_Ok _ _ w cancelled w) by (apply get_object_Some; exact Hstored).
  rewrite (bind_Ok _ _ w cancelled w) by (apply deref_Some; exact Hstored).
  reflexivity.
Qed.

(** C7. For a stored order: when the requesting account is not its seller,
    [do_apply] throws the ownership assertion (the NotOwner of the
    specification) and leaves the world as it was; when it is, [do_apply]
    calls [cancel_order] without a virtual operation and then
    [check_call_orders] for the base asset and for the quote asset of the
    order's price, in this order and nothing else, and when these return it
    succeeds on the ledger they left, where the order is no longer stored. *)
Theorem limit_order_cancel_by_seller_only o w cancelled :
  cancel_order_removes →
  check_call_orders_creates_no_limit_order →
  limit_orders (ledger w) !! o.(order) = Some cancelled →
  (seller cancelled ≠ o.(fee_paying_account) →
   do_apply o w =
     (Throw (assert_exception "_order->seller == o.fee_paying_account"), w)) ∧
  (seller cancelled = o.(fee_paying_account) →
   ∀ d1 d2 d3 filled_base filled_quote base_object quote_object,
     let base_asset := symbol (base (sell_price cancelled)) in
     let quote_asset := symbol (quote (sell_price cancelled)) in
     cancel_order o.(order) false (ledger w) = (Ok tt, d1) →
     assets d1 !! base_asset = Some base_object →
     check_call_orders base_asset check_call_orders_default d1 = (Ok filled_base, d2) →
     assets d2 !! quote_asset = Some quote_object →
     check_call_orders quote_asset check_call_orders_default d2 = (Ok filled_quote, d3) →
     do_apply o w =
       (Ok tt,
        mk_world d3
          (calls w ++
             [called_cancel_order o.(order) false;
              called_check_call_orders base_asset check_call_orders_default;
              called_check_call_orders quote_asset check_call_orders_default])) ∧
     limit_orders d3 !! o.(order) = None).
Proof.
  intros Hremoves Hnone Hstored. split.
  - intros Hother. unfold do_apply. rewrite bind_run.
    rewrite (cancel_validate_run _ _ _ Hstored).
    rewrite bool_decide_eq_false_2 by exact Hother. reflexivity.
  - intros Hseller d1 d2 d3 filled_base filled_quote base_object quote_object
      base_asset quote_asset Hcancel Hbase Hcheck_base Hquote Hcheck_quote.
    split.
    + unfold do_apply. rewrite bind_run.
      rewrite (cancel_validate_run _ _ _ Hstored).
      rewrite bool_decide_eq_true_2 by exact Hseller.
      change ((FC_ASSERT true "_order->seller == o.fee_paying_account";; ret o.(order)) w)
        with (Ok o.(order), w).
      unfold execute.
      rewrite (bind_Ok _ _ w cancelled w) by (apply deref_Some; exact Hstored).
      fold base_asset. fold quote_asset.
      rewrite (bind_Ok _ _ w tt (mk_world d1 (calls w ++ [called_cancel_order o.(order) false])))
        by (apply invoke_run; exact Hcancel).
      rewrite (bind_Ok _ _ _ base_object _) by (apply get_object_Some; exact Hbase).
      rewrite (bind_Ok _ _ _ filled_base
                 (mk_world d2 ((calls w ++ [called_cancel_order o.(order) false]) ++
                               [called_check_call_orders base_asset check_call_orders_default])))
        by (apply (invoke_run _ _ (mk_world d1 _)); exact Hcheck_base).
      rewrite (bind_Ok _ _ _ quote_object _) by (apply get_object_Some; exact Hquote).
      rewrite (bind_Ok _ _ _ filled_quote
                 (mk_world d3 (((calls w ++ [called_cancel_order o.(order) false]) ++
                                [called_check_call_orders base_asset check_call_orders_default]) ++
                               [called_check_call_orders quote_asset check_call_orders_default])))
        by (apply (invoke_run _ _ (mk_world d2 _)); exact Hcheck_quote).
      rewrite <- !app_assoc. reflexivity.
    + apply (Hnone _ _ _ _ _ _ Hcheck_quote).
      apply (Hnone _ _ _ _ _ _ Hcheck_base).
      apply (Hremoves _ _ _ _ Hcancel).
Qed.
End limit_order_cancel.

(** alice cancels her resting order. *)
Lemma limit_order_cancel_by_seller_only_witness :
  limit_order_cancel_evaluator.do_apply (H := sample.accessor) sample.cancel_own sample.w_resting =
    (Ok tt,
     mk_world (set_next_limit_order_id 1 (set_limit_orders (fun _ => ∅) sample.db))
       [called_cancel_order 0 false;
        called_check_call_orders sample.core true;
        called_check_call_orders sample.usd true]).
Proof.
  pose proof (@limit_order_cancel_by_seller_only sample.accessor sample.cancel_own
                sample.w_resting sample.resting
                sample_cancel_order_removes
                sample_check_call_orders_creates_no_limit_order) as Hcancel.
  destruct Hcancel as [_ Hown].
  - vm_compute. reflexivity.
  - destruct (Hown eq_refl
                (set_next_limit_order_id 1 (set_limit_orders (fun _ => ∅) sample.db))
                (set_next_limit_order_id 1 (set_limit_orders (fun _ => ∅) sample.db))
                (set_next_limit_order_id 1 (set_limit_orders (fun _ => ∅) sample.db))
                false false (mk_asset_object ∅ ∅ None 0) (mk_asset_object ∅ ∅ (Some 0%N) 1))
      as [Hrun _].
    + vm_compute. reflexivity.
    + vm_compute. reflexivity.
    + reflexivity.
    + vm_compute. reflexivity.
    + reflexivity.
    + exact Hrun.
Defined.

(** ** Updating a call order: the balance deltas *)

Section call_order_update_deltas.
Context `{Protocol} `{Accessor} `{Build}.
Import call_order_update_operation call_order_update_evaluator.

(** What a successful Validate phase has established.  For a negative debt
    delta this is only that the balance is at least the negative delta
    itself. *)
Lemma call_order_update_validate_Ok o w r w1 :
  validate o w = (Ok r, w1) →
  w1 = w ∧
  r.(_paying_account) = o.(funding_account) ∧
  r.(_debt_asset) = symbol o.(delta_debt) ∧
  is_Some (accounts (ledger w) !! o.(funding_account)) ∧
  ∃ debt_asset bitasset,
    assets (ledger w) !! symbol o.(delta_debt) = Some debt_asset ∧
    bitasset_data_id debt_asset = Some r.(_bitasset_data) ∧
    asset_bitasset_data (ledger w) !! r.(_bitasset_data) = Some bitasset ∧
    has_settlement bitasset = false ∧
    symbol o.(delta_collateral) = short_backing_asset bitasset ∧
    (is_prediction_market bitasset = true →
     amount o.(delta_collateral) = amount o.(delta_debt)) ∧
    (is_prediction_market bitasset = false →
     price_is_null (settlement_price (current_feed bitasset)) = false) ∧
    (amount o.(delta_debt) < 0 →
     amount o.(delta_debt) <=
       amount (get_balance (ledger w) o.(funding_account) (symbol o.(delta_debt)))) ∧
    (0 < amount o.(delta_collateral) →
     amount o.(delta_collateral) <=
       amount (get_balance (ledger w) o.(funding_account) (symbol o.(delta_collateral)))).
Proof.
  intros Hrun. unfold validate, bitasset_data in Hrun. invert_run.
  all: repeat match goal with
         | Hcond : (_ =? _)%N = true |- _ => apply N.eqb_eq in Hcond
         | Hcond : (_ =? _) = true |- _ => apply Z.eqb_eq in Hcond
         | Hcond : negb _ = true |- _ => apply negb_true_iff in Hcond
         | Hcond : (_ <? _) = true |- _ => apply Z.ltb_lt in Hcond
         | Hcond : (_ <? _) = false |- _ => apply Z.ltb_ge in Hcond
         | Hcond : asset_ge _ _ = true |- _ =>
             unfold asset_ge in Hcond; apply Z.leb_le in Hcond
         | Hback : symbol _ = short_backing_asset _ |- _ => progress (rewrite <- Hback in *)
         end.
  all: cbn [_paying_account _debt_asset _bitasset_data].
  all: repeat (split; [reflexivity |]).
  all: (split; [eexists; eassumption |]).
  all: eexists _, _.
  all: repeat (split; [eassumption || reflexivity || (intros; congruence) || (intros; lia) |]).
  all: try (intros; assumption); try (intros; lia).
Qed.

(** Lines 142-150 when they complete. *)
Lemma apply_delta_debt_Ok r o w w' :
  adjust_balance_credits →
  apply_delta_debt r o w = (Ok tt, w') →
  (amount o.(delta_debt) = 0 ∧ w' = w) ∨
  (amount o.(delta_debt) ≠ 0 ∧
   ∃ debt_asset dynamic_asset,
     assets (ledger w) !! r.(_debt_asset) = Some debt_asset ∧
     asset_dynamic_data (ledger w) !! dynamic_asset_data_id debt_asset = Some dynamic_asset ∧
     (NDEBUG = false → 0 <= current_supply dynamic_asset + amount o.(delta_debt)) ∧
     w' = mk_world
            (set_asset_dynamic_data
               (alter (fun dynamic_asset =>
                         mk_dynamic (current_supply dynamic_asset + amount o.(delta_debt)))
                  (dynamic_asset_data_id debt_asset))
               (credit o.(funding_account) o.(delta_debt) (ledger w)))
            (calls w)).
Proof.
  intros Hcredits Hrun. unfold apply_delta_debt in Hrun.
  destruct (amount o.(delta_debt) =? 0) eqn:Hzero; simpl in Hrun.
  - left. apply Z.eqb_eq in Hzero. invert_run. split; [exact Hzero | reflexivity].
  - right. apply Z.eqb_neq in Hzero. split; [exact Hzero |].
    apply bind_Ok_inv in Hrun as (u & w1 & Hadjust & Hrun).
    apply lift_inv in Hadjust as (d1 & Hadjust & ->). destruct u.
    apply Hcredits in Hadjust. subst d1.
    invert_run. simpl in *.
    match goal with
    | Hasset : assets _ !! _ = Some ?a, Hdyn : asset_dynamic_data _ !! _ = Some ?dyn,
      Hnew : alter _ _ _ !! _ = Some ?dyn', Hcond : NDEBUG = false → (0 <=? _) = true |- _ =>
        exists a, dyn; rewrite lookup_alter_eq, Hdyn in Hnew; simpl in Hnew;
        injection Hnew as <-; simpl in Hcond
    end.
    repeat split; try assumption.
    intros Hbuild. apply Z.leb_le. auto.
Qed.

(** Lines 152-161 when they complete. *)
Lemma apply_delta_collateral_Ok r o w w' :
  adjust_balance_credits →
  apply_delta_collateral r o w = (Ok tt, w') →
  (amount o.(delta_collateral) = 0 ∧ w' = w) ∨
  (amount o.(delta_collateral) ≠ 0 ∧
   ∃ f,
     w' = mk_world
            (set_account_statistics f
               (credit o.(funding_account) (asset_neg o.(delta_collateral)) (ledger w)))
            (calls w)).
Proof.
  intros Hcredits Hrun. unfold apply_delta_collateral in Hrun.
  destruct (amount o.(delta_collateral) =? 0) eqn:Hzero; simpl in Hrun.
  - left. apply Z.eqb_eq in Hzero. invert_run. split; [exact Hzero | reflexivity].
  - right. apply Z.eqb_neq in Hzero. split; [exact Hzero |].
    apply bind_Ok_inv in Hrun as (u & w1 & Hadjust & Hrun).
    apply lift_inv in Hadjust as (d1 & Hadjust & ->). destruct u.
    apply Hcredits in Hadjust. subst d1.
    destruct (symbol o.(delta_collateral) =? STEEM_SYMBOL)%N; invert_run; simpl.
    + eexists. reflexivity.
    + exists (fun stats => stats). reflexivity.
Qed.

Lemma get_balance_credit_other d owner delta sym :
  sym ≠ symbol delta →
  get_balance (credit owner delta d) owner sym = get_balance d owner sym.
Proof.
  intros Hother. unfold get_balance, credit. simpl.
  rewrite lookup_insert_ne by congruence. reflexivity.
Qed.

(** C8. Lines 142-150 for a non-zero debt delta, in a build that compiles
    assertions in ([NDEBUG] not defined).  Whenever they complete, the
    supply they stored is not negative.  On a ledger where the balance
    adjustment goes through and the debt asset has its dynamic data: if the
    supply plus the delta is negative the outcome of these lines, and of the
    Execute phase, is [Abort], the end of the process by the C [assert], and
    not an exception; if it is not negative they complete, the stored supply
    is that sum, and the Execute phase goes on from there. *)
Theorem call_order_update_supply_not_negative r o w :
  NDEBUG = false →
  adjust_balance_credits →
  amount o.(delta_debt) ≠ 0 →
  (∀ w', apply_delta_debt r o w = (Ok tt, w') →
     ∃ debt_asset dynamic_asset,
       assets (ledger w') !! r.(_debt_asset) = Some debt_asset ∧
       asset_dynamic_data (ledger w') !! dynamic_asset_data_id debt_asset = Some dynamic_asset ∧
       0 <= current_supply dynamic_asset) ∧
  (∀ d1 debt_asset dynamic_asset,
     adjust_balance o.(funding_account) o.(delta_debt) (ledger w) = (Ok tt, d1) →
     assets (ledger w) !! r.(_debt_asset) = Some debt_asset →
     asset_dynamic_data (ledger w) !! dynamic_asset_data_id debt_asset = Some dynamic_asset →
     let supplied := current_supply dynamic_asset + amount o.(delta_debt) in
     (supplied < 0 →
      (apply_delta_debt r o w).1 = Abort ∧ (execute r o w).1 = Abort) ∧
     (0 <= supplied →
      ∃ w', apply_delta_debt r o w = (Ok tt, w') ∧
            asset_dynamic_data (ledger w') !! dynamic_asset_data_id debt_asset =
              Some (mk_dynamic supplied) ∧
            execute r o w =
              (apply_delta_collateral r o;;
               call_obj ← update_call_order r o;
               check_margin r call_obj) w')).
Proof.
  intros Hbuild Hcredits Hdelta. split.
  - intros w' Hrun.
    apply (apply_delta_debt_Ok _ _ _ _ Hcredits) in Hrun
      as [[Hzero _] | (_ & debt_asset & dynamic_asset & Hasset & Hdyn & Hsupply & ->)];
      [contradiction |].
    exists debt_asset, (mk_dynamic (current_supply dynamic_asset + amount o.(delta_debt))).
    simpl. rewrite lookup_alter_eq, Hdyn. auto.
  - intros d1 debt_asset dynamic_asset Hadjust Hasset Hdyn supplied.
    pose proof (Hcredits _ _ _ _ Hadjust) as Hd1.
    assert (Hrun : apply_delta_debt r o w =
                   c_assert (0 <=? supplied)
                     (mk_world
                        (set_asset_dynamic_data
                           (alter (fun dynamic_asset =>
                                     mk_dynamic (current_supply dynamic_asset + amount o.(delta_debt)))
                              (dynamic_asset_data_id debt_asset)) d1)
                        (calls w))).
    { unfold apply_delta_debt. apply Z.eqb_neq in Hdelta. rewrite Hdelta. simpl.
      rewrite (bind_Ok _ _ w tt (mk_world d1 (calls w))) by (apply lift_run; exact Hadjust).
      subst d1.
      rewrite (bind_Ok _ _ _ debt_asset _) by (apply deref_Some; exact Hasset).
      rewrite (bind_Ok _ _ _ dynamic_asset _) by (apply get_object_Some; exact Hdyn).
      rewrite bind_run. simpl.
      rewrite (bind_Ok _ _ _ (mk_dynamic supplied) _)
        by (apply deref_Some; simpl; rewrite lookup_alter_eq, Hdyn; reflexivity).
      reflexivity. }
    unfold c_assert in Hrun. rewrite Hbuild in Hrun.
    split.
    + intros Hneg. apply Z.leb_gt in Hneg. rewrite Hneg in Hrun.
      split; [rewrite Hrun; reflexivity |].
      unfold execute. rewrite (bind_Abort _ _ _ _ Hrun). reflexivity.
    + intros Hok. apply Z.leb_le in Hok. rewrite Hok in Hrun.
      eexists. split; [exact Hrun |]. split.
      * cbn [ledger asset_dynamic_data set_asset_dynamic_data].
        rewrite lookup_alter_eq. subst d1. simpl. rewrite Hdyn. reflexivity.
      * unfold execute. rewrite (bind_Ok _ _ _ _ _ Hrun). reflexivity.
Qed.

(** C9. Of lines 142-161, after which the Execute phase goes on to the call
    order: with a zero debt delta the lines for the debt delta leave the
    world as it was, and so do the lines for the collateral delta with a zero
    collateral delta.  So, when the two complete: with a zero debt delta the
    dynamic data of every asset, and with it the supply of the debt asset, is
    as it was, and so is the funding account's balance of the debt asset if
    that is not also the collateral asset; with a zero collateral delta the
    statistics of every account, and with them the funding account's
    [total_core_in_orders], are as they were, and so is its balance of the
    collateral asset if that is not also the debt asset. *)
Theorem call_order_update_zero_delta_is_skipped r o w w1 w2 :
  adjust_balance_credits →
  apply_delta_debt r o w = (Ok tt, w1) →
  apply_delta_collateral r o w1 = (Ok tt, w2) →
  (amount o.(delta_debt) = 0 →
   w1 = w ∧
   asset_dynamic_data (ledger w2) = asset_dynamic_data (ledger w) ∧
   supply_of (ledger w2) (symbol o.(delta_debt)) = supply_of (ledger w) (symbol o.(delta_debt)) ∧
   (symbol o.(delta_debt) ≠ symbol o.(delta_collateral) →
    get_balance (ledger w2) o.(funding_account) (symbol o.(delta_debt)) =
      get_balance (ledger w) o.(funding_account) (symbol o.(delta_debt)))) ∧
  (amount o.(delta_collateral) = 0 →
   w2 = w1 ∧
   account_statistics (ledger w2) = account_statistics (ledger w) ∧
   core_in_orders (ledger w2) o.(funding_account) =
     core_in_orders (ledger w) o.(funding_account) ∧
   (symbol o.(delta_debt) ≠ symbol o.(delta_collateral) →
    get_balance (ledger w2) o.(funding_account) (symbol o.(delta_collateral)) =
      get_balance (ledger w) o.(funding_account) (symbol o.(delta_collateral)))) ∧
  execute r o w = (call_obj ← update_call_order r o; check_margin r call_obj) w2.
Proof.
  intros Hcredits Hdebt Hcollateral.
  assert (Hrun : execute r o w =
                 (call_obj ← update_call_order r o; check_margin r call_obj) w2).
  { unfold execute. rewrite (bind_Ok _ _ _ _ _ Hdebt), (bind_Ok _ _ _ _ _ Hcollateral).
    reflexivity. }
  apply (apply_delta_debt_Ok _ _ _ _ Hcredits) in Hdebt.
  apply (apply_delta_collateral_Ok _ _ _ _ Hcredits) in Hcollateral.
  split; [| split; [| exact Hrun]].
  - intros Hzero.
    destruct Hdebt as [[_ ->] | [Hnonzero _]]; [| contradiction].
    destruct Hcollateral as [[_ ->] | (_ & f & ->)].
    + repeat split.
    + repeat split. intros Hdistinct. simpl.
      change (get_balance (set_account_statistics f ?d) ?a ?s) with (get_balance d a s).
      apply get_balance_credit_other. simpl. exact Hdistinct.
  - intros Hzero.
    destruct Hcollateral as [[_ ->] | [Hnonzero _]]; [| contradiction].
    destruct Hdebt as [[_ ->] | (_ & debt_asset & dynamic_asset & _ & _ & _ & ->)].
    + repeat split.
    + repeat split. intros Hdistinct. simpl.
      change (get_balance (set_asset_dynamic_data ?f ?d) ?a ?s) with (get_balance d a s).
      apply get_balance_credit_other. congruence.
Qed.
End call_order_update_deltas.

(** In a build with assertions.  alice borrows 10: the supply of the
    market-issued asset goes from 50 to 60.  On the ledger that records a
    supply of 3 while alice holds 5, alice pays 4 back: the process ends. *)
Lemma call_order_update_supply_not_negative_witness :
  (∃ w',
     call_order_update_evaluator.apply_delta_debt (H0 := sample.accessor)
       (H1 := sample.build) sample.position sample.borrow sample.w = (Ok tt, w') ∧
     asset_dynamic_data (ledger w') !! 1%N = Some (mk_dynamic 60)) ∧
  (call_order_update_evaluator.apply_delta_debt (H0 := sample.accessor)
     (H1 := sample.build) sample.position cases.repay_four
     (mk_world cases.db_short_supply [])).1 = Abort.
Proof.
  split.
  - destruct (@call_order_update_supply_not_negative sample.protocol sample.accessor
                sample.build sample.position sample.borrow sample.w eq_refl
                sample_adjust_balance_credits) as [_ Hcases].
    + vm_compute. discriminate.
    + destruct (Hcases (credit "alice" (mk_asset 10 sample.usd) sample.db)
                  (mk_asset_object ∅ ∅ (Some 0%N) 1) (mk_dynamic 50)) as [_ Hcompletes].
      * vm_compute. reflexivity.
      * vm_compute. reflexivity.
      * vm_compute. reflexivity.
      * destruct Hcompletes as (w' & Hrun & Hsupply & _); [vm_compute; discriminate |].
        exists w'. split; [exact Hrun | exact Hsupply].
  - destruct (@call_order_update_supply_not_negative sample.protocol sample.accessor
                sample.build sample.position cases.repay_four
                (mk_world cases.db_short_supply []) eq_refl
                sample_adjust_balance_credits) as [_ Hcases].
    + vm_compute. discriminate.
    + destruct (Hcases (credit "alice" (mk_asset (-4) sample.usd) cases.db_short_supply)
                  (mk_asset_object ∅ ∅ (Some 0%N) 1) (mk_dynamic 3)) as [Hends _].
      * vm_compute. reflexivity.
      * vm_compute. reflexivity.
      * vm_compute. reflexivity.
      * destruct Hends as [Hends _]; [vm_compute; reflexivity | exact Hends].
Defined.

(** alice tops her collateral up: the supply of the market-issued asset and
    her balance of it stay as they were. *)
Lemma call_order_update_zero_delta_is_skipped_witness :
  let w2 := mk_world
              (set_account_statistics (alter (fun stats =>
                 mk_statistics (total_core_in_orders stats + 40)) 0%N)
                 (credit "alice" (mk_asset (-40) sample.core) sample.db)) [] in
  supply_of (ledger w2) sample.usd = supply_of sample.db sample.usd ∧
  get_balance (ledger w2) "alice" sample.usd = get_balance sample.db "alice" sample.usd.
Proof.
  intros w2.
  destruct (@call_order_update_zero_delta_is_skipped sample.protocol sample.accessor sample.build
              sample.position sample.top_up sample.w sample.w w2
                          sample_adjust_balance_credits) as (Hdebt & _ & _).
  - vm_compute. reflexivity.
  - vm_compute. reflexivity.
  - destruct (Hdebt eq_refl) as (_ & _ & Hsupply & Hbalance).
    split; [exact Hsupply |]. apply Hbalance. vm_compute. discriminate.
Defined.

(** ** Updating a call order: the position *)

Section call_order_update_position.
Context `{Protocol} `{Accessor} `{Build}.
Import call_order_update_operation call_order_update_evaluator.

(** What the [by_account] index returns is a stored order of that borrower
    in that debt asset. *)
Lemma find_by_account_Some who debt_asset d call_obj call :
  find_by_account who debt_asset d = Some (call_obj, call) →
  call_orders d !! call_obj = Some call ∧ borrower call = who ∧ debt_type call = debt_asset.
Proof.
  unfold find_by_account. intros Hfind.
  apply fmap_Some in Hfind as ([i kv] & Hfind & Hkv). simpl in Hkv. subst kv.
  apply list_find_Some in Hfind as (Hlookup & [Hborrower Hdebt] & _).
  apply list_elem_of_lookup_2 in Hlookup. apply elem_of_map_to_list in Hlookup.
  auto.
Qed.

(** The deltas of lines 142-161 leave the call orders, the bitasset data and
    the recorded calls as they were. *)
Lemma apply_deltas_frame r o w w1 w2 :
  adjust_balance_credits →
  apply_delta_debt r o w = (Ok tt, w1) →
  apply_delta_collateral r o w1 = (Ok tt, w2) →
  call_orders (ledger w2) = call_orders (ledger w) ∧
  next_call_order_id (ledger w2) = next_call_order_id (ledger w) ∧
  asset_bitasset_data (ledger w2) = asset_bitasset_data (ledger w) ∧
  calls w2 = calls w.
Proof.
  intros Hcredits Hdebt Hcollateral.
  apply (apply_delta_debt_Ok _ _ _ _ Hcredits) in Hdebt.
  apply (apply_delta_collateral_Ok _ _ _ _ Hcredits) in Hcollateral.
  destruct Hdebt as [[_ ->] | (_ & debt_asset & dynamic_asset & _ & _ & _ & ->)];
    destruct Hcollateral as [[_ ->] | (_ & f & ->)]; repeat split.
Qed.

(** Lines 164-191 when they complete: the order acted on is stored anew,
    either created from the deltas or the stored one with the deltas added,
    and priced again when its debt is positive. *)
Lemma update_call_order_Ok r o w call_obj w' :
  update_call_order r o w = (Ok call_obj, w') →
  call_obj = updated_call_order o (ledger w) ∧
  asset_bitasset_data (ledger w') = asset_bitasset_data (ledger w) ∧
  calls w' = calls w ∧
  ∃ call,
    call_orders (ledger w') = <[call_obj := call]> (call_orders (ledger w)) ∧
    debt call = resulting_debt o (ledger w) ∧
    collateral call = resulting_collateral o (ledger w) ∧
    ((find_by_account o.(funding_account) (symbol o.(delta_debt)) (ledger w) = None ∧
      0 < amount o.(delta_debt) ∧
      ∃ bitasset,
        asset_bitasset_data (ledger w) !! r.(_bitasset_data) = Some bitasset ∧
        call = mk_call_order o.(funding_account) (amount o.(delta_collateral))
                 (amount o.(delta_debt))
                 (price_call_price o.(delta_debt) o.(delta_collateral)
                    (maintenance_collateral_ratio (current_feed bitasset)))) ∨
     (∃ stored,
        find_by_account o.(funding_account) (symbol o.(delta_debt)) (ledger w) =
          Some (call_obj, stored) ∧
        let added := mk_call_order (borrower stored)
                       (collateral stored + amount o.(delta_collateral))
                       (debt stored + amount o.(delta_debt)) (call_price stored) in
        (debt added <= 0 ∧ call = added) ∨
        (0 < debt added ∧
         ∃ bitasset,
           asset_bitasset_data (ledger w) !! r.(_bitasset_data) = Some bitasset ∧
           call = mk_call_order (borrower added) (collateral added) (debt added)
                    (price_call_price (get_debt added) (get_collateral added)
                       (maintenance_collateral_ratio (current_feed bitasset)))))).
Proof.
  intros Hrun. unfold update_call_order in Hrun.
  unfold updated_call_order, resulting_debt, resulting_collateral.
  apply bind_Ok_inv in Hrun as (itr & w1 & Hfind & Hrun).
  apply read_inv in Hfind as [-> ->].
  destruct (find_by_account o.(funding_account) (symbol o.(delta_debt)) (ledger w))
    as [[found stored] |] eqn:Hfind.
  - pose proof (find_by_account_Some _ _ _ _ _ Hfind) as (Hstored & _ & _).
    apply bind_Ok_inv in Hrun as (call & w1 & Hptr & Hrun).
    apply deref_inv in Hptr as [Hptr ->].
    rewrite Hstored in Hptr. injection Hptr as <-.
    apply bind_Ok_inv in Hrun as (call' & w1 & Hprice & Hrun).
    cbn [debt] in Hprice.
    destruct (0 <? debt stored + amount o.(delta_debt)) eqn:Hpositive; invert_run.
    + apply Z.ltb_lt in Hpositive.
      repeat (split; [reflexivity |]). eexists.
      repeat (split; [reflexivity |]). right. exists stored.
      split; [reflexivity |]. right. cbn [debt]. split; [exact Hpositive |].
      eexists. split; [eassumption | reflexivity].
    + apply Z.ltb_ge in Hpositive.
      repeat (split; [reflexivity |]). eexists.
      repeat (split; [reflexivity |]). right. exists stored.
      split; [reflexivity |]. left. cbn [debt]. split; [exact Hpositive | reflexivity].
  - unfold create_call_order in Hrun. invert_run.
    repeat (split; [reflexivity |]). eexists.
    repeat (split; [reflexivity |]). left.
    split; [reflexivity |].
    split; [apply Z.ltb_lt; assumption |].
    eexists. split; [eassumption | reflexivity].
Qed.

(** The order an update acts on and the resulting amounts are read off the
    call orders and the next call order id. *)
Lemma updated_call_order_ext o d d' :
  call_orders d' = call_orders d →
  next_call_order_id d' = next_call_order_id d →
  updated_call_order o d' = updated_call_order o d ∧
  resulting_debt o d' = resulting_debt o d ∧
  resulting_collateral o d' = resulting_collateral o d.
Proof.
  intros Horders Hnext.
  unfold updated_call_order, resulting_debt, resulting_collateral, find_by_account.
  rewrite Horders, Hnext. repeat split.
Qed.

(** Lines 193-232 when they complete, for a liquidation trigger that changes
    nothing when it fills nothing. *)
Lemma check_margin_Ok r call_obj w w' :
  no_fill_no_change →
  check_margin r call_obj w = (Ok tt, w') →
  ∃ call,
    call_orders (ledger w) !! call_obj = Some call ∧
    ((debt call = 0 ∧ collateral call = 0 ∧ call_orders (ledger w') !! call_obj = None) ∨
     (0 < debt call ∧ 0 < collateral call ∧
      (call_orders (ledger w') !! call_obj = None ∨
       (call_orders (ledger w') !! call_obj = Some call ∧
        asset_bitasset_data (ledger w') = asset_bitasset_data (ledger w))))).
Proof.
  intros Hframe Hrun. unfold check_margin in Hrun.
  apply bind_Ok_inv in Hrun as (call & w1 & Hptr & Hrun).
  apply deref_inv in Hptr as [Hptr ->].
  exists call. split; [exact Hptr |].
  cbn [get_debt amount] in Hrun.
  destruct (debt call =? 0) eqn:Hdebt.
  - left. apply Z.eqb_eq in Hdebt. invert_run.
    split; [exact Hdebt |]. split; [apply Z.eqb_eq; assumption |].
    cbn [ledger call_orders set_call_orders]. apply lookup_delete_eq.
  - right. apply bind_Ok_inv in Hrun as (u & w1 & Hpositive & Hrun).
    apply FC_ASSERT_inv in Hpositive as [Hpositive ->].
    apply andb_true_iff in Hpositive as [Hcollateral Hpositive].
    apply Z.ltb_lt in Hcollateral. apply Z.ltb_lt in Hpositive.
    split; [exact Hpositive |]. split; [exact Hcollateral |].
    invert_run.
    + left. match goal with
            | Hnull : is_null ?p = true |- _ => destruct p; [discriminate Hnull | reflexivity]
            end.
    + right.
      match goal with
      | Hcheck : check_call_orders _ _ _ = (Ok false, _) |- _ =>
          apply Hframe in Hcheck as [Horders Hbitassets]
      end.
      cbn [ledger] in *. rewrite Horders. split; [exact Hptr | exact Hbitassets].
    + right. split; [exact Hptr | reflexivity].
Qed.

(** The state of the order acted on when the Execute phase completes. *)
Lemma execute_no_mixed_state r o w w' :
  adjust_balance_credits →
  no_fill_no_change →
  execute r o w = (Ok tt, w') →
  let touched := updated_call_order o (ledger w) in
  (resulting_debt o (ledger w) = 0 →
   resulting_collateral o (ledger w) = 0 ∧ call_orders (ledger w') !! touched = None) ∧
  (call_orders (ledger w') !! touched = None ∨
   ∃ call,
     call_orders (ledger w') !! touched = Some call ∧
     0 < debt call ∧ 0 < collateral call ∧
     debt call = resulting_debt o (ledger w) ∧
     collateral call = resulting_collateral o (ledger w)).
Proof.
  intros Hcredits Hframe Hrun touched. unfold execute in Hrun.
  apply bind_Ok_inv in Hrun as ([] & w1 & Hdebt & Hrun).
  apply bind_Ok_inv in Hrun as ([] & w2 & Hcollateral & Hrun).
  apply bind_Ok_inv in Hrun as (call_obj & w3 & Hupdate & Hrun).
  destruct (apply_deltas_frame _ _ _ _ _ Hcredits Hdebt Hcollateral)
    as (Horders & Hnext & _ & _).
  destruct (updated_call_order_ext o _ _ Horders Hnext) as (Htouched & Hrd & Hrc).
  apply update_call_order_Ok in Hupdate
    as (-> & _ & _ & call & Hstored & Hcall_debt & Hcall_collateral & _).
  rewrite Htouched in *. fold touched in Hrun, Hstored.
  rewrite Hrd in Hcall_debt. rewrite Hrc in Hcall_collateral.
  apply (check_margin_Ok _ _ _ _ Hframe) in Hrun as (call' & Hlookup & Hcases).
  rewrite Hstored, lookup_insert_eq in Hlookup. injection Hlookup as <-.
  destruct Hcases as [(Hzero & Hzero' & Hgone) | (Hpos & Hpos' & [Hgone | [Hkept _]])].
  - split; [intros _; split; [lia | exact Hgone] | left; exact Hgone].
  - split; [intros Hzero; lia | left; exact Hgone].
  - split; [intros Hzero; lia |]. right. exists call. auto.
Qed.

(** C3. When [do_apply] completes, the call order the update acted on (the
    one the [by_account] index held for the funding account in the debt
    asset, or the one created) is either no longer stored or stored with
    debt and collateral both positive, and then with the resulting amounts;
    and when the resulting debt is zero, the resulting collateral is zero and
    the order is not stored. *)
Theorem call_order_update_no_mixed_state o w w' :
  adjust_balance_credits →
  no_fill_no_change →
  do_apply o w = (Ok tt, w') →
  let touched := updated_call_order o (ledger w) in
  (resulting_debt o (ledger w) = 0 →
   resulting_collateral o (ledger w) = 0 ∧ call_orders (ledger w') !! touched = None) ∧
  (call_orders (ledger w') !! touched = None ∨
   ∃ call,
     call_orders (ledger w') !! touched = Some call ∧
     0 < debt call ∧ 0 < collateral call ∧
     debt call = resulting_debt o (ledger w) ∧
     collateral call = resulting_collateral o (ledger w)).
Proof.
  intros Hcredits Hframe Hrun. unfold do_apply in Hrun.
  apply bind_Ok_inv in Hrun as (r & w1 & Hvalid & Hrun).
  apply call_order_update_validate_Ok in Hvalid as [-> _].
  exact (execute_no_mixed_state r o w w' Hcredits Hframe Hrun).
Qed.

(** The call price of the order acted on when the Execute phase completes
    and has left it stored. *)
Lemma execute_call_price_recomputed r o w w' call :
  adjust_balance_credits →
  no_fill_no_change →
  call_price_denomination →
  execute r o w = (Ok tt, w') →
  call_orders (ledger w') !! updated_call_order o (ledger w) = Some call →
  ∃ bitasset,
    asset_bitasset_data (ledger w') !! r.(_bitasset_data) = Some bitasset ∧
    call_price call =
      price_call_price (get_debt call) (get_collateral call)
        (maintenance_collateral_ratio (current_feed bitasset)).
Proof.
  intros Hcredits Hframe Hdenomination Hrun Hkept.
  unfold execute in Hrun.
  apply bind_Ok_inv in Hrun as ([] & w1 & Hdebt & Hrun).
  apply bind_Ok_inv in Hrun as ([] & w2 & Hcollateral & Hrun).
  apply bind_Ok_inv in Hrun as (call_obj & w3 & Hupdate & Hrun).
  destruct (apply_deltas_frame _ _ _ _ _ Hcredits Hdebt Hcollateral)
    as (Horders & Hnext & _ & _).
  destruct (updated_call_order_ext o _ _ Horders Hnext) as (Htouched & _ & _).
  apply update_call_order_Ok in Hupdate
    as (-> & Hbitassets & _ & stored & Hstored & _ & _ & Hpriced).
  rewrite Htouched in *.
  apply (check_margin_Ok _ _ _ _ Hframe) in Hrun as (call' & Hlookup & Hcases).
  rewrite Hstored, lookup_insert_eq in Hlookup. injection Hlookup as <-.
  destruct Hcases as [(_ & _ & Hgone) | (Hpos & _ & [Hgone | [Hsame Hbitassets']])];
    try congruence.
  rewrite Hsame in Hkept. injection Hkept as <-.
  rewrite Hbitassets', Hbitassets.
  destruct Hpriced as [(_ & _ & bitasset & Hbitasset & ->) |
                       (old & _ & [[Hle ->] | (_ & bitasset & Hbitasset & ->)])].
  - exists bitasset. split; [exact Hbitasset |].
    unfold get_debt, get_collateral. cbn [debt collateral call_price].
    destruct (Hdenomination o.(funding_account) (amount o.(delta_collateral))
                (amount o.(delta_debt)) o.(delta_debt) o.(delta_collateral)
                (maintenance_collateral_ratio (current_feed bitasset))) as [-> ->].
    destruct o.(delta_debt), o.(delta_collateral). reflexivity.
  - cbn [debt] in *. lia.
  - exists bitasset. split; [exact Hbitasset |].
    unfold get_debt, get_collateral. cbn [debt collateral call_price borrower].
    match goal with
    | |- context [debt_type (mk_call_order ?b ?c ?d (price_call_price ?x ?y ?z))] =>
        destruct (Hdenomination b c d x y z) as [-> ->]
    end.
    reflexivity.
Qed.

(** C4. When [do_apply] completes and the call order the update acted on is
    still stored, its [call_price] is [price::call_price] of its debt, its
    collateral and the maintenance collateral ratio of the current feed of
    the debt asset; and [price::call_price] gives equal prices on equal
    arguments. *)
Theorem call_order_update_call_price_recomputed o w w' call :
  adjust_balance_credits →
  no_fill_no_change →
  call_price_denomination →
  do_apply o w = (Ok tt, w') →
  call_orders (ledger w') !! updated_call_order o (ledger w) = Some call →
  (∃ debt_asset bitasset_id bitasset,
     assets (ledger w) !! symbol o.(delta_debt) = Some debt_asset ∧
     bitasset_data_id debt_asset = Some bitasset_id ∧
     asset_bitasset_data (ledger w') !! bitasset_id = Some bitasset ∧
     call_price call =
       price_call_price (get_debt call) (get_collateral call)
         (maintenance_collateral_ratio (current_feed bitasset))) ∧
  (∀ debt1 debt2 collateral1 collateral2 ratio1 ratio2,
     debt1 = debt2 → collateral1 = collateral2 → ratio1 = ratio2 →
     price_call_price debt1 collateral1 ratio1 = price_call_price debt2 collateral2 ratio2).
Proof.
  intros Hcredits Hframe Hdenomination Hrun Hkept.
  split; [| intros; congruence].
  unfold do_apply in Hrun.
  apply bind_Ok_inv in Hrun as (r & w1 & Hvalid & Hrun).
  apply call_order_update_validate_Ok in Hvalid
    as (-> & _ & _ & _ & debt_asset & validated & Hasset & Hid & _).
  destruct (execute_call_price_recomputed r o w w' call Hcredits Hframe Hdenomination Hrun Hkept)
    as (bitasset & Hbitasset & Hprice).
  exists debt_asset, r.(_bitasset_data), bitasset. auto.
Qed.


(** A failed margin call assertion on a ledger that holds the order and the
    bitasset data: the arguments of its message are read and the exception is
    thrown. *)
Lemma margin_call_assertion_fails r w call bitasset :
  asset_bitasset_data (ledger w) !! r.(_bitasset_data) = Some bitasset →
  STEEMIT_ASSERT false call_order_update_unfilled_margin_call
    (margin_call_message r (Some call)) w =
  (Throw call_order_update_unfilled_margin_call, w).
Proof.
  intros Hbitasset. unfold STEEMIT_ASSERT, margin_call_message.
  rewrite bind_run.
  rewrite (bind_Ok _ _ w bitasset w) by (apply deref_Some; exact Hbitasset).
  reflexivity.
Qed.

End call_order_update_position.

(** alice borrows 10 against 40: the position is opened, and priced from its
    debt, its collateral and the maintenance ratio of the feed. *)
Lemma call_order_update_no_mixed_state_witness :
  let w' := (call_order_update_evaluator.do_apply (H := sample.protocol)
               (H0 := sample.accessor) (H1 := sample.build) sample.borrow sample.w).2 in
  let touched := updated_call_order (H := sample.protocol) sample.borrow sample.db in
  (resulting_debt (H := sample.protocol) sample.borrow sample.db = 0 →
   resulting_collateral (H := sample.protocol) sample.borrow sample.db = 0 ∧
   call_orders (ledger w') !! touched = None) ∧
  (call_orders (ledger w') !! touched = None ∨
   ∃ call,
     call_orders (ledger w') !! touched = Some call ∧
     0 < debt call ∧ 0 < collateral call ∧
     debt call = resulting_debt (H := sample.protocol) sample.borrow sample.db ∧
     collateral call = resulting_collateral (H := sample.protocol) sample.borrow sample.db).
Proof.
  intros w'.
  apply (@call_order_update_no_mixed_state sample.protocol sample.accessor sample.build
           sample.borrow sample.w w'
           sample_adjust_balance_credits sample_no_fill_no_change).
  vm_compute. reflexivity.
Defined.

Lemma call_order_update_call_price_recomputed_witness :
  call_price (mk_call_order "alice" 40 10
                (mk_price (mk_asset 40000 sample.core) (mk_asset 17500 sample.usd))) =
  price_call_price (Protocol := sample.protocol) (mk_asset 10 sample.usd)
    (mk_asset 40 sample.core) 1750.
Proof.
  destruct (@call_order_update_call_price_recomputed sample.protocol sample.accessor sample.build
              sample.borrow sample.w
              (call_order_update_evaluator.do_apply (H := sample.protocol)
                 (H0 := sample.accessor) (H1 := sample.build) sample.borrow sample.w).2
              (mk_call_order "alice" 40 10
                 (mk_price (mk_asset 40000 sample.core) (mk_asset 17500 sample.usd)))
              sample_adjust_balance_credits sample_no_fill_no_change
              sample_call_price_denomination)
    as [(debt_asset & bitasset_id & bitasset & Hasset & Hid & Hbitasset & Hprice) _].
  - vm_compute. reflexivity.
  - vm_compute. reflexivity.
  - vm_compute in Hasset. injection Hasset as <-.
    vm_compute in Hid. injection Hid as <-.
    vm_compute in Hbitasset. injection Hbitasset as <-. exact Hprice.
Defined.

(** The further collaborators of the sample ledger have the properties
    assumed of the liquidation trigger. *)
Lemma sample_check_call_orders_keeps_bitasset_data :
  @check_call_orders_keeps_bitasset_data sample.accessor.
Proof. intros mia flag d outcome d' id Hrun. inversion Hrun. auto. Qed.






(** ** The checks of the Validate phase of a call order update *)

(** The check of lines 122-127 compares the balance with the negative delta
    itself: no balance that is not negative fails it. *)
Lemma debt_cover_check_passes balance delta :
  0 <= amount balance → amount delta < 0 → asset_ge balance delta = true.
Proof. intros Hbalance Hdelta. unfold asset_ge. apply Z.leb_le. lia. Qed.

(** C1, at an input where the code does otherwise: alice holds 5 of the
    market-issued asset and pays 10 of debt back; the Validate phase
    succeeds. *)
Example call_order_update_validate_accepts_uncovered_repayment :
  amount (get_balance sample.db "alice" sample.usd) = 5 ∧
  amount (call_order_update_operation.delta_debt sample.repay_uncovered) = -10 ∧
  call_order_update_evaluator.validate (H := sample.protocol)
    sample.repay_uncovered sample.w = (Ok sample.position, sample.w).
Proof. repeat split. Qed.

(** ** Scenarios

    The evaluators run on the sample ledger. *)

(** A seller with 100 of the core asset sells them for 50 of another asset,
    not kill-unless-filled, and nothing matches: the balance becomes 0, an
    order for 100 is open and [total_core_in_orders] has grown by 100. *)
Example sell_all_core :
  let run := limit_order_create_evaluator.do_apply (H := sample.protocol)
               (H0 := sample.accessor) sample.creator sample.sell_core sample.w in
  run.1 = Ok tt ∧
  amount (get_balance (ledger run.2) "alice" sample.core) = 0 ∧
  for_sale <$> limit_orders (ledger run.2) !! 0%N = Some 100 ∧
  core_in_orders (ledger run.2) "alice" = 100 ∧
  calls run.2 = [called_apply_order 0].
Proof. vm_compute. repeat split. Qed.

(** An account without a call order borrows 10 against 40: a call order with
    debt 10 and collateral 40 is created; giving the 10 back and taking the 40
    out removes it. *)
Example borrow_then_close :
  let opened := call_order_update_evaluator.do_apply (H := sample.protocol)
                  (H0 := sample.accessor) (H1 := sample.build) sample.borrow sample.w in
  let closed := call_order_update_evaluator.do_apply (H := sample.protocol)
                  (H0 := sample.accessor) (H1 := sample.build) sample.close opened.2 in
  opened.1 = Ok tt ∧
  (fun call => (debt call, collateral call)) <$> call_orders (ledger opened.2) !! 0%N =
    Some (10, 40) ∧
  closed.1 = Ok tt ∧
    call_orders (ledger closed.2) !! 0%N = None ∧
  amount (get_balance (ledger closed.2) "alice" sample.core) = 100 ∧
  amount (get_balance (ledger closed.2) "alice" sample.usd) = 5 ∧
  supply_of (ledger closed.2) sample.usd = 50.
Proof. vm_compute. repeat split. Qed.

(** Borrowing 10 against 20 only would leave the position callable with
    nothing to fill it: the update is refused. *)
Example borrow_thin_is_refused :
  (call_order_update_evaluator.do_apply (H := sample.protocol) (H0 := sample.accessor)
      (H1 := sample.build)
     sample.borrow_thin sample.w).1 =
  Throw call_order_update_unfilled_margin_call.
Proof. vm_compute. reflexivity. Qed.

(** On a prediction market, a collateral delta other than the debt delta
    fails the Validate phase, with the world as it was. *)
Example prediction_market_needs_equal_deltas :
  call_order_update_evaluator.do_apply (H := sample.protocol) (H0 := sample.accessor)
      (H1 := sample.build)
    sample.borrow (mk_world sample.db_prediction []) =
  (Throw (assert_exception "o.delta_collateral.amount == o.delta_debt.amount"),
   mk_world sample.db_prediction []).
Proof. vm_compute. reflexivity. Qed.

(** * Further properties *)

(** ** The calls an evaluation records *)

Lemma quiet_bind {A B} (m : evaluation A) (k : A → evaluation B) :
  quiet m → (∀ a, quiet (k a)) → quiet (m ≫= k).
Proof.
  intros Hm Hk w. rewrite bind_run. specialize (Hm w).
  destruct (m w) as [[a | e |] w1]; simpl in Hm; [| exact Hm | exact Hm].
  rewrite Hk. exact Hm.
Qed.

Lemma read_only_quiet {A} (m : evaluation A) : read_only m → quiet m.
Proof. intros Hm w. rewrite Hm. reflexivity. Qed.

Lemma quiet_update f : quiet (update f).
Proof. intros w. reflexivity. Qed.

Lemma quiet_lift {A} (f : database → outcome A * database) : quiet (lift f).
Proof. intros w. unfold lift. destruct (f (ledger w)). reflexivity. Qed.

Lemma quiet_c_assert `{Build} cond : quiet (c_assert cond).
Proof. intros w. unfold c_assert. destruct NDEBUG, cond; reflexivity. Qed.

Lemma quiet_STEEMIT_ASSERT {A} cond e (args : evaluation A) :
  quiet args → quiet (STEEMIT_ASSERT cond e args).
Proof.
  intros Hargs w. destruct cond; [reflexivity |].
  unfold STEEMIT_ASSERT. rewrite bind_run. specialize (Hargs w).
  destruct (args w) as [[a | e' |] w1]; exact Hargs.
Qed.

Lemma read_only_margin_call_message `{Protocol} r call_obj :
  read_only (call_order_update_evaluator.margin_call_message r call_obj).
Proof.
  unfold call_order_update_evaluator.margin_call_message.
  destruct call_obj; read_only_steps.
Qed.

Lemma quiet_margin_call_message `{Protocol} r call_obj :
  quiet (call_order_update_evaluator.margin_call_message r call_obj).
Proof. apply read_only_quiet, read_only_margin_call_message. Qed.

Create HintDb quiet.
#[export] Hint Resolve quiet_update quiet_lift quiet_c_assert quiet_margin_call_message
  quiet_STEEMIT_ASSERT : quiet.
#[export] Hint Extern 1 (quiet _) =>
  apply read_only_quiet; solve [auto with read_only] : quiet.

Ltac quiet_steps :=
  repeat first
    [ progress auto with quiet
    | apply quiet_bind; [| intros ?]
    | match goal with
      | |- quiet (if ?b then _ else _) => destruct b
      | |- quiet (match ?x with _ => _ end) => destruct x
      | |- quiet (let x := _ in _) => cbv zeta
      end ].

Lemma quiet_create_limit_order o : quiet (create_limit_order o).
Proof. unfold create_limit_order. quiet_steps. Qed.

Lemma quiet_create_call_order c : quiet (create_call_order c).
Proof. unfold create_call_order. quiet_steps. Qed.

#[export] Hint Resolve quiet_create_limit_order quiet_create_call_order : quiet.

Lemma emits_quiet {A} (allowed : list collaborator_call → Prop) (m : evaluation A) :
  quiet m → allowed [] → emits allowed m.
Proof.
  intros Hm Hnone w. exists []. rewrite app_nil_r. split; [apply Hm | exact Hnone].
Qed.

Lemma emits_quiet_bind {A B} (allowed : list collaborator_call → Prop)
    (m : evaluation A) (k : A → evaluation B) :
  quiet m → allowed [] → (∀ a, emits allowed (k a)) → emits allowed (m ≫= k).
Proof.
  intros Hm Hnone Hk w. rewrite bind_run. specialize (Hm w).
  destruct (m w) as [[a | e |] w1]; simpl in Hm.
  - destruct (Hk a w1) as (made & Hcalls & Hallowed).
    exists made. rewrite Hcalls, Hm. auto.
  - exists []. rewrite app_nil_r. auto.
  - exists []. rewrite app_nil_r. auto.
Qed.

Lemma emits_invoke_bind {A B} (allowed after : list collaborator_call → Prop)
    c (f : database → outcome A * database) (k : A → evaluation B) :
  (∀ made, after made → allowed (c :: made)) → after [] →
  (∀ a, emits after (k a)) → emits allowed (invoke c f ≫= k).
Proof.
  intros Hcons Hnone Hk w. rewrite bind_run. unfold invoke.
  destruct (f (ledger w)) as [[a | e |] d'].
  - destruct (Hk a (mk_world d' (calls w ++ [c]))) as (made & Hcalls & Hafter).
    exists (c :: made). rewrite Hcalls. simpl. rewrite <- app_assoc. auto.
  - exists [c]. auto.
  - exists [c]. auto.
Qed.

Section calls_of_the_evaluators.
Context `{Protocol} `{Accessor} `{Build}.

Lemma quiet_create_validate ev op : quiet (limit_order_create_evaluator.validate ev op).
Proof. apply read_only_quiet, limit_order_create_validate_read_only. Qed.

Lemma quiet_update_validate o : quiet (call_order_update_evaluator.validate o).
Proof. apply read_only_quiet, call_order_update_validate_read_only. Qed.

Lemma quiet_lock_funds r op : quiet (limit_order_create_evaluator.lock_funds r op).
Proof. unfold limit_order_create_evaluator.lock_funds. quiet_steps. Qed.

Lemma quiet_apply_delta_debt r o : quiet (call_order_update_evaluator.apply_delta_debt r o).
Proof. unfold call_order_update_evaluator.apply_delta_debt. quiet_steps. Qed.

Lemma quiet_apply_delta_collateral r o :
  quiet (call_order_update_evaluator.apply_delta_collateral r o).
Proof. unfold call_order_update_evaluator.apply_delta_collateral. quiet_steps. Qed.

Lemma quiet_update_call_order r o :
  quiet (call_order_update_evaluator.update_call_order r o).
Proof. unfold call_order_update_evaluator.update_call_order. quiet_steps. Qed.

(** X1. Whatever its outcome, [limit_order_create_evaluator::do_apply] calls
    no collaborator but [apply_order], and calls it at most once. *)
Theorem limit_order_create_calls_apply_order_at_most_once ev op w :
  ∃ made,
    calls (limit_order_create_evaluator.do_apply ev op w).2 = (calls w ++ made)%list ∧
    (made = [] ∨ ∃ new_order, made = [called_apply_order new_order]).
Proof.
  revert w.
  change (emits (fun made => made = [] ∨ ∃ new_order, made = [called_apply_order new_order])
            (limit_order_create_evaluator.do_apply ev op)).
  unfold limit_order_create_evaluator.do_apply.
  apply emits_quiet_bind; [apply quiet_create_validate | left; reflexivity |].
  intros r. unfold limit_order_create_evaluator.execute.
  apply emits_quiet_bind; [apply quiet_lock_funds | left; reflexivity |].
  intros _. unfold limit_order_create_evaluator.place_order.
  apply emits_quiet_bind; [auto with quiet | left; reflexivity |].
  intros _.
  apply emits_quiet_bind; [auto with quiet | left; reflexivity |].
  intros new_order. cbv zeta.
  apply (emits_invoke_bind _ (fun made => made = [])).
  - intros made ->. right. exists new_order. reflexivity.
  - reflexivity.
  - intros filled. apply emits_quiet; [auto with quiet | reflexivity].
Qed.

Lemma quiet_run {A} (m : evaluation A) w r w' : quiet m → m w = (r, w') → calls w' = calls w.
Proof. intros Hm Hrun. specialize (Hm w). rewrite Hrun in Hm. exact Hm. Qed.

(** The calls of lines 193-232, whatever their outcome. *)
Lemma check_margin_emits r call_obj :
  emits (fun made => made = [] ∨ made = [called_check_call_orders r.(call_order_update_evaluator._debt_asset) false])
    (call_order_update_evaluator.check_margin r call_obj).
Proof.
  unfold call_order_update_evaluator.check_margin.
  apply emits_quiet_bind; [auto with quiet | left; reflexivity |].
  intros call. cbv zeta.
  destruct (amount (get_debt call) =? 0).
  { apply emits_quiet; [quiet_steps | left; reflexivity]. }
  apply emits_quiet_bind; [auto with quiet | left; reflexivity |]. intros _.
  apply emits_quiet_bind; [auto with quiet | left; reflexivity |]. intros bitasset.
  destruct (negb (is_prediction_market bitasset)).
  2: { apply emits_quiet; [auto with quiet | left; reflexivity]. }
  apply emits_quiet_bind; [auto with quiet | left; reflexivity |]. intros _.
  apply (emits_invoke_bind _ (fun made => made = [])).
  - intros made ->. right. reflexivity.
  - reflexivity.
  - intros margin_called. apply emits_quiet; [| reflexivity].
    destruct margin_called; quiet_steps.
Qed.

(** X3. Whatever its outcome, [call_order_update_evaluator::do_apply] calls
    no collaborator but [check_call_orders], at most once, for the debt
    asset of the operation and with black swans disallowed. *)
Theorem call_order_update_calls_check_call_orders_at_most_once o w :
  ∃ made,
    calls (call_order_update_evaluator.do_apply o w).2 = (calls w ++ made)%list ∧
    (made = [] ∨
     made = [called_check_call_orders
               (symbol o.(call_order_update_operation.delta_debt)) false]).
Proof.
  unfold call_order_update_evaluator.do_apply. rewrite bind_run.
  destruct (call_order_update_evaluator.validate o w) as [[r | e |] w1] eqn:Hvalid.
  - apply call_order_update_validate_Ok in Hvalid as (-> & _ & Hasset & _).
    rewrite <- Hasset. revert w.
    change (emits (fun made => made = [] ∨
                     made = [called_check_call_orders
                               r.(call_order_update_evaluator._debt_asset) false])
              (call_order_update_evaluator.execute r o)).
    unfold call_order_update_evaluator.execute.
    apply emits_quiet_bind; [apply quiet_apply_delta_debt | left; reflexivity |]. intros _.
    apply emits_quiet_bind; [apply quiet_apply_delta_collateral | left; reflexivity |].
    intros _.
    apply emits_quiet_bind; [apply quiet_update_call_order | left; reflexivity |].
    intros call_obj. apply check_margin_emits.
  - exists []. rewrite app_nil_r. split; [| left; reflexivity].
    apply (quiet_run _ _ _ _ (quiet_update_validate o) Hvalid).
  - exists []. rewrite app_nil_r. split; [| left; reflexivity].
    apply (quiet_run _ _ _ _ (quiet_update_validate o) Hvalid).
Qed.

(** X2. The calls of [limit_order_cancel_evaluator::do_apply], whatever its
    outcome.  For an order that is not stored it throws [object_not_found],
    calls nothing and leaves the world as it was.  For a stored order
    requested by another account than its seller it calls nothing.  For a
    stored order requested by its seller it calls [cancel_order] first,
    without a virtual operation, and after it at most [check_call_orders] for
    the base asset and then for the quote asset of the order's price. *)
Theorem limit_order_cancel_calls_by_case o w :
  ∃ made,
    calls (limit_order_cancel_evaluator.do_apply o w).2 = (calls w ++ made)%list ∧
    match limit_orders (ledger w) !! o.(limit_order_cancel_operation.order) with
    | Some cancelled =>
        if bool_decide (seller cancelled = o.(limit_order_cancel_operation.fee_paying_account))
        then
          ∃ rest,
            made = called_cancel_order o.(limit_order_cancel_operation.order) false :: rest ∧
            rest `prefix_of`
              [called_check_call_orders (symbol (base (sell_price cancelled)))
                 check_call_orders_default;
               called_check_call_orders (symbol (quote (sell_price cancelled)))
                 check_call_orders_default]
        else made = []
    | None =>
        made = [] ∧
        limit_order_cancel_evaluator.do_apply o w = (Throw object_not_found, w)
    end.
Proof.
  unfold limit_order_cancel_evaluator.do_apply. rewrite bind_run.
  destruct (limit_orders (ledger w) !! o.(limit_order_cancel_operation.order))
    as [cancelled |] eqn:Hstored.
  - rewrite (cancel_validate_run _ _ _ Hstored).
    destruct (bool_decide (seller cancelled = _)).
    2: { exists []. rewrite app_nil_r. split; reflexivity. }
    change ((FC_ASSERT true "_order->seller == o.fee_paying_account";;
             ret o.(limit_order_cancel_operation.order)) w)
      with (Ok o.(limit_order_cancel_operation.order), w).
    unfold limit_order_cancel_evaluator.execute.
    rewrite (bind_Ok _ _ w cancelled w) by (apply deref_Some; exact Hstored).
    cbv zeta.
    set (cancel := called_cancel_order _ false).
    set (check_base := called_check_call_orders (symbol (base _)) _).
    set (check_quote := called_check_call_orders (symbol (quote _)) _).
    rewrite bind_run. unfold invoke at 1.
    destruct (cancel_order _ false (ledger w)) as [[[] | e |] d1].
    2, 3: (exists [cancel]; split; [reflexivity |]; exists []; split;
           [reflexivity | apply prefix_nil]).
    rewrite bind_run. unfold get_object at 1. cbn [ledger].
    destruct (assets d1 !! _).
    2: { exists [cancel]. split; [reflexivity |]. exists []. split;
           [reflexivity | apply prefix_nil]. }
    rewrite bind_run. unfold invoke at 1. cbn [ledger calls].
    destruct (check_call_orders _ _ d1) as [[filled_base | e |] d2].
    2, 3: (exists [cancel; check_base]; split; [rewrite <- app_assoc; reflexivity |];
           exists [check_base]; split; [reflexivity | exists [check_quote]; reflexivity]).
    rewrite bind_run. unfold get_object at 1. cbn [ledger].
    destruct (assets d2 !! _).
    2: { exists [cancel; check_base]. split; [rewrite <- app_assoc; reflexivity |].
         exists [check_base]. split; [reflexivity | exists [check_quote]; reflexivity]. }
    rewrite bind_run. unfold invoke at 1. cbn [ledger calls].
    destruct (check_call_orders _ _ d2) as [[filled_quote | e |] d3].
    all: exists [cancel; check_base; check_quote].
    all: (split; [rewrite <- !app_assoc; reflexivity |]).
    all: exists [check_base; check_quote]; split; reflexivity.
  - exists []. rewrite app_nil_r.
    unfold limit_order_cancel_evaluator.validate.
    rewrite (bind_Throw _ _ _ _ _ (get_object_None _ _ Hstored)). repeat split.
Qed.

(** X4. A failure of the Validate phase is the outcome of [do_apply], and
    the world is as it was before: for each of the three evaluators, if the
    first block throws, [do_apply] throws the same exception and has changed
    nothing and called nothing. *)
Theorem validate_failure_changes_nothing ev op o_cancel o_update w e :
  ((limit_order_create_evaluator.validate ev op w).1 = Throw e →
   limit_order_create_evaluator.do_apply ev op w = (Throw e, w)) ∧
  ((limit_order_cancel_evaluator.validate o_cancel w).1 = Throw e →
   limit_order_cancel_evaluator.do_apply o_cancel w = (Throw e, w)) ∧
  ((call_order_update_evaluator.validate o_update w).1 = Throw e →
   call_order_update_evaluator.do_apply o_update w = (Throw e, w)).
Proof.
  split; [| split]; intros Hfails.
  - pose proof (limit_order_create_validate_read_only ev op w) as Hsame.
    unfold limit_order_create_evaluator.do_apply. rewrite bind_run.
    destruct (limit_order_create_evaluator.validate ev op w) as [[r | e' |] w1];
      simpl in *; congruence.
  - pose proof (limit_order_cancel_validate_read_only o_cancel w) as Hsame.
    unfold limit_order_cancel_evaluator.do_apply. rewrite bind_run.
    destruct (limit_order_cancel_evaluator.validate o_cancel w) as [[r | e' |] w1];
      simpl in *; congruence.
  - pose proof (call_order_update_validate_read_only o_update w) as Hsame.
    unfold call_order_update_evaluator.do_apply. rewrite bind_run.
    destruct (call_order_update_evaluator.validate o_update w) as [[r | e' |] w1];
      simpl in *; congruence.
Qed.
End calls_of_the_evaluators.

(** ** What the Validate phases accept *)

(** The steps of an evaluation that reads the store, written out. *)
Ltac unfold_reads :=
  cbv [mbind evaluation_bind bind mret evaluation_ret ret read get_object deref
       deref_asset FC_ASSERT throw abort bitasset_data].

(** Reads of stored objects that the context knows are replaced by what they
    return, and the run is split at each condition. *)
Ltac run_reads :=
  repeat (cbv beta iota;
    match goal with
    | Hknown : ?x = Some _ |- context [match ?x with _ => _ end] => rewrite Hknown
    | Hknown : ?x = None |- context [match ?x with _ => _ end] => rewrite Hknown
    | Hknown : ?c = true |- context [if ?c then _ else _] => rewrite Hknown
    | Hknown : ?c = false |- context [if ?c then _ else _] => rewrite Hknown
    | |- context [(if ?c then _ else _) ?w] => destruct c; [| try reflexivity]
    | |- context [match ?x with Some _ => _ | None => _ end ?w] =>
        destruct x; [| try reflexivity]
    | |- context [let (_, _) := match ?x with Some _ => _ | None => _ end in _] =>
        destruct x; [| try reflexivity]
    end).

(** The check of a market restriction: a list that is empty restricts
    nothing. *)
Lemma restricted_check_passes (n : nat) (P : Prop) `{Decision P} text :
  n = 0%nat ∨ P →
  (if negb (n =? 0)%nat then FC_ASSERT (bool_decide P) text else ret tt) = ret tt.
Proof.
  intros [-> | Hholds]; [reflexivity |].
  destruct (negb _); [| reflexivity].
  rewrite bool_decide_eq_true_2 by exact Hholds. reflexivity.
Qed.

Lemma restricted_check_fails (n : nat) (P : Prop) `{Decision P} text :
  ¬ (n = 0%nat ∨ P) →
  (if negb (n =? 0)%nat then FC_ASSERT (bool_decide P) text else ret tt) =
  throw (assert_exception text).
Proof.
  intros Hfails. destruct n as [| n]; [exfalso; apply Hfails; left; reflexivity |].
  cbn [Nat.eqb negb].
  rewrite bool_decide_eq_false_2 by (intros Hholds; apply Hfails; right; exact Hholds).
  reflexivity.
Qed.

Section limit_order_create_validate.
Context `{Protocol} `{Accessor}.
Import limit_order_create_operation limit_order_create_evaluator.

(** The conditions the first block of [do_apply] checks, on the store. *)
Lemma limit_order_create_validate_run ev op w sell receive :
  assets (ledger w) !! symbol op.(amount_to_sell) = Some sell →
  assets (ledger w) !! symbol op.(min_to_receive) = Some receive →
  validate ev op w =
    (FC_ASSERT (head_block_time (ledger w) <=? op.(expiration))%N
       "op.expiration >= d.head_block_time()";;
     (if negb (size (whitelist_markets sell) =? 0)%nat then
        FC_ASSERT (bool_decide (symbol op.(min_to_receive) ∈ whitelist_markets sell))
          "_sell_asset->options.whitelist_markets.find(_receive_asset->id) != _sell_asset->options.whitelist_markets.end()"
      else ret tt);;
     (if negb (size (blacklist_markets sell) =? 0)%nat then
        FC_ASSERT (bool_decide (symbol op.(min_to_receive) ∉ blacklist_markets sell))
          "_sell_asset->options.blacklist_markets.find(_receive_asset->id) == _sell_asset->options.blacklist_markets.end()"
      else ret tt);;
     deref (fun d => accounts d !! ev.(fee_paying_account));;
     FC_ASSERT (is_authorized_asset (ledger w) ev.(fee_paying_account)
                  (symbol op.(amount_to_sell)))
       "d.is_authorized_asset(*_seller, *_sell_asset)";;
     FC_ASSERT (is_authorized_asset (ledger w) ev.(fee_paying_account)
                  (symbol op.(min_to_receive)))
       "d.is_authorized_asset(*_seller, *_receive_asset)";;
     FC_ASSERT (asset_ge (get_balance (ledger w) ev.(fee_paying_account)
                            (symbol op.(amount_to_sell))) op.(amount_to_sell))
       "d.get_balance(*_seller, *_sell_asset) >= op.amount_to_sell";;
     ret (mk_resolved ev.(fee_paying_account) (Some (symbol op.(amount_to_sell)))
            (Some (symbol op.(min_to_receive))))) w.
Proof.
  intros Hsell Hreceive. unfold validate, find_asset. unfold_reads.
  run_reads; reflexivity.
Qed.

(** X5. The first block of [limit_order_create_evaluator::do_apply]
    completes exactly when: the order does not expire before the head block;
    the asset sold and the asset to receive are stored; the whitelist of the
    asset sold is empty or holds the asset to receive, and its blacklist is
    empty or does not hold it; the fee paying account is stored and
    authorized for both assets; and its balance of the asset sold is at least
    [amount_to_sell].  It then leaves the world as it was and has resolved
    the seller and the two assets. *)
Theorem limit_order_create_validate_accepts_exactly ev op w r w' :
  validate ev op w = (Ok r, w') ↔
  w' = w ∧
  r = mk_resolved ev.(fee_paying_account)
        (Some (symbol op.(amount_to_sell))) (Some (symbol op.(min_to_receive))) ∧
  (head_block_time (ledger w) <= op.(expiration))%N ∧
  (∃ sell,
     assets (ledger w) !! symbol op.(amount_to_sell) = Some sell ∧
     (size (whitelist_markets sell) = 0%nat ∨
      symbol op.(min_to_receive) ∈ whitelist_markets sell) ∧
     (size (blacklist_markets sell) = 0%nat ∨
      symbol op.(min_to_receive) ∉ blacklist_markets sell)) ∧
  is_Some (assets (ledger w) !! symbol op.(min_to_receive)) ∧
  is_Some (accounts (ledger w) !! ev.(fee_paying_account)) ∧
  is_authorized_asset (ledger w) ev.(fee_paying_account) (symbol op.(amount_to_sell)) = true ∧
  is_authorized_asset (ledger w) ev.(fee_paying_account) (symbol op.(min_to_receive)) = true ∧
  amount op.(amount_to_sell) <=
    amount (get_balance (ledger w) ev.(fee_paying_account) (symbol op.(amount_to_sell))).
Proof.
  split.
  - intros Hrun. unfold validate in Hrun.
    invert_run.
    all: repeat match goal with
           | Hfind : find_asset _ _ = Some _ |- _ =>
               apply find_asset_inv in Hfind; destruct Hfind as [-> ?]
           end.
    all: simplify_eq.
    all: repeat match goal with
           | Hcond : negb _ = true |- _ => apply negb_true_iff in Hcond
           | Hcond : negb _ = false |- _ => apply negb_false_iff in Hcond
           | Hcond : (_ =? _)%nat = true |- _ => apply Nat.eqb_eq in Hcond
           | Hcond : bool_decide _ = true |- _ => apply bool_decide_eq_true_1 in Hcond
           | Hcond : (_ <=? _)%N = true |- _ => apply N.leb_le in Hcond
           | Hcond : asset_ge _ _ = true |- _ =>
               unfold asset_ge in Hcond; apply Z.leb_le in Hcond
           end.
    all: (split; [reflexivity |]); (split; [reflexivity |]); (split; [assumption |]).
    all: match goal with
         | Hsell : assets _ !! symbol (amount_to_sell _) = Some ?sell |- _ =>
             split; [exists sell; split; [exact Hsell |];
                     split; first [left; assumption | right; assumption] |]
         end.
    all: repeat (split; [first [assumption | eexists; eassumption] |]).
    all: assumption.
  - intros (-> & -> & Hexpiration & (sell & Hsell & Hwhite & Hblack) & [receive Hreceive] &
            [account Haccount] & Hsell_ok & Hreceive_ok & Hbalance).
    rewrite (limit_order_create_validate_run ev op w sell receive Hsell Hreceive).
    apply N.leb_le in Hexpiration. rewrite Hexpiration, Hsell_ok, Hreceive_ok.
    assert (Hge : asset_ge (get_balance (ledger w) ev.(fee_paying_account)
                              (symbol op.(amount_to_sell))) op.(amount_to_sell) = true)
      by (apply Z.leb_le; exact Hbalance).
    rewrite Hge.
    rewrite (restricted_check_passes _ _ _ Hwhite), (restricted_check_passes _ _ _ Hblack).
    unfold_reads. rewrite Haccount. reflexivity.
Qed.

(** X6. Which failure the first block of
    [limit_order_create_evaluator::do_apply] reports, on a ledger that holds
    the two assets: the checks are made in the order expiration, whitelist,
    blacklist, authorization for the asset sold, authorization for the asset
    to receive, balance; the first that fails gives the assertion thrown, and
    [do_apply] leaves the world as it was. *)
Theorem limit_order_create_rejections ev op w sell receive :
  assets (ledger w) !! symbol op.(amount_to_sell) = Some sell →
  assets (ledger w) !! symbol op.(min_to_receive) = Some receive →
  let payer := ev.(fee_paying_account) in
  let rejected text := do_apply ev op w = (Throw (assert_exception text), w) in
  let in_time := (head_block_time (ledger w) <= op.(expiration))%N in
  let whitelisted :=
    size (whitelist_markets sell) = 0%nat ∨
    symbol op.(min_to_receive) ∈ whitelist_markets sell in
  let not_blacklisted :=
    size (blacklist_markets sell) = 0%nat ∨
    symbol op.(min_to_receive) ∉ blacklist_markets sell in
  let authorized sym := is_authorized_asset (ledger w) payer sym in
  (¬ in_time → rejected "op.expiration >= d.head_block_time()") ∧
  (in_time → ¬ whitelisted →
   rejected "_sell_asset->options.whitelist_markets.find(_receive_asset->id) != _sell_asset->options.whitelist_markets.end()") ∧
  (in_time → whitelisted → ¬ not_blacklisted →
   rejected "_sell_asset->options.blacklist_markets.find(_receive_asset->id) == _sell_asset->options.blacklist_markets.end()") ∧
  (in_time → whitelisted → not_blacklisted → is_Some (accounts (ledger w) !! payer) →
   (authorized (symbol op.(amount_to_sell)) = false →
    rejected "d.is_authorized_asset(*_seller, *_sell_asset)") ∧
   (authorized (symbol op.(amount_to_sell)) = true →
    authorized (symbol op.(min_to_receive)) = false →
    rejected "d.is_authorized_asset(*_seller, *_receive_asset)") ∧
   (authorized (symbol op.(amount_to_sell)) = true →
    authorized (symbol op.(min_to_receive)) = true →
    amount (get_balance (ledger w) payer (symbol op.(amount_to_sell))) <
      amount op.(amount_to_sell) →
    rejected "d.get_balance(*_seller, *_sell_asset) >= op.amount_to_sell")).
Proof.
  intros Hsell Hreceive payer rejected in_time whitelisted not_blacklisted authorized.
  subst rejected. cbv beta. unfold do_apply. rewrite bind_run.
  rewrite (limit_order_create_validate_run ev op w sell receive Hsell Hreceive).
  split; [| split; [| split]].
  - intros Hlate. apply N.leb_nle in Hlate. rewrite Hlate. reflexivity.
  - intros Htime Hwhite. apply N.leb_le in Htime. rewrite Htime.
    rewrite (restricted_check_fails _ _ _ Hwhite). reflexivity.
  - intros Htime Hwhite Hblack. apply N.leb_le in Htime. rewrite Htime.
    rewrite (restricted_check_passes _ _ _ Hwhite), (restricted_check_fails _ _ _ Hblack).
    reflexivity.
  - intros Htime Hwhite Hblack [account Haccount]. apply N.leb_le in Htime. rewrite Htime.
    rewrite (restricted_check_passes _ _ _ Hwhite), (restricted_check_passes _ _ _ Hblack).
    subst authorized payer. cbv beta.
    split; [| split].
    + intros Hsell_no. rewrite Hsell_no. unfold_reads. rewrite Haccount. reflexivity.
    + intros Hsell_ok Hreceive_no. rewrite Hsell_ok, Hreceive_no.
      unfold_reads. rewrite Haccount. reflexivity.
    + intros Hsell_ok Hreceive_ok Hshort. rewrite Hsell_ok, Hreceive_ok.
      assert (Hge : asset_ge (get_balance (ledger w) ev.(fee_paying_account)
                                (symbol op.(amount_to_sell))) op.(amount_to_sell) = false)
        by (apply Z.leb_gt; exact Hshort).
      rewrite Hge. unfold_reads. rewrite Haccount. reflexivity.
Qed.
End limit_order_create_validate.

Section call_order_update_validate.
Context `{Protocol} `{Accessor} `{Build}.
Import call_order_update_operation call_order_update_evaluator.

(** The conditions the first block of [do_apply] checks, on a store that
    holds the funding account, the debt asset and its bitasset data. *)
Lemma call_order_update_validate_run o w account debt_asset bitasset_id bitasset :
  accounts (ledger w) !! o.(funding_account) = Some account →
  assets (ledger w) !! symbol o.(delta_debt) = Some debt_asset →
  bitasset_data_id debt_asset = Some bitasset_id →
  asset_bitasset_data (ledger w) !! bitasset_id = Some bitasset →
  validate o w =
    (FC_ASSERT (negb (has_settlement bitasset)) "!_bitasset_data->has_settlement()";;
     FC_ASSERT (symbol o.(delta_collateral) =? short_backing_asset bitasset)%N
       "o.delta_collateral.asset_id == _bitasset_data->options.short_backing_asset";;
     (if is_prediction_market bitasset then
        FC_ASSERT (amount o.(delta_collateral) =? amount o.(delta_debt))
          "o.delta_collateral.amount == o.delta_debt.amount"
      else if price_is_null (settlement_price (current_feed bitasset)) then
        throw insufficient_feeds
      else ret tt);;
     (if amount o.(delta_debt) <? 0 then
        FC_ASSERT (asset_ge (get_balance (ledger w) o.(funding_account) (symbol o.(delta_debt)))
                     o.(delta_debt))
          "d.get_balance(*_paying_account, *_debt_asset) >= o.delta_debt"
      else ret tt);;
     (if 0 <? amount o.(delta_collateral) then
        get_object (fun d => assets d !! short_backing_asset bitasset);;
        FC_ASSERT (asset_ge (get_balance (ledger w) o.(funding_account)
                               (short_backing_asset bitasset)) o.(delta_collateral))
          "d.get_balance(*_paying_account, _bitasset_data->options.short_backing_asset(d)) >= o.delta_collateral"
      else ret tt);;
     ret (mk_resolved o.(funding_account) (symbol o.(delta_debt)) bitasset_id)) w.
Proof.
  intros Haccount Hasset Hid Hbitasset.
  assert (Hissued : is_market_issued debt_asset = true).
  { unfold is_market_issued. rewrite Hid. apply bool_decide_eq_true_2. eexists; reflexivity. }
  unfold validate. unfold_reads. run_reads; reflexivity.
Qed.

(** Lines 113-120 and 122-127 when what they check holds. *)
Lemma feed_check_passes o bitasset :
  (if is_prediction_market bitasset
   then amount o.(delta_collateral) = amount o.(delta_debt)
   else price_is_null (settlement_price (current_feed bitasset)) = false) →
  (if is_prediction_market bitasset then
     FC_ASSERT (amount o.(delta_collateral) =? amount o.(delta_debt))
       "o.delta_collateral.amount == o.delta_debt.amount"
   else if price_is_null (settlement_price (current_feed bitasset)) then
     throw insufficient_feeds
   else ret tt) = ret tt.
Proof.
  intros Hfeed. destruct (is_prediction_market bitasset).
  - apply Z.eqb_eq in Hfeed. rewrite Hfeed. reflexivity.
  - rewrite Hfeed. reflexivity.
Qed.

Lemma debt_cover_check_passes_when o w :
  (amount o.(delta_debt) < 0 →
   amount o.(delta_debt) <=
     amount (get_balance (ledger w) o.(funding_account) (symbol o.(delta_debt)))) →
  (if amount o.(delta_debt) <? 0 then
     FC_ASSERT (asset_ge (get_balance (ledger w) o.(funding_account) (symbol o.(delta_debt)))
                  o.(delta_debt))
       "d.get_balance(*_paying_account, *_debt_asset) >= o.delta_debt"
   else ret tt) = ret tt.
Proof.
  intros Hdebt. destruct (amount o.(delta_debt) <? 0) eqn:Hnegative; [| reflexivity].
  apply Z.ltb_lt in Hnegative. apply Hdebt in Hnegative.
  unfold asset_ge. apply Z.leb_le in Hnegative. rewrite Hnegative. reflexivity.
Qed.

(** X7. The first block of [call_order_update_evaluator::do_apply] completes
    exactly when: the funding account and the debt asset are stored; the
    debt asset is market-issued and its bitasset data is stored, not under
    settlement, and backed by the asset of the collateral delta; on a
    prediction market the two deltas are the same amount, and otherwise a
    feed is published; a negative debt delta is not above the balance of the
    debt asset; and a positive collateral delta finds the backing asset
    stored and covered by the balance.  It then leaves the world as it was
    and has resolved the account, the asset and its bitasset data. *)
Theorem call_order_update_validate_accepts_exactly o w r w' :
  validate o w = (Ok r, w') ↔
  w' = w ∧
  is_Some (accounts (ledger w) !! o.(funding_account)) ∧
  ∃ debt_asset bitasset_id bitasset,
    assets (ledger w) !! symbol o.(delta_debt) = Some debt_asset ∧
    bitasset_data_id debt_asset = Some bitasset_id ∧
    asset_bitasset_data (ledger w) !! bitasset_id = Some bitasset ∧
    r = mk_resolved o.(funding_account) (symbol o.(delta_debt)) bitasset_id ∧
    has_settlement bitasset = false ∧
    symbol o.(delta_collateral) = short_backing_asset bitasset ∧
    (if is_prediction_market bitasset
     then amount o.(delta_collateral) = amount o.(delta_debt)
     else price_is_null (settlement_price (current_feed bitasset)) = false) ∧
    (amount o.(delta_debt) < 0 →
     amount o.(delta_debt) <=
       amount (get_balance (ledger w) o.(funding_account) (symbol o.(delta_debt)))) ∧
    (0 < amount o.(delta_collateral) →
     is_Some (assets (ledger w) !! short_backing_asset bitasset) ∧
     amount o.(delta_collateral) <=
       amount (get_balance (ledger w) o.(funding_account) (short_backing_asset bitasset))).
Proof.
  split.
  - intros Hrun. unfold validate, bitasset_data in Hrun. invert_run.
    all: simplify_eq.
    all: repeat match goal with
           | Hcond : (_ =? _)%N = true |- _ => apply N.eqb_eq in Hcond
           | Hcond : (_ =? _) = true |- _ => apply Z.eqb_eq in Hcond
           | Hcond : negb _ = true |- _ => apply negb_true_iff in Hcond
           | Hcond : (_ <? _) = true |- _ => apply Z.ltb_lt in Hcond
           | Hcond : (_ <? _) = false |- _ => apply Z.ltb_ge in Hcond
           | Hcond : asset_ge _ _ = true |- _ =>
               unfold asset_ge in Hcond; apply Z.leb_le in Hcond
           end.
    all: (split; [reflexivity |]); (split; [eexists; eassumption |]).
    all: eexists _, _, _.
    all: repeat (split; [eassumption || reflexivity |]).
    all: match goal with
         | Hmarket : is_prediction_market _ = _ |- _ => rewrite Hmarket
         end.
    all: (split; [assumption |]).
    all: split; intros; try lia.
    all: try assumption.
    all: split; [eexists; eassumption | assumption].
  - intros (-> & [account Haccount] & debt_asset & bitasset_id & bitasset & Hasset & Hid &
            Hbitasset & -> & Hsettled & Hbacking & Hfeed & Hdebt & Hcollateral).
    rewrite (call_order_update_validate_run o w account debt_asset bitasset_id bitasset
               Haccount Hasset Hid Hbitasset).
    rewrite Hsettled. apply N.eqb_eq in Hbacking. rewrite Hbacking.
    rewrite (feed_check_passes o bitasset Hfeed), (debt_cover_check_passes_when o w Hdebt).
    destruct (0 <? amount o.(delta_collateral)) eqn:Hpositive; [| reflexivity].
    apply Z.ltb_lt in Hpositive. destruct (Hcollateral Hpositive) as [[backing Hstored] Hcover].
    unfold asset_ge. apply Z.leb_le in Hcover. rewrite Hcover.
    cbn [negb]. unfold_reads. rewrite Hstored. reflexivity.
Qed.

(** X8. Which failure the first block of
    [call_order_update_evaluator::do_apply] reports, on a ledger that holds
    the funding account and the debt asset.  The checks are made in this
    order, and the first that fails gives the exception: the asset is
    market-issued; it is not under settlement; the collateral delta is in
    its backing asset; on a prediction market the two deltas are the same
    amount, otherwise a feed is published, and a missing feed is reported by
    [insufficient_feeds]; the balance covers a positive collateral delta.
    In each case [do_apply] leaves the world as it was. *)
Theorem call_order_update_rejections o w account debt_asset :
  accounts (ledger w) !! o.(funding_account) = Some account →
  assets (ledger w) !! symbol o.(delta_debt) = Some debt_asset →
  let rejected e := do_apply o w = (Throw e, w) in
  (bitasset_data_id debt_asset = None →
   rejected (assert_exception "_debt_asset->is_market_issued()")) ∧
  (∀ bitasset_id bitasset,
     bitasset_data_id debt_asset = Some bitasset_id →
     asset_bitasset_data (ledger w) !! bitasset_id = Some bitasset →
     (has_settlement bitasset = true →
      rejected (assert_exception "!_bitasset_data->has_settlement()")) ∧
     (has_settlement bitasset = false →
      symbol o.(delta_collateral) ≠ short_backing_asset bitasset →
      rejected (assert_exception
                  "o.delta_collateral.asset_id == _bitasset_data->options.short_backing_asset")) ∧
     (has_settlement bitasset = false →
      symbol o.(delta_collateral) = short_backing_asset bitasset →
      (is_prediction_market bitasset = true →
       amount o.(delta_collateral) ≠ amount o.(delta_debt) →
       rejected (assert_exception "o.delta_collateral.amount == o.delta_debt.amount")) ∧
      (is_prediction_market bitasset = false →
       price_is_null (settlement_price (current_feed bitasset)) = true →
       rejected insufficient_feeds) ∧
      ((if is_prediction_market bitasset
        then amount o.(delta_collateral) = amount o.(delta_debt)
        else price_is_null (settlement_price (current_feed bitasset)) = false) →
       (amount o.(delta_debt) < 0 →
        amount o.(delta_debt) <=
          amount (get_balance (ledger w) o.(funding_account) (symbol o.(delta_debt)))) →
       0 < amount o.(delta_collateral) →
       is_Some (assets (ledger w) !! short_backing_asset bitasset) →
       amount (get_balance (ledger w) o.(funding_account) (short_backing_asset bitasset)) <
         amount o.(delta_collateral) →
       rejected (assert_exception
                   "d.get_balance(*_paying_account, _bitasset_data->options.short_backing_asset(d)) >= o.delta_collateral")))).
Proof.
  intros Haccount Hasset rejected. subst rejected. cbv beta. split.
  - intros Hplain. unfold do_apply, validate. rewrite bind_run.
    assert (Hissued : is_market_issued debt_asset = false).
    { unfold is_market_issued. rewrite Hplain. apply bool_decide_eq_false_2.
      intros [id Hid]. discriminate Hid. }
    unfold_reads. rewrite Haccount, Hasset. cbv beta iota.
    rewrite Hasset, Hissued. reflexivity.
  - intros bitasset_id bitasset Hid Hbitasset. unfold do_apply. rewrite bind_run.
    rewrite (call_order_update_validate_run o w account debt_asset bitasset_id bitasset
               Haccount Hasset Hid Hbitasset).
    split; [| split].
    + intros Hsettled. rewrite Hsettled. reflexivity.
    + intros Hsettled Hother. apply N.eqb_neq in Hother. rewrite Hsettled, Hother.
      reflexivity.
    + intros Hsettled Hbacking. apply N.eqb_eq in Hbacking. rewrite Hsettled, Hbacking.
      split; [| split].
      * intros Hmarket Hdiffer. apply Z.eqb_neq in Hdiffer. rewrite Hmarket, Hdiffer.
        reflexivity.
      * intros Hmarket Hnull. rewrite Hmarket, Hnull. reflexivity.
      * intros Hfeed Hdebt Hpositive [backing Hstored] Hshort.
        rewrite (feed_check_passes o bitasset Hfeed), (debt_cover_check_passes_when o w Hdebt).
        apply Z.ltb_lt in Hpositive. rewrite Hpositive.
        unfold asset_ge. apply Z.leb_gt in Hshort. rewrite Hshort.
        cbn [negb]. unfold_reads. rewrite Hstored. reflexivity.
Qed.
End call_order_update_validate.

(** ** The Execute phase of a call order update *)

Section call_order_update_execute.
Context `{Protocol} `{Accessor} `{Build}.
Import call_order_update_operation call_order_update_evaluator.

(** Lines 152-161 when they complete, with the statistics they modify. *)
Lemma apply_delta_collateral_Ok_statistics r o w w' :
  adjust_balance_credits →
  apply_delta_collateral r o w = (Ok tt, w') →
  (amount o.(delta_collateral) = 0 ∧ w' = w) ∨
  (amount o.(delta_collateral) ≠ 0 ∧
   let paid := credit o.(funding_account) (asset_neg o.(delta_collateral)) (ledger w) in
   (symbol o.(delta_collateral) ≠ STEEM_SYMBOL ∧ w' = mk_world paid (calls w) ∨
    symbol o.(delta_collateral) = STEEM_SYMBOL ∧
    ∃ paying_account stats,
      accounts (ledger w) !! r.(_paying_account) = Some paying_account ∧
      account_statistics (ledger w) !! statistics paying_account = Some stats ∧
      w' = mk_world
             (set_account_statistics
                (alter (fun stats =>
                          mk_statistics (total_core_in_orders stats + amount o.(delta_collateral)))
                   (statistics paying_account)) paid)
             (calls w))).
Proof.
  intros Hcredits Hrun. unfold apply_delta_collateral in Hrun.
  destruct (amount o.(delta_collateral) =? 0) eqn:Hzero; simpl in Hrun.
  - left. apply Z.eqb_eq in Hzero. invert_run. split; [exact Hzero | reflexivity].
  - right. apply Z.eqb_neq in Hzero. split; [exact Hzero |].
    apply bind_Ok_inv in Hrun as (u & w1 & Hadjust & Hrun).
    apply lift_inv in Hadjust as (d1 & Hadjust & ->). destruct u.
    apply Hcredits in Hadjust. subst d1.
    destruct (symbol o.(delta_collateral) =? STEEM_SYMBOL)%N eqn:Hcore; invert_run.
    + right. apply N.eqb_eq in Hcore. split; [exact Hcore |].
      cbn [ledger calls] in *. eexists _, _. repeat split; eassumption.
    + left. apply N.eqb_neq in Hcore. split; [exact Hcore | reflexivity].
Qed.

(** X9. What lines 142-161 do to the funding account and to the debt asset,
    when the first block has completed and they complete, for a debt asset
    that is not its own collateral: the balance of the debt asset and the
    supply of the debt asset both grow by the debt delta, the balance of the
    collateral asset shrinks by the collateral delta, and
    [total_core_in_orders] of the account grows by the collateral delta when
    the collateral is the core asset; otherwise the statistics stay as they
    were. *)
Theorem call_order_update_applies_deltas o w r w0 w1 w2 :
  adjust_balance_credits →
  symbol o.(delta_debt) ≠ symbol o.(delta_collateral) →
  validate o w = (Ok r, w0) →
  apply_delta_debt r o w0 = (Ok tt, w1) →
  apply_delta_collateral r o w1 = (Ok tt, w2) →
  let who := o.(funding_account) in
  amount (get_balance (ledger w2) who (symbol o.(delta_debt))) =
    amount (get_balance (ledger w) who (symbol o.(delta_debt))) + amount o.(delta_debt) ∧
  supply_of (ledger w2) (symbol o.(delta_debt)) =
    supply_of (ledger w) (symbol o.(delta_debt)) + amount o.(delta_debt) ∧
  amount (get_balance (ledger w2) who (symbol o.(delta_collateral))) =
    amount (get_balance (ledger w) who (symbol o.(delta_collateral)))
    - amount o.(delta_collateral) ∧
  (symbol o.(delta_collateral) = STEEM_SYMBOL →
   core_in_orders (ledger w2) who =
     core_in_orders (ledger w) who + amount o.(delta_collateral)) ∧
  (symbol o.(delta_collateral) ≠ STEEM_SYMBOL →
   account_statistics (ledger w2) = account_statistics (ledger w)).
Proof.
  intros Hcredits Hdistinct Hvalid Hdebt Hcollateral who. subst who.
  apply call_order_update_validate_Ok in Hvalid as (-> & Hpayer & Hasset & _).
  apply (apply_delta_debt_Ok _ _ _ _ Hcredits) in Hdebt.
  apply (apply_delta_collateral_Ok_statistics _ _ _ _ Hcredits) in Hcollateral.
  rewrite Hpayer, ?Hasset in *.
  assert (Hsupply : supply_of (ledger w1) (symbol o.(delta_debt)) =
                    supply_of (ledger w) (symbol o.(delta_debt)) + amount o.(delta_debt) ∧
                    amount (get_balance (ledger w1) o.(funding_account) (symbol o.(delta_debt))) =
                    amount (get_balance (ledger w) o.(funding_account) (symbol o.(delta_debt)))
                    + amount o.(delta_debt) ∧
                    get_balance (ledger w1) o.(funding_account) (symbol o.(delta_collateral)) =
                    get_balance (ledger w) o.(funding_account) (symbol o.(delta_collateral)) ∧
                    accounts (ledger w1) = accounts (ledger w) ∧
                    account_statistics (ledger w1) = account_statistics (ledger w)).
  { destruct Hdebt as [[Hzero ->] | (_ & debt_asset & dynamic_asset & Hstored & Hdyn & _ & ->)].
    - rewrite Hzero. repeat split; lia.
    - split; [| split; [| split]].
      + unfold supply_of. cbn [ledger assets set_asset_dynamic_data credit set_balances
                                 asset_dynamic_data].
        rewrite Hstored, lookup_alter_eq, Hdyn. reflexivity.
      + apply get_balance_credit.
      + apply (get_balance_credit_other (ledger w) o.(funding_account) o.(delta_debt)). congruence.
      + split; reflexivity. }
  destruct Hsupply as (Hsupply & Hbalance & Hother & Haccounts & Hstatistics).
  assert (Hpaid :
            let paid := credit o.(funding_account) (asset_neg o.(delta_collateral)) (ledger w1) in
            amount (get_balance paid o.(funding_account) (symbol o.(delta_debt))) =
              amount (get_balance (ledger w1) o.(funding_account) (symbol o.(delta_debt))) ∧
            supply_of paid (symbol o.(delta_debt)) = supply_of (ledger w1) (symbol o.(delta_debt)) ∧
            amount (get_balance paid o.(funding_account) (symbol o.(delta_collateral))) =
              amount (get_balance (ledger w1) o.(funding_account) (symbol o.(delta_collateral)))
              - amount o.(delta_collateral)).
  { intros paid. subst paid. split; [| split].
    - rewrite (get_balance_credit_other (ledger w1) o.(funding_account) (asset_neg o.(delta_collateral)));
        [reflexivity | exact Hdistinct].
    - reflexivity.
    - pose proof (get_balance_credit (ledger w1) o.(funding_account) (asset_neg o.(delta_collateral)))
        as Hcredit.
      cbn [asset_neg symbol amount] in Hcredit. rewrite Hcredit. lia. }
  destruct Hpaid as (Hb & Hs & Hc).
  destruct Hcollateral as [[Hzero ->] | (_ & [[Hother_asset ->] | (Hcore & account & stats &
                                          Haccount & Hstats & ->)])].
  - rewrite Hzero, Hsupply, Hbalance, Hother.
    unfold core_in_orders. rewrite Haccounts, Hstatistics.
    repeat split; lia.
  - cbn [ledger]. rewrite Hb, Hs, Hc, Hsupply, Hbalance, Hother.
    repeat split; try lia. intros _. exact Hstatistics.
  - cbn [ledger].
    change (get_balance (set_account_statistics ?f ?d) ?a ?s) with (get_balance d a s).
    change (supply_of (set_account_statistics ?f ?d) ?s) with (supply_of d s).
    rewrite Hb, Hs, Hc, Hsupply, Hbalance, Hother.
    repeat split; try lia.
    intros _. unfold core_in_orders.
    cbn [accounts account_statistics set_account_statistics credit set_balances].
    rewrite Haccounts in Haccount. rewrite Hstatistics in Hstats.
    rewrite Haccounts. rewrite Haccount, lookup_alter_eq, Hstatistics, Hstats.
    reflexivity.
Qed.

(** The [by_account] index is read off the call orders. *)
Lemma find_by_account_ext who debt_asset d d' :
  call_orders d' = call_orders d →
  find_by_account who debt_asset d' = find_by_account who debt_asset d.
Proof. intros Horders. unfold find_by_account. rewrite Horders. reflexivity. Qed.

(** When the first block and lines 142-161 have completed, [do_apply] goes
    on with the call order, which the deltas have left as it was. *)
Lemma do_apply_after_deltas o w r w0 w1 w2 :
  adjust_balance_credits →
  validate o w = (Ok r, w0) →
  apply_delta_debt r o w0 = (Ok tt, w1) →
  apply_delta_collateral r o w1 = (Ok tt, w2) →
  do_apply o w = (call_obj ← update_call_order r o; check_margin r call_obj) w2 ∧
  call_orders (ledger w2) = call_orders (ledger w) ∧
  next_call_order_id (ledger w2) = next_call_order_id (ledger w) ∧
  asset_bitasset_data (ledger w2) = asset_bitasset_data (ledger w) ∧
  calls w2 = calls w.
Proof.
  intros Hcredits Hvalid Hdebt Hcollateral. split.
  - unfold do_apply. rewrite (bind_Ok _ _ _ _ _ Hvalid). unfold execute.
    rewrite (bind_Ok _ _ _ _ _ Hdebt), (bind_Ok _ _ _ _ _ Hcollateral). reflexivity.
  - apply call_order_update_validate_Ok in Hvalid as (-> & _).
    exact (apply_deltas_frame _ _ _ _ _ Hcredits Hdebt Hcollateral).
Qed.

(** X10. Opening a position takes a positive collateral delta and a
    positive debt delta.  For an account that has no call order in the debt
    asset, an update whose collateral delta, or else whose debt delta, is not
    positive is refused by the assertion of that delta.  The refusal comes
    after lines 142-161: the world [do_apply] leaves is the one in which the
    deltas have been applied to the balances, the supply and the
    statistics. *)
Theorem call_order_update_opening_needs_positive_deltas o w r w0 w1 w2 :
  adjust_balance_credits →
  validate o w = (Ok r, w0) →
  apply_delta_debt r o w0 = (Ok tt, w1) →
  apply_delta_collateral r o w1 = (Ok tt, w2) →
  find_by_account o.(funding_account) (symbol o.(delta_debt)) (ledger w) = None →
  (amount o.(delta_collateral) <= 0 →
   do_apply o w = (Throw (assert_exception "o.delta_collateral.amount > 0"), w2)) ∧
  (0 < amount o.(delta_collateral) → amount o.(delta_debt) <= 0 →
   do_apply o w = (Throw (assert_exception "o.delta_debt.amount > 0"), w2)).
Proof.
  intros Hcredits Hvalid Hdebt Hcollateral Hnone.
  destruct (do_apply_after_deltas _ _ _ _ _ _ Hcredits Hvalid Hdebt Hcollateral)
    as (-> & Horders & _).
  rewrite <- (find_by_account_ext _ _ _ _ Horders) in Hnone.
  assert (Hindex : read (find_by_account o.(funding_account) (symbol o.(delta_debt))) w2 =
                   (Ok None, w2)) by (unfold read; rewrite Hnone; reflexivity).
  split.
  - intros Hcollateral_delta. apply Z.ltb_ge in Hcollateral_delta.
    rewrite bind_run. unfold update_call_order. rewrite (bind_Ok _ _ _ _ _ Hindex).
    rewrite Hcollateral_delta. reflexivity.
  - intros Hcollateral_delta Hdebt_delta.
    apply Z.ltb_lt in Hcollateral_delta. apply Z.ltb_ge in Hdebt_delta.
    rewrite bind_run. unfold update_call_order. rewrite (bind_Ok _ _ _ _ _ Hindex).
    rewrite Hcollateral_delta, Hdebt_delta. reflexivity.
Qed.

(** X11. Neither debt without collateral nor collateral without debt.  For
    an account that has a call order in the debt asset: an update that
    brings the debt to zero and leaves collateral is refused by the assertion
    [call_obj->collateral == 0]; an update that leaves a debt and does not
    leave both debt and collateral positive is refused by the assertion
    [call_obj->collateral > 0 && call_obj->debt > 0].  In both cases no
    collaborator has been called, and the world [do_apply] leaves holds the
    order with the resulting amounts. *)
Theorem call_order_update_refuses_mixed_state o w r w0 w1 w2 call_obj stored :
  adjust_balance_credits →
  validate o w = (Ok r, w0) →
  apply_delta_debt r o w0 = (Ok tt, w1) →
  apply_delta_collateral r o w1 = (Ok tt, w2) →
  find_by_account o.(funding_account) (symbol o.(delta_debt)) (ledger w) =
    Some (call_obj, stored) →
  let owed := debt stored + amount o.(delta_debt) in
  let held := collateral stored + amount o.(delta_collateral) in
  let run := do_apply o w in
  (owed = 0 → held ≠ 0 →
   run.1 = Throw (assert_exception "call_obj->collateral == 0")) ∧
  (owed ≠ 0 → ¬ (0 < held ∧ 0 < owed) →
   run.1 = Throw (assert_exception "call_obj->collateral > 0 && call_obj->debt > 0")) ∧
  (owed = 0 ∧ held ≠ 0 ∨ owed ≠ 0 ∧ ¬ (0 < held ∧ 0 < owed) →
   calls run.2 = calls w ∧
   ∃ call,
     call_orders (ledger run.2) !! call_obj = Some call ∧
     debt call = owed ∧ collateral call = held).
Proof.
  intros Hcredits Hvalid Hdebt Hcollateral Hfound owed held run.
  destruct (do_apply_after_deltas _ _ _ _ _ _ Hcredits Hvalid Hdebt Hcollateral)
    as (Hrun & Horders & _ & Hbitassets & Hcalls).
  apply call_order_update_validate_Ok in Hvalid
    as (_ & _ & _ & _ & debt_asset & bitasset & _ & _ & Hbitasset & _).
  rewrite <- Hbitassets in Hbitasset.
  rewrite <- (find_by_account_ext _ _ _ _ Horders) in Hfound.
  pose proof (find_by_account_Some _ _ _ _ _ Hfound) as (Hstored & _ & _).
  set (ratio := maintenance_collateral_ratio (current_feed bitasset)).
  set (added := mk_call_order (borrower stored) held owed (call_price stored)).
  set (call := if 0 <? owed
               then mk_call_order (borrower stored) held owed
                      (price_call_price (get_debt added) (get_collateral added) ratio)
               else added).
  assert (Hupdate : update_call_order r o w2 =
                    (Ok call_obj,
                     mk_world (set_call_orders (<[call_obj := call]>) (ledger w2)) (calls w2))).
  { unfold update_call_order.
    rewrite (bind_Ok _ _ w2 (Some (call_obj, stored)) w2)
      by (unfold read; rewrite Hfound; reflexivity).
    rewrite (bind_Ok _ _ w2 stored w2) by (apply deref_Some; exact Hstored).
    cbv zeta. cbn [debt collateral borrower call_price].
    fold owed held added. subst call.
    destruct (0 <? owed).
    - rewrite bind_run. rewrite (bind_Ok _ _ w2 bitasset w2)
        by (apply deref_Some; exact Hbitasset).
      reflexivity.
    - reflexivity. }
  assert (Hamounts : debt call = owed ∧ collateral call = held).
  { subst call. destruct (0 <? owed); split; reflexivity. }
  destruct Hamounts as [Howed Hheld].
  assert (Hmargin : owed = 0 ∧ held ≠ 0 ∨ owed ≠ 0 ∧ ¬ (0 < held ∧ 0 < owed) →
            run = (Throw (assert_exception
                            (if owed =? 0 then "call_obj->collateral == 0"
                             else "call_obj->collateral > 0 && call_obj->debt > 0")),
                   mk_world (set_call_orders (<[call_obj := call]>) (ledger w2)) (calls w2))).
  { intros Hmixed. subst run. rewrite Hrun, (bind_Ok _ _ _ _ _ Hupdate).
    unfold check_margin.
    rewrite (bind_Ok _ _ _ call _)
      by (apply deref_Some; cbn [ledger call_orders set_call_orders];
          apply lookup_insert_eq).
    cbv zeta. cbn [get_debt amount]. rewrite Howed, Hheld.
    destruct Hmixed as [[Hzero Hleft] | [Hnonzero Hnot_both]].
    - apply Z.eqb_eq in Hzero. apply Z.eqb_neq in Hleft. rewrite Hzero, Hleft. reflexivity.
    - apply Z.eqb_neq in Hnonzero. rewrite Hnonzero.
      assert (Hboth : (0 <? held) && (0 <? owed) = false).
      { apply andb_false_iff.
        destruct (0 <? held) eqn:Hh; [| left; reflexivity].
        destruct (0 <? owed) eqn:Ho; [| right; reflexivity].
        apply Z.ltb_lt in Hh. apply Z.ltb_lt in Ho. exfalso. apply Hnot_both. split; assumption. }
      rewrite Hboth. reflexivity. }
  split; [| split].
  - intros Hzero Hleft. rewrite Hmargin by (left; split; assumption).
    apply Z.eqb_eq in Hzero. rewrite Hzero. reflexivity.
  - intros Hnonzero Hnot_both. rewrite Hmargin by (right; split; assumption).
    apply Z.eqb_neq in Hnonzero. rewrite Hnonzero. reflexivity.
  - intros Hmixed. rewrite (Hmargin Hmixed). cbn [snd calls ledger]. split; [exact Hcalls |].
    exists call. split; [| split; assumption].
    cbn [call_orders set_call_orders]. apply lookup_insert_eq.
Qed.

(** When the [by_account] index finds nothing, no stored order is of that
    borrower in that debt asset. *)
Lemma find_by_account_None who debt_asset d id call :
  find_by_account who debt_asset d = None →
  call_orders d !! id = Some call →
  ¬ (borrower call = who ∧ debt_type call = debt_asset).
Proof.
  unfold find_by_account. intros Hfind Hstored Hmatch.
  apply fmap_None in Hfind.
  apply list_find_None in Hfind.
  apply elem_of_map_to_list in Hstored.
  rewrite Forall_forall in Hfind. apply (Hfind _ Hstored). exact Hmatch.
Qed.

(** Lines 164-191 when they complete: what is stored, and under which id. *)
Lemma update_call_order_stores r o w call_obj w' :
  update_call_order r o w = (Ok call_obj, w') →
  calls w' = calls w ∧
  ((find_by_account o.(funding_account) (symbol o.(delta_debt)) (ledger w) = None ∧
    call_obj = next_call_order_id (ledger w) ∧
    ∃ ratio,
      ledger w' =
        set_next_call_order_id (N.succ call_obj)
          (set_call_orders
             (<[call_obj := mk_call_order o.(funding_account) (amount o.(delta_collateral))
                              (amount o.(delta_debt))
                              (price_call_price o.(delta_debt) o.(delta_collateral) ratio)]>)
             (ledger w))) ∨
   (∃ stored call,
      find_by_account o.(funding_account) (symbol o.(delta_debt)) (ledger w) =
        Some (call_obj, stored) ∧
      ledger w' = set_call_orders (<[call_obj := call]>) (ledger w) ∧
      borrower call = borrower stored ∧
      let added := mk_call_order (borrower stored)
                     (collateral stored + amount o.(delta_collateral))
                     (debt stored + amount o.(delta_debt)) (call_price stored) in
      (call = added ∨
       ∃ ratio, call = mk_call_order (borrower stored) (collateral added) (debt added)
                         (price_call_price (get_debt added) (get_collateral added) ratio)))).
Proof.
  intros Hrun. unfold update_call_order in Hrun.
  apply bind_Ok_inv in Hrun as (itr & w1 & Hfind & Hrun).
  apply read_inv in Hfind as [-> ->].
  destruct (find_by_account o.(funding_account) (symbol o.(delta_debt)) (ledger w))
    as [[found stored] |] eqn:Hfind.
  - pose proof (find_by_account_Some _ _ _ _ _ Hfind) as (Hstored & _ & _).
    apply bind_Ok_inv in Hrun as (call & w1 & Hptr & Hrun).
    apply deref_inv in Hptr as [Hptr ->].
    rewrite Hstored in Hptr. injection Hptr as <-.
    apply bind_Ok_inv in Hrun as (call' & w1 & Hprice & Hrun).
    cbn [debt] in Hprice.
    destruct (0 <? debt stored + amount o.(delta_debt)); invert_run.
    + split; [reflexivity |]. right. eexists stored, _.
      repeat (split; [reflexivity |]). right. eexists. reflexivity.
    + split; [reflexivity |]. right. eexists stored, _.
      repeat (split; [reflexivity |]). left. reflexivity.
  - unfold create_call_order in Hrun. invert_run.
    split; [reflexivity |]. left. repeat (split; [reflexivity |]).
    eexists. reflexivity.
Qed.

(** X12. One call order for an account and a debt asset.  On a ledger whose
    [by_account] index holds at most one call order for a borrower and a debt
    asset, and whose next call order id is free, lines 164-191 keep it so:
    when they complete, the order they stored is of the funding account and
    in the debt asset of the operation, it is the only one, and every other
    call order is as it was. *)
Theorem call_order_update_keeps_one_order_per_account r o w call_obj w' :
  call_price_denomination →
  denomination_by_price →
  unique_by_account (ledger w) →
  call_order_ids_below_next (ledger w) →
  update_call_order r o w = (Ok call_obj, w') →
  unique_by_account (ledger w') ∧
  call_order_ids_below_next (ledger w') ∧
  (∀ id, id ≠ call_obj → call_orders (ledger w') !! id = call_orders (ledger w) !! id) ∧
  ∃ call,
    call_orders (ledger w') !! call_obj = Some call ∧
    borrower call = o.(funding_account) ∧
    debt_type call = symbol o.(delta_debt).
Proof.
  intros Hdenomination Hby_price Hunique Hbelow Hrun.
  apply update_call_order_stores in Hrun
    as (_ & [(Hnone & Hid & ratio & Hledger) |
             (stored & call & Hfound & Hledger & Hborrower & Hcall)]).
  - (* a new order, under the next id *)
    set (opened := mk_call_order o.(funding_account) (amount o.(delta_collateral))
                     (amount o.(delta_debt))
                     (price_call_price o.(delta_debt) o.(delta_collateral) ratio)) in *.
    assert (Hfresh : call_orders (ledger w) !! call_obj = None).
    { destruct (call_orders (ledger w) !! call_obj) as [c |] eqn:Hc; [| reflexivity].
      apply Hbelow in Hc. cbv beta in Hc. lia. }
    assert (Hopened : borrower opened = o.(funding_account) ∧
                      debt_type opened = symbol o.(delta_debt)).
    { split; [reflexivity |].
      apply (Hdenomination o.(funding_account) (amount o.(delta_collateral))
               (amount o.(delta_debt)) o.(delta_debt) o.(delta_collateral) ratio). }
    rewrite Hledger. cbn [call_orders set_next_call_order_id set_call_orders
                            next_call_order_id].
    split; [| split; [| split]].
    + intros id1 id2 call1 call2 Hfirst Hsecond Hsame_borrower Hsame_debt.
      cbn [call_orders set_next_call_order_id set_call_orders] in Hfirst, Hsecond.
      destruct (decide (id1 = call_obj)) as [-> | Hne1];
        destruct (decide (id2 = call_obj)) as [-> | Hne2]; [reflexivity | | |].
      * rewrite lookup_insert_eq in Hfirst. injection Hfirst as <-.
        rewrite lookup_insert_ne in Hsecond by congruence.
        exfalso. apply (find_by_account_None _ _ _ _ _ Hnone Hsecond).
        destruct Hopened as [Hb Hd]. rewrite <- Hsame_borrower, <- Hsame_debt. auto.
      * rewrite lookup_insert_eq in Hsecond. injection Hsecond as <-.
        rewrite lookup_insert_ne in Hfirst by congruence.
        exfalso. apply (find_by_account_None _ _ _ _ _ Hnone Hfirst).
        destruct Hopened as [Hb Hd]. rewrite Hsame_borrower, Hsame_debt. auto.
      * rewrite lookup_insert_ne in Hfirst by congruence.
        rewrite lookup_insert_ne in Hsecond by congruence.
        exact (Hunique _ _ _ _ Hfirst Hsecond Hsame_borrower Hsame_debt).
    + intros id c Hc. cbv beta.
      cbn [call_orders set_next_call_order_id set_call_orders next_call_order_id] in *.
      destruct (decide (id = call_obj)) as [-> | Hne]; [lia |].
      rewrite lookup_insert_ne in Hc by congruence.
      apply Hbelow in Hc. cbv beta in Hc. lia.
    + intros id Hne. apply lookup_insert_ne. congruence.
    + exists opened. split; [apply lookup_insert_eq | exact Hopened].
  - (* the stored order, updated in place *)
    pose proof (find_by_account_Some _ _ _ _ _ Hfound) as (Hstored & Hwho & Hdebt).
    set (added := mk_call_order (borrower stored)
                    (collateral stored + amount o.(delta_collateral))
                    (debt stored + amount o.(delta_debt)) (call_price stored)) in *.
    assert (Hadded : debt_type added = debt_type stored).
    { apply (Hby_price added stored). reflexivity. }
    assert (Hcall_debt : debt_type call = debt_type stored).
    { destruct Hcall as [-> | [ratio' ->]]; [exact Hadded |].
      destruct (Hdenomination (borrower stored) (collateral added) (debt added)
                  (get_debt added) (get_collateral added) ratio') as [-> _].
      exact Hadded. }
    rewrite Hledger. cbn [call_orders set_call_orders next_call_order_id].
    split; [| split; [| split]].
    + intros id1 id2 call1 call2 Hfirst Hsecond Hsame_borrower Hsame_debt.
      cbn [call_orders set_call_orders] in Hfirst, Hsecond.
      destruct (decide (id1 = call_obj)) as [-> | Hne1];
        destruct (decide (id2 = call_obj)) as [-> | Hne2]; [reflexivity | | |].
      * rewrite lookup_insert_eq in Hfirst. injection Hfirst as <-.
        rewrite lookup_insert_ne in Hsecond by congruence.
        symmetry. apply (Hunique _ _ _ _ Hsecond Hstored); congruence.
      * rewrite lookup_insert_eq in Hsecond. injection Hsecond as <-.
        rewrite lookup_insert_ne in Hfirst by congruence.
        apply (Hunique _ _ _ _ Hfirst Hstored); congruence.
      * rewrite lookup_insert_ne in Hfirst by congruence.
        rewrite lookup_insert_ne in Hsecond by congruence.
        exact (Hunique _ _ _ _ Hfirst Hsecond Hsame_borrower Hsame_debt).
    + intros id c Hc. cbv beta.
      cbn [call_orders set_call_orders next_call_order_id] in *.
      destruct (decide (id = call_obj)) as [-> | Hne].
      * apply Hbelow in Hstored. exact Hstored.
      * rewrite lookup_insert_ne in Hc by congruence. apply Hbelow in Hc. exact Hc.
    + intros id Hne. apply lookup_insert_ne. congruence.
    + exists call. split; [apply lookup_insert_eq |]. split; congruence.
Qed.

(** Lines 193-232 on a prediction market call no collaborator. *)
Lemma check_margin_on_prediction_market r call_obj w bitasset :
  asset_bitasset_data (ledger w) !! r.(_bitasset_data) = Some bitasset →
  is_prediction_market bitasset = true →
  calls (check_margin r call_obj w).2 = calls w.
Proof.
  intros Hbitasset Hmarket. unfold check_margin. rewrite bind_run. unfold deref at 1.
  destruct (call_orders (ledger w) !! call_obj) as [call |]; [| reflexivity].
  cbv zeta. destruct (amount (get_debt call) =? 0).
  - destruct (collateral call =? 0); reflexivity.
  - destruct ((0 <? collateral call) && (0 <? debt call)); [| reflexivity].
    rewrite bind_run. cbn [FC_ASSERT ret].
    rewrite (bind_Ok _ _ w bitasset w) by (apply deref_Some; exact Hbitasset).
    rewrite Hmarket. reflexivity.
Qed.

(** X13. On a prediction market, [call_order_update_evaluator::do_apply]
    calls no collaborator, whatever its outcome: positions in a prediction
    market are not checked for margin calls. *)
Theorem call_order_update_prediction_market_calls_nothing
    o w debt_asset bitasset_id bitasset :
  adjust_balance_credits →
  assets (ledger w) !! symbol o.(delta_debt) = Some debt_asset →
  bitasset_data_id debt_asset = Some bitasset_id →
  asset_bitasset_data (ledger w) !! bitasset_id = Some bitasset →
  is_prediction_market bitasset = true →
  calls (do_apply o w).2 = calls w.
Proof.
  intros Hcredits Hasset Hid Hbitasset Hmarket.
  unfold do_apply. rewrite bind_run.
  destruct (validate o w) as [[r | e |] w0] eqn:Hvalid;
    [| exact (quiet_run _ _ _ _ (quiet_update_validate o) Hvalid)
     | exact (quiet_run _ _ _ _ (quiet_update_validate o) Hvalid)].
  apply call_order_update_validate_Ok in Hvalid
    as (-> & _ & _ & _ & debt_asset' & bitasset' & Hasset' & Hid' & Hbitasset' & _).
  simplify_eq.
  unfold execute. rewrite bind_run.
  destruct (apply_delta_debt r o w) as [[[] | e |] w1] eqn:Hdebt;
    [| exact (quiet_run _ _ _ _ (quiet_apply_delta_debt r o) Hdebt)
     | exact (quiet_run _ _ _ _ (quiet_apply_delta_debt r o) Hdebt)].
  rewrite bind_run.
  destruct (apply_delta_collateral r o w1) as [[[] | e |] w2] eqn:Hcollateral.
  2, 3: (etransitivity;
         [exact (quiet_run _ _ _ _ (quiet_apply_delta_collateral r o) Hcollateral)
         | exact (quiet_run _ _ _ _ (quiet_apply_delta_debt r o) Hdebt)]).
  destruct (apply_deltas_frame _ _ _ _ _ Hcredits Hdebt Hcollateral)
    as (_ & _ & Hbitassets & Hcalls).
  rewrite bind_run.
  destruct (update_call_order r o w2) as [[call_obj | e |] w3] eqn:Hupdate.
  2, 3: (etransitivity;
         [exact (quiet_run _ _ _ _ (quiet_update_call_order r o) Hupdate) | exact Hcalls]).
  apply update_call_order_Ok in Hupdate as (_ & Hbitassets' & Hcalls' & _).
  rewrite (check_margin_on_prediction_market r call_obj w3 bitasset).
  - congruence.
  - rewrite Hbitassets', Hbitassets. assumption.
  - exact Hmarket.
Qed.
End call_order_update_execute.

(** ** The end of the process *)

Section call_order_update_abort.
Context `{Protocol} `{Accessor} `{Build}.
Import call_order_update_operation call_order_update_evaluator.

(** The first block dereferences only pointers to objects it has just
    looked up. *)
Lemma call_order_update_validate_returns o w : (validate o w).1 ≠ Abort.
Proof.
  unfold validate, bitasset_data. unfold_reads.
  repeat (cbv beta iota;
    lazymatch goal with
    | |- context [let (_, _) := (if ?c then _ else _) _ in _] => destruct c
    | |- context [let (_, _) := match ?x with Some _ => _ | None => _ end in _] =>
        destruct x eqn:?
    | |- context [let (_, _) := match ?x with Some _ => _ | None => _ end _ in _] =>
        destruct x eqn:?
    | |- context [(if ?c then _ else _) _] => destruct c
    end);
  cbn [fst]; discriminate.
Qed.

(** Lines 142-150 end the process only by the [assert] on the supply. *)
Lemma apply_delta_debt_Abort r o w debt_asset :
  adjust_balance_credits →
  collaborators_return →
  assets (ledger w) !! r.(_debt_asset) = Some debt_asset →
  (apply_delta_debt r o w).1 = Abort →
  NDEBUG = false ∧
  amount o.(delta_debt) ≠ 0 ∧
  supply_of (ledger w) r.(_debt_asset) + amount o.(delta_debt) < 0.
Proof.
  intros Hcredits (Hreturns & _) Hasset. unfold apply_delta_debt.
  destruct (amount o.(delta_debt) =? 0) eqn:Hzero; [discriminate |].
  apply Z.eqb_neq in Hzero. cbn [negb]. rewrite bind_run. unfold lift at 1.
  pose proof (Hreturns o.(funding_account) o.(delta_debt) (ledger w)) as Hreturn.
  destruct (adjust_balance o.(funding_account) o.(delta_debt) (ledger w))
    as [[[] | e |] d1] eqn:Hadjust; [| discriminate | contradiction].
  apply Hcredits in Hadjust. subst d1.
  rewrite (bind_Ok _ _ _ debt_asset _) by (apply deref_Some; exact Hasset).
  cbv zeta. rewrite bind_run. unfold get_object at 1. cbn [ledger asset_dynamic_data credit set_balances].
  destruct (asset_dynamic_data (ledger w) !! dynamic_asset_data_id debt_asset)
    as [dynamic_asset |] eqn:Hdyn; [| discriminate].
  rewrite bind_run. cbn [update ledger calls].
  rewrite (bind_Ok _ _ _ (mk_dynamic (current_supply dynamic_asset + amount o.(delta_debt))) _)
    by (apply deref_Some; cbn [ledger asset_dynamic_data set_asset_dynamic_data credit
                                 set_balances];
        rewrite lookup_alter_eq, Hdyn; reflexivity).
  cbn [current_supply]. unfold c_assert.
  destruct NDEBUG; [discriminate |].
  destruct (0 <=? current_supply dynamic_asset + amount o.(delta_debt)) eqn:Hsupply;
    [discriminate |].
  intros _. apply Z.leb_gt in Hsupply. split; [reflexivity |]. split; [exact Hzero |].
  unfold supply_of. rewrite Hasset, Hdyn. exact Hsupply.
Qed.

(** Lines 152-161 dereference the funding account, which the first block
    has found. *)
Lemma apply_delta_collateral_returns r o w account :
  adjust_balance_credits →
  collaborators_return →
  accounts (ledger w) !! r.(_paying_account) = Some account →
  (apply_delta_collateral r o w).1 ≠ Abort.
Proof.
  intros Hcredits (Hreturns & _) Haccount. unfold apply_delta_collateral.
  destruct (negb (amount o.(delta_collateral) =? 0)); [| discriminate].
  rewrite bind_run. unfold lift at 1.
  pose proof (Hreturns o.(funding_account) (asset_neg o.(delta_collateral)) (ledger w))
    as Hreturn.
  destruct (adjust_balance o.(funding_account) (asset_neg o.(delta_collateral)) (ledger w))
    as [[[] | e |] d1] eqn:Hadjust; [| discriminate | contradiction].
  apply Hcredits in Hadjust. subst d1.
  destruct (symbol o.(delta_collateral) =? STEEM_SYMBOL)%N; [| discriminate].
  rewrite (bind_Ok _ _ _ account _) by (apply deref_Some; exact Haccount).
  cbv zeta. rewrite bind_run. unfold get_object at 1.
  destruct (account_statistics _ !! statistics account); discriminate.
Qed.

(** Lines 164-191 dereference the order the index has found and the bitasset
    data the first block has found. *)
Lemma update_call_order_returns r o w bitasset :
  asset_bitasset_data (ledger w) !! r.(_bitasset_data) = Some bitasset →
  (update_call_order r o w).1 ≠ Abort.
Proof.
  intros Hbitasset. unfold update_call_order.
  rewrite bind_run. unfold read at 1.
  destruct (find_by_account o.(funding_account) (symbol o.(delta_debt)) (ledger w))
    as [[call_obj stored] |] eqn:Hfound.
  - pose proof (find_by_account_Some _ _ _ _ _ Hfound) as (Hstored & _ & _).
    rewrite (bind_Ok _ _ w stored w) by (apply deref_Some; exact Hstored).
    cbv zeta. destruct (0 <? _).
    + rewrite bind_run. rewrite (bind_Ok _ _ w bitasset w)
        by (apply deref_Some; exact Hbitasset).
      discriminate.
    + discriminate.
  - destruct (0 <? amount o.(delta_collateral)); [| discriminate].
    destruct (0 <? amount o.(delta_debt)); [| discriminate].
    rewrite bind_run. cbn [FC_ASSERT ret]. rewrite bind_run. cbn [FC_ASSERT ret].
    rewrite (bind_Ok _ _ w bitasset w) by (apply deref_Some; exact Hbitasset).
    discriminate.
Qed.

(** Lines 193-232 dereference the order just stored, the bitasset data and
    the debt asset; after the liquidation trigger, the order is looked up
    again, and the bitasset data, which the assertions and their messages
    read, is still stored. *)
Lemma check_margin_returns r call_obj w call bitasset debt_asset :
  collaborators_return →
  check_call_orders_keeps_bitasset_data →
  call_orders (ledger w) !! call_obj = Some call →
  asset_bitasset_data (ledger w) !! r.(_bitasset_data) = Some bitasset →
  assets (ledger w) !! r.(_debt_asset) = Some debt_asset →
  (check_margin r call_obj w).1 ≠ Abort.
Proof.
  intros (_ & _ & _ & Hreturns) Hkeeps Hcall Hbitasset Hasset. unfold check_margin.
  rewrite (bind_Ok _ _ w call w) by (apply deref_Some; exact Hcall).
  cbv zeta. destruct (amount (get_debt call) =? 0).
  - destruct (collateral call =? 0); discriminate.
  - destruct ((0 <? collateral call) && (0 <? debt call)); [| discriminate].
    rewrite bind_run. cbn [FC_ASSERT ret].
    rewrite (bind_Ok _ _ w bitasset w) by (apply deref_Some; exact Hbitasset).
    destruct (negb (is_prediction_market bitasset)); [| discriminate].
    rewrite (bind_Ok _ _ w debt_asset w) by (apply deref_Some; exact Hasset).
    rewrite bind_run. unfold invoke at 1.
    pose proof (Hreturns r.(_debt_asset) false (ledger w)) as Hreturn.
    destruct (check_call_orders r.(_debt_asset) false (ledger w))
      as [[filled | e |] d'] eqn:Hcheck; [| discriminate | contradiction].
    destruct (Hkeeps _ _ _ _ _ r.(_bitasset_data) Hcheck) as [left_bitasset Hleft];
      [eexists; exact Hbitasset |].
    set (left_world := mk_world d' (calls w ++ [called_check_call_orders r.(_debt_asset) false])).
    assert (Hfails : ∀ left_call,
              STEEMIT_ASSERT false call_order_update_unfilled_margin_call
                (margin_call_message r (Some left_call)) left_world =
              (Throw call_order_update_unfilled_margin_call, left_world)).
    { intros left_call.
      apply (margin_call_assertion_fails r left_world left_call left_bitasset). exact Hleft. }
    destruct filled.
    + rewrite bind_run. cbn [read ledger left_world].
      destruct (call_orders d' !! call_obj) as [left_call |]; [| discriminate].
      cbn [is_null]. fold left_world. rewrite Hfails. discriminate.
    + rewrite bind_run. cbn [read ledger left_world].
      destruct (call_orders d' !! call_obj) as [left_call |]; [| discriminate].
      fold left_world.
      rewrite (bind_Ok _ _ left_world left_bitasset left_world)
        by (apply deref_Some; exact Hleft).
      destruct (price_lt _ _); [discriminate |]. rewrite Hfails. discriminate.
Qed.

(** X14. [call_order_update_evaluator::do_apply] ends the process only by
    the [assert] on the supply, and only in a build that compiles assertions
    in.  When the collaborators return or throw, [adjust_balance] credits and
    changes nothing else, and [check_call_orders] removes no bitasset data,
    an outcome [Abort] means that [NDEBUG] is not defined, that the debt
    delta is not zero and that it would make the supply of the debt asset
    negative.  Under these assumptions no pointer is used after the object it
    points to is gone, the bitasset data read for the message of a failed
    margin call assertion included. *)
Theorem call_order_update_aborts_only_on_negative_supply o w :
  adjust_balance_credits →
  collaborators_return →
  check_call_orders_keeps_bitasset_data →
  (do_apply o w).1 = Abort →
  NDEBUG = false ∧
  amount o.(delta_debt) ≠ 0 ∧
  supply_of (ledger w) (symbol o.(delta_debt)) + amount o.(delta_debt) < 0.
Proof.
  intros Hcredits Hreturns Hkeeps.
  unfold do_apply. rewrite bind_run.
  pose proof (call_order_update_validate_returns o w) as Hvalidate.
  destruct (validate o w) as [[r | e |] w0] eqn:Hvalid; [| discriminate | contradiction].
  clear Hvalidate.
  apply call_order_update_validate_Ok in Hvalid
    as (-> & Hpayer & Hdebt_asset & [account Haccount] & debt_asset & bitasset &
        Hasset & _ & Hbitasset & _).
  rewrite <- Hdebt_asset in *. rewrite <- Hpayer in Haccount.
  unfold execute. rewrite bind_run.
  destruct (apply_delta_debt r o w) as [[[] | e |] w1] eqn:Hdebt; [| discriminate |].
  2: { intros _. apply (apply_delta_debt_Abort r o w debt_asset Hcredits Hreturns Hasset).
       rewrite Hdebt. reflexivity. }
  assert (Hkept1 : accounts (ledger w1) = accounts (ledger w) ∧
                   assets (ledger w1) = assets (ledger w) ∧
                   asset_bitasset_data (ledger w1) = asset_bitasset_data (ledger w)).
  { apply (apply_delta_debt_Ok _ _ _ _ Hcredits) in Hdebt
      as [[_ ->] | (_ & a & dyn & _ & _ & _ & ->)]; repeat split. }
  destruct Hkept1 as (Haccounts1 & Hassets1 & Hbitassets1).
  rewrite bind_run.
  pose proof (apply_delta_collateral_returns r o w1 account Hcredits Hreturns) as Hreturn.
  destruct (apply_delta_collateral r o w1) as [[[] | e |] w2] eqn:Hcollateral;
    [| discriminate | exfalso; apply Hreturn; [rewrite Haccounts1; exact Haccount | reflexivity]].
  clear Hreturn.
  assert (Hkept2 : assets (ledger w2) = assets (ledger w1) ∧
                   asset_bitasset_data (ledger w2) = asset_bitasset_data (ledger w1)).
  { apply (apply_delta_collateral_Ok _ _ _ _ Hcredits) in Hcollateral
      as [[_ ->] | (_ & f & ->)]; repeat split. }
  destruct Hkept2 as (Hassets2 & Hbitassets2).
  rewrite bind_run.
  pose proof (update_call_order_returns r o w2 bitasset) as Hreturn.
  destruct (update_call_order r o w2) as [[call_obj | e |] w3] eqn:Hupdate;
    [| discriminate
     | exfalso; apply Hreturn;
       [rewrite Hbitassets2, Hbitassets1; exact Hbitasset | reflexivity]].
  clear Hreturn.
  pose proof (update_call_order_stores _ _ _ _ _ Hupdate) as (_ & Hstores).
  assert (Hkept3 : assets (ledger w3) = assets (ledger w2) ∧
                   asset_bitasset_data (ledger w3) = asset_bitasset_data (ledger w2) ∧
                   ∃ call, call_orders (ledger w3) !! call_obj = Some call).
  { destruct Hstores as [(_ & _ & ratio & ->) | (stored & call & _ & -> & _)].
    - repeat split. eexists. cbn [call_orders set_next_call_order_id set_call_orders].
      apply lookup_insert_eq.
    - repeat split. exists call. cbn [call_orders set_call_orders]. apply lookup_insert_eq. }
  destruct Hkept3 as (Hassets3 & Hbitassets3 & call & Hcall).
  intros Habort. exfalso.
  apply (check_margin_returns r call_obj w3 call bitasset debt_asset Hreturns Hkeeps);
    [exact Hcall | | | exact Habort].
  - rewrite Hbitassets3, Hbitassets2, Hbitassets1. exact Hbitasset.
  - rewrite Hassets3, Hassets2, Hassets1. exact Hasset.
Qed.

(** X18. In a build that defines [NDEBUG] the supply is not checked.  On a
    ledger where the balance adjustment goes through and the debt asset has
    its dynamic data, lines 142-150 for a non-zero debt delta complete
    whatever the sign of the supply plus the delta: that sum is stored, also
    when it is negative, and the Execute phase goes on from there. *)
Theorem call_order_update_unchecked_supply_is_stored r o w d1 debt_asset dynamic_asset :
  NDEBUG = true →
  adjust_balance_credits →
  amount o.(delta_debt) ≠ 0 →
  adjust_balance o.(funding_account) o.(delta_debt) (ledger w) = (Ok tt, d1) →
  assets (ledger w) !! r.(_debt_asset) = Some debt_asset →
  asset_dynamic_data (ledger w) !! dynamic_asset_data_id debt_asset = Some dynamic_asset →
  let supplied := current_supply dynamic_asset + amount o.(delta_debt) in
  ∃ w',
    apply_delta_debt r o w = (Ok tt, w') ∧
    asset_dynamic_data (ledger w') !! dynamic_asset_data_id debt_asset =
      Some (mk_dynamic supplied) ∧
    supply_of (ledger w') r.(_debt_asset) = supplied ∧
    execute r o w =
      (apply_delta_collateral r o;;
       call_obj ← update_call_order r o;
       check_margin r call_obj) w'.
Proof.
  intros Hbuild Hcredits Hdelta Hadjust Hasset Hdyn supplied.
  pose proof (Hcredits _ _ _ _ Hadjust) as Hd1.
  set (stored := set_asset_dynamic_data
                   (alter (fun dynamic_asset =>
                             mk_dynamic (current_supply dynamic_asset + amount o.(delta_debt)))
                      (dynamic_asset_data_id debt_asset)) d1).
  assert (Hlookup : asset_dynamic_data stored !! dynamic_asset_data_id debt_asset =
                    Some (mk_dynamic supplied)).
  { unfold stored. cbn [asset_dynamic_data set_asset_dynamic_data].
    rewrite lookup_alter_eq. subst d1. cbn [asset_dynamic_data credit set_balances].
    rewrite Hdyn. reflexivity. }
  assert (Hrun : apply_delta_debt r o w = (Ok tt, mk_world stored (calls w))).
  { unfold apply_delta_debt. apply Z.eqb_neq in Hdelta. rewrite Hdelta. cbn [negb].
    rewrite (bind_Ok _ _ w tt (mk_world d1 (calls w))) by (apply lift_run; exact Hadjust).
    rewrite (bind_Ok _ _ _ debt_asset _)
      by (apply deref_Some; subst d1; exact Hasset).
    cbv zeta.
    rewrite (bind_Ok _ _ _ dynamic_asset _)
      by (apply get_object_Some; subst d1; exact Hdyn).
    rewrite bind_run. cbn [update ledger calls]. fold stored.
    rewrite (bind_Ok _ _ _ (mk_dynamic supplied) _) by (apply deref_Some; exact Hlookup).
    unfold c_assert. rewrite Hbuild. reflexivity. }
  exists (mk_world stored (calls w)). split; [exact Hrun |]. split; [exact Hlookup |]. split.
  - unfold supply_of. cbn [ledger].
    assert (Hassets : assets stored = assets (ledger w)) by (subst stored d1; reflexivity).
    rewrite Hassets, Hasset, Hlookup. reflexivity.
  - unfold execute. rewrite (bind_Ok _ _ _ _ _ Hrun). reflexivity.
Qed.
End call_order_update_abort.

Section limit_order_pointers.
Context `{Protocol} `{Accessor}.

(** X15. The second blocks of the two limit order evaluators use no pointer
    after the object it points to is gone.  When the collaborators return or
    throw: the second block of [limit_order_create_evaluator::do_apply], run
    after the first has completed, does not end the process; and
    [limit_order_cancel_evaluator::do_apply] never does. *)
Theorem limit_order_evaluators_return ev op o w :
  adjust_balance_credits →
  collaborators_return →
  (∀ r w0, limit_order_create_evaluator.validate ev op w = (Ok r, w0) →
           (limit_order_create_evaluator.execute ev r op w0).1 ≠ Abort) ∧
  (limit_order_cancel_evaluator.do_apply o w).1 ≠ Abort.
Proof.
  intros Hcredits (Hadjust & Happly & Hcancel & Hcheck). split.
  - intros r w0 Hvalid.
    apply validate_Ok in Hvalid as (-> & -> & _ & [account Haccount] & _).
    unfold limit_order_create_evaluator.execute, limit_order_create_evaluator.lock_funds.
    cbn [limit_order_create_evaluator._seller].
    rewrite bind_run.
    rewrite (bind_Ok _ _ w account w) by (apply deref_Some; exact Haccount).
    cbv zeta. rewrite bind_run. unfold get_object at 1.
    destruct (account_statistics (ledger w) !! statistics account); [| discriminate].
    rewrite bind_run. cbn [update].
    rewrite bind_run. unfold get_object at 1. cbn [ledger accounts set_account_statistics].
    destruct (accounts (ledger w) !! limit_order_create_operation.seller op);
      [| discriminate].
    unfold lift.
    match goal with
    | |- context [adjust_balance ?a ?b ?d] =>
        pose proof (Hadjust a b d) as Hreturn;
        destruct (adjust_balance a b d) as [[[] | e |] d1] eqn:Hrun;
        [| discriminate | contradiction]
    end.
    apply Hcredits in Hrun. subst d1.
    unfold limit_order_create_evaluator.place_order.
    cbn [limit_order_create_evaluator._seller].
    rewrite (bind_Ok _ _ _ account _) by (apply deref_Some; exact Haccount).
    rewrite (bind_Ok _ _ _ _ _ (create_limit_order_run _ _)).
    cbv zeta. rewrite bind_run. unfold invoke at 1.
    match goal with
    | |- context [apply_order ?a ?d] =>
        pose proof (Happly a d) as Hreturn';
        destruct (apply_order a d) as [[filled | e |] d2]; [| discriminate | contradiction]
    end.
    destruct (negb _ || filled); discriminate.
  - unfold limit_order_cancel_evaluator.do_apply. rewrite bind_run.
    destruct (limit_orders (ledger w) !! limit_order_cancel_operation.order o)
      as [cancelled |] eqn:Hstored.
    2: { unfold limit_order_cancel_evaluator.validate.
         rewrite (bind_Throw _ _ _ _ _ (get_object_None _ _ Hstored)). discriminate. }
    rewrite (cancel_validate_run _ _ _ Hstored).
    destruct (bool_decide (seller cancelled = _)); [| discriminate].
    change ((FC_ASSERT true "_order->seller == o.fee_paying_account";;
             ret o.(limit_order_cancel_operation.order)) w)
      with (Ok o.(limit_order_cancel_operation.order), w).
    unfold limit_order_cancel_evaluator.execute.
    rewrite (bind_Ok _ _ w cancelled w) by (apply deref_Some; exact Hstored).
    cbv zeta. rewrite bind_run. unfold invoke at 1.
    pose proof (Hcancel (limit_order_cancel_operation.order o) false (ledger w)) as Hreturn.
    destruct (cancel_order _ false (ledger w)) as [[[] | e |] d1];
      [| discriminate | contradiction].
    rewrite bind_run. unfold get_object at 1. cbn [ledger].
    destruct (assets d1 !! _); [| discriminate].
    rewrite bind_run. unfold invoke at 1. cbn [ledger calls].
    match goal with
    | |- context [check_call_orders ?a ?b d1] =>
        pose proof (Hcheck a b d1) as Hreturn1;
        destruct (check_call_orders a b d1) as [[filled_base | e |] d2];
        [| discriminate | contradiction]
    end.
    rewrite bind_run. unfold get_object at 1. cbn [ledger].
    destruct (assets d2 !! _); [| discriminate].
    rewrite bind_run. unfold invoke at 1. cbn [ledger calls].
    match goal with
    | |- context [check_call_orders ?a ?b d2] =>
        pose proof (Hcheck a b d2) as Hreturn2;
        destruct (check_call_orders a b d2) as [[filled_quote | e |] d3];
        [discriminate | discriminate | contradiction]
    end.
Qed.
End limit_order_pointers.

(** ** What a completed [do_apply] has called *)

Section calls_of_completed_runs.
Context `{Protocol} `{Accessor} `{Build}.

(** X16. A limit order that was created has been offered for matching: when
    [limit_order_create_evaluator::do_apply] completes, it has called
    [apply_order] exactly once, for the order it created, whose id is the
    next limit order id of the ledger it started on. *)
Theorem limit_order_create_completed_has_called_apply_order ev op w w' :
  adjust_balance_credits →
  limit_order_create_evaluator.do_apply ev op w = (Ok tt, w') →
  calls w' = (calls w ++ [called_apply_order (next_limit_order_id (ledger w))])%list.
Proof.
  intros Hcredits Hrun. unfold limit_order_create_evaluator.do_apply in Hrun.
  apply bind_Ok_inv in Hrun as (r & w0 & Hvalid & Hrun).
  apply validate_Ok in Hvalid as (-> & _).
  unfold limit_order_create_evaluator.execute in Hrun.
  apply bind_Ok_inv in Hrun as ([] & w1 & Hlock & Hrun).
  apply (lock_funds_Ok _ _ _ _ Hcredits) in Hlock as (account & stats & _ & _ & ->).
  unfold limit_order_create_evaluator.place_order in Hrun.
  apply bind_Ok_inv in Hrun as (seller_account & w1 & Hseller & Hrun).
  apply deref_inv in Hseller as [_ ->].
  apply bind_Ok_inv in Hrun as (new_order & w1 & Hcreate & Hrun).
  rewrite create_limit_order_run in Hcreate. injection Hcreate as <- <-.
  apply bind_Ok_inv in Hrun as (filled & w1 & Hmatch & Hrun).
  apply invoke_inv in Hmatch as (d' & _ & ->).
  apply FC_ASSERT_inv in Hrun as [_ ->]. reflexivity.
Qed.

(** Lines 193-232 when they complete: what they have called. *)
Lemma check_margin_Ok_calls r call_obj w w' :
  call_order_update_evaluator.check_margin r call_obj w = (Ok tt, w') →
  ∃ call,
    call_orders (ledger w) !! call_obj = Some call ∧
    (debt call = 0 ∧ calls w' = calls w ∨
     debt call ≠ 0 ∧
     ∃ bitasset,
       asset_bitasset_data (ledger w) !! r.(call_order_update_evaluator._bitasset_data) =
         Some bitasset ∧
       calls w' =
         (calls w ++
          (if is_prediction_market bitasset then []
           else [called_check_call_orders
                   r.(call_order_update_evaluator._debt_asset) false]))%list).
Proof.
  intros Hrun. unfold call_order_update_evaluator.check_margin in Hrun.
  apply bind_Ok_inv in Hrun as (call & w1 & Hptr & Hrun).
  apply deref_inv in Hptr as [Hptr ->].
  exists call. split; [exact Hptr |].
  cbn [get_debt amount] in Hrun.
  destruct (debt call =? 0) eqn:Hdebt.
  - left. apply Z.eqb_eq in Hdebt. invert_run. split; [exact Hdebt | reflexivity].
  - right. apply Z.eqb_neq in Hdebt. split; [exact Hdebt |].
    apply bind_Ok_inv in Hrun as (u & w1 & Hpositive & Hrun).
    apply FC_ASSERT_inv in Hpositive as [_ ->].
    apply bind_Ok_inv in Hrun as (bitasset & w1 & Hbitasset & Hrun).
    apply deref_inv in Hbitasset as [Hbitasset ->].
    exists bitasset. split; [exact Hbitasset |].
    destruct (is_prediction_market bitasset); cbn [negb] in Hrun.
    + apply ret_inv in Hrun as [_ ->]. rewrite app_nil_r. reflexivity.
    + invert_run; reflexivity.
Qed.

(** X17. When the margin check is made.  When
    [call_order_update_evaluator::do_apply] completes, it has called no
    collaborator if the debt asset is a prediction market or the update has
    brought the debt of the position to zero; otherwise it has called
    [check_call_orders] exactly once, for the debt asset and with black swans
    disallowed. *)
Theorem call_order_update_completed_has_checked_margin o w w' :
  adjust_balance_credits →
  call_order_update_evaluator.do_apply o w = (Ok tt, w') →
  ∃ debt_asset bitasset_id bitasset,
    assets (ledger w) !! symbol o.(call_order_update_operation.delta_debt) = Some debt_asset ∧
    bitasset_data_id debt_asset = Some bitasset_id ∧
    asset_bitasset_data (ledger w) !! bitasset_id = Some bitasset ∧
    calls w' =
      (calls w ++
       (if is_prediction_market bitasset || (resulting_debt o (ledger w) =? 0) then []
        else [called_check_call_orders
                (symbol o.(call_order_update_operation.delta_debt)) false]))%list.
Proof.
  intros Hcredits Hrun. unfold call_order_update_evaluator.do_apply in Hrun.
  apply bind_Ok_inv in Hrun as (r & w0 & Hvalid & Hrun).
  apply call_order_update_validate_Ok in Hvalid
    as (-> & _ & Hdebt_asset & _ & debt_asset & bitasset & Hasset & Hid & Hbitasset & _).
  exists debt_asset, r.(call_order_update_evaluator._bitasset_data), bitasset.
  repeat (split; [assumption |]).
  unfold call_order_update_evaluator.execute in Hrun.
  apply bind_Ok_inv in Hrun as ([] & w1 & Hdebt & Hrun).
  apply bind_Ok_inv in Hrun as ([] & w2 & Hcollateral & Hrun).
  apply bind_Ok_inv in Hrun as (call_obj & w3 & Hupdate & Hrun).
  destruct (apply_deltas_frame _ _ _ _ _ Hcredits Hdebt Hcollateral)
    as (Horders & Hnext & Hbitassets & Hcalls).
  destruct (updated_call_order_ext o _ _ Horders Hnext) as (_ & Hresulting & _).
  apply update_call_order_Ok in Hupdate
    as (_ & Hbitassets' & Hcalls' & call & Hstored & Hcall_debt & _).
  apply check_margin_Ok_calls in Hrun as (call' & Hlookup & Hcases).
  rewrite Hstored, lookup_insert_eq in Hlookup. injection Hlookup as <-.
  rewrite Hresulting in Hcall_debt. rewrite <- Hcall_debt, <- Hdebt_asset.
  destruct Hcases as [[Hzero ->] | (Hnonzero & bitasset' & Hbitasset' & ->)].
  - apply Z.eqb_eq in Hzero. rewrite Hzero, orb_true_r, app_nil_r. congruence.
  - rewrite Hbitassets', Hbitassets, Hbitasset in Hbitasset'. injection Hbitasset' as <-.
    apply Z.eqb_neq in Hnonzero. rewrite Hnonzero, orb_false_r. congruence.
Qed.
End calls_of_completed_runs.

(** ** The theorems at work on the sample ledger *)

Lemma sample_collaborators_return : @collaborators_return sample.accessor.
Proof.
  repeat split; intros; simpl; try discriminate.
  destruct (0 <=? _); discriminate.
Qed.

Lemma sample_denomination_by_price : @denomination_by_price sample.protocol.
Proof. intros call1 call2 Hprice. simpl. rewrite Hprice. split; reflexivity. Qed.

Lemma sample_unique_by_account : @unique_by_account sample.protocol sample.db.
Proof.
  intros id1 id2 call1 call2 Hstored. exfalso. revert Hstored.
  change (call_orders sample.db) with (∅ : gmap N call_order_object).
  rewrite lookup_empty. discriminate.
Qed.

Lemma sample_call_order_ids_below_next : call_order_ids_below_next sample.db.
Proof. apply map_Forall_empty. Qed.

(** An order that expired before the head block is rejected and nothing has
    changed. *)
Lemma validate_failure_changes_nothing_witness :
  limit_order_create_evaluator.do_apply (H := sample.protocol) (H0 := sample.accessor)
    sample.creator cases.expired sample.w =
  (Throw (assert_exception "op.expiration >= d.head_block_time()"), sample.w).
Proof.
  apply (@validate_failure_changes_nothing sample.protocol sample.accessor sample.build
           sample.creator cases.expired sample.cancel_own sample.borrow sample.w
           (assert_exception "op.expiration >= d.head_block_time()")).
  vm_compute. reflexivity.
Defined.

(** The core asset is barred from trading against the market-issued asset:
    selling it for that asset is rejected by the blacklist. *)
Lemma limit_order_create_rejections_witness :
  limit_order_create_evaluator.do_apply (H := sample.protocol) (H0 := sample.accessor)
    sample.creator sample.sell_core (mk_world cases.db_blacklisted []) =
  (Throw (assert_exception
            "_sell_asset->options.blacklist_markets.find(_receive_asset->id) == _sell_asset->options.blacklist_markets.end()"),
   mk_world cases.db_blacklisted []).
Proof.
  destruct (@limit_order_create_rejections sample.protocol sample.accessor
              sample.creator sample.sell_core (mk_world cases.db_blacklisted [])
              (mk_asset_object ∅ {[ sample.usd ]} None 0)
              (mk_asset_object ∅ ∅ (Some 0%N) 1))
    as (_ & _ & Hblacklist & _).
  - vm_compute. reflexivity.
  - vm_compute. reflexivity.
  - apply Hblacklist.
    + vm_compute. discriminate.
    + left. vm_compute. reflexivity.
    + intros [Hempty | Habsent].
      * vm_compute in Hempty. discriminate Hempty.
      * apply Habsent. change (sample.usd ∈ ({[ sample.usd ]} : gset N)).
        apply elem_of_singleton_2. reflexivity.
Defined.

(** No feed is published for the market-issued asset: borrowing it is
    rejected with [insufficient_feeds]. *)
Lemma call_order_update_rejections_witness :
  call_order_update_evaluator.do_apply (H := sample.protocol) (H0 := sample.accessor)
      (H1 := sample.build)
    sample.borrow (mk_world cases.db_no_feed []) =
  (Throw insufficient_feeds, mk_world cases.db_no_feed []).
Proof.
  destruct (@call_order_update_rejections sample.protocol sample.accessor sample.build
              sample.borrow (mk_world cases.db_no_feed [])
              (mk_account 0) (mk_asset_object ∅ ∅ (Some 0%N) 1))
    as [_ Hchecks].
  - vm_compute. reflexivity.
  - vm_compute. reflexivity.
  - destruct (Hchecks 0%N (mk_bitasset false sample.core cases.no_feed false))
      as (_ & _ & Hfeed).
    + reflexivity.
    + vm_compute. reflexivity.
    + destruct Hfeed as (_ & Hnone & _); [reflexivity | reflexivity |].
      apply Hnone; reflexivity.
Defined.

(** alice borrows 10 against 40: she holds 15 of the market-issued asset and
    60 of the core asset, the supply is 60 and 40 of her core asset are in
    orders. *)
Lemma call_order_update_applies_deltas_witness :
  let w1 := (call_order_update_evaluator.apply_delta_debt (H0 := sample.accessor)
      (H1 := sample.build)
               sample.position sample.borrow sample.w).2 in
  let w2 := (call_order_update_evaluator.apply_delta_collateral (H := sample.protocol)
               (H0 := sample.accessor) sample.position sample.borrow w1).2 in
  amount (get_balance (ledger w2) "alice" sample.usd) = 15 ∧
  supply_of (ledger w2) sample.usd = 60 ∧
  amount (get_balance (ledger w2) "alice" sample.core) = 60 ∧
  core_in_orders (ledger w2) "alice" = 40.
Proof.
  intros w1 w2.
  destruct (@call_order_update_applies_deltas sample.protocol sample.accessor sample.build
              sample.borrow sample.w sample.position sample.w w1 w2
              sample_adjust_balance_credits)
    as (Hdebt & Hsupply & Hcollateral & Hcore & _).
  - vm_compute. discriminate.
  - vm_compute. reflexivity.
  - vm_compute. reflexivity.
  - vm_compute. reflexivity.
  - split; [exact Hdebt |]. split; [exact Hsupply |]. split; [exact Hcollateral |].
    apply Hcore. reflexivity.
Defined.

(** alice, who has no position, takes 10 of collateral out and borrows 5:
    the update is refused, in a world where she has been given both. *)
Lemma call_order_update_opening_needs_positive_deltas_witness :
  let run := call_order_update_evaluator.do_apply (H := sample.protocol)
               (H0 := sample.accessor) (H1 := sample.build) cases.withdraw_only sample.w in
  run.1 = Throw (assert_exception "o.delta_collateral.amount > 0") ∧
  amount (get_balance (ledger run.2) "alice" sample.core) = 110 ∧
  amount (get_balance (ledger run.2) "alice" sample.usd) = 10.
Proof.
  intros run.
  pose (w1 := (call_order_update_evaluator.apply_delta_debt (H0 := sample.accessor)
      (H1 := sample.build)
                 sample.position cases.withdraw_only sample.w).2).
  pose (w2 := (call_order_update_evaluator.apply_delta_collateral (H := sample.protocol)
                 (H0 := sample.accessor) sample.position cases.withdraw_only w1).2).
  destruct (@call_order_update_opening_needs_positive_deltas sample.protocol sample.accessor
      sample.build
              cases.withdraw_only sample.w sample.position sample.w w1 w2
              sample_adjust_balance_credits) as [Hrefused _].
  - vm_compute. reflexivity.
  - vm_compute. reflexivity.
  - vm_compute. reflexivity.
  - vm_compute. reflexivity.
  - subst run. rewrite Hrefused by (vm_compute; discriminate).
    split; [reflexivity |]. split; vm_compute; reflexivity.
Defined.

(** alice, who owes 10 against 40, pays the 10 back and leaves the 40 in:
    the update is refused. *)
Lemma call_order_update_refuses_mixed_state_witness :
  (call_order_update_evaluator.do_apply (H := sample.protocol) (H0 := sample.accessor)
      (H1 := sample.build)
     cases.repay_only (mk_world cases.db_opened [])).1 =
  Throw (assert_exception "call_obj->collateral == 0").
Proof.
  pose (w := mk_world cases.db_opened []).
  pose (w1 := (call_order_update_evaluator.apply_delta_debt (H0 := sample.accessor)
      (H1 := sample.build)
                 sample.position cases.repay_only w).2).
  destruct (@call_order_update_refuses_mixed_state sample.protocol sample.accessor sample.build
              cases.repay_only w sample.position w w1 w1 0%N cases.opened
              sample_adjust_balance_credits) as [Hleft _].
  - vm_compute. reflexivity.
  - vm_compute. reflexivity.
  - vm_compute. reflexivity.
  - vm_compute. reflexivity.
  - apply Hleft; vm_compute; [reflexivity | discriminate].
Defined.

(** The ledger with the positions of alice and bob holds one call order for
    each, under ids below the next. *)
Lemma two_positions_unique_by_account :
  @unique_by_account sample.protocol cases.db_two_positions.
Proof.
  intros id1 id2 call1 call2 Hfirst Hsecond Hborrower _.
  change (call_orders cases.db_two_positions)
    with (<[0%N := cases.opened]> ({[ 1%N := cases.bob_opened ]} : gmap N call_order_object))
    in Hfirst, Hsecond.
  apply lookup_insert_Some in Hfirst as [[<- <-] | [_ Hfirst]];
    [| apply lookup_singleton_Some in Hfirst as [<- <-]];
    (apply lookup_insert_Some in Hsecond as [[<- <-] | [_ Hsecond]];
     [| apply lookup_singleton_Some in Hsecond as [<- <-]]);
    first [reflexivity | discriminate Hborrower].
Qed.

Lemma two_positions_ids_below_next : call_order_ids_below_next cases.db_two_positions.
Proof.
  apply map_Forall_insert_2; [reflexivity |].
  apply map_Forall_singleton. reflexivity.
Qed.

(** On the ledger with the positions of alice and bob.  alice adds 40 of
    collateral: her order is updated in place, it is still her only one, and
    bob's is as it was.  carol borrows 10 against 40: an order is created for
    her under the next id, and those of alice and bob are as they were. *)
Lemma call_order_update_keeps_one_order_per_account_witness :
  let w := mk_world cases.db_two_positions [] in
  let topped := (call_order_update_evaluator.update_call_order (H := sample.protocol)
                   sample.position sample.top_up w).2 in
  let joined := (call_order_update_evaluator.update_call_order (H := sample.protocol)
                   sample.position cases.carol_borrow w).2 in
  (@unique_by_account sample.protocol (ledger topped) ∧
   call_orders (ledger topped) !! 1%N = Some cases.bob_opened ∧
   ∃ call, call_orders (ledger topped) !! 0%N = Some call ∧ borrower call = "alice") ∧
  (@unique_by_account sample.protocol (ledger joined) ∧
   call_orders (ledger joined) !! 0%N = Some cases.opened ∧
   call_orders (ledger joined) !! 1%N = Some cases.bob_opened ∧
   ∃ call, call_orders (ledger joined) !! 2%N = Some call ∧ borrower call = "carol").
Proof.
  intros w topped joined. split.
  - destruct (@call_order_update_keeps_one_order_per_account sample.protocol
                sample.position sample.top_up w 0%N topped
                sample_call_price_denomination sample_denomination_by_price
                two_positions_unique_by_account two_positions_ids_below_next)
      as (Hunique & _ & Hothers & call & Hstored & Hborrower & _).
    + vm_compute. reflexivity.
    + split; [exact Hunique |]. split.
      * rewrite (Hothers 1%N) by discriminate. reflexivity.
      * exists call. split; [exact Hstored | exact Hborrower].
  - destruct (@call_order_update_keeps_one_order_per_account sample.protocol
                sample.position cases.carol_borrow w 2%N joined
                sample_call_price_denomination sample_denomination_by_price
                two_positions_unique_by_account two_positions_ids_below_next)
      as (Hunique & _ & Hothers & call & Hstored & Hborrower & _).
    + vm_compute. reflexivity.
    + split; [exact Hunique |]. split; [| split].
      * rewrite (Hothers 0%N) by discriminate. reflexivity.
      * rewrite (Hothers 1%N) by discriminate. reflexivity.
      * exists call. split; [exact Hstored | exact Hborrower].
Defined.

(** On the prediction market alice borrows 10 against 10: no collaborator
    is called. *)
Lemma call_order_update_prediction_market_calls_nothing_witness :
  calls (call_order_update_evaluator.do_apply (H := sample.protocol) (H0 := sample.accessor)
      (H1 := sample.build)
           cases.even (mk_world sample.db_prediction [])).2 = [].
Proof.
  apply (@call_order_update_prediction_market_calls_nothing sample.protocol sample.accessor
      sample.build
           cases.even (mk_world sample.db_prediction [])
           (mk_asset_object ∅ ∅ (Some 0%N) 1) 0%N
           (mk_bitasset true sample.core sample.feed false)
           sample_adjust_balance_credits).
  - vm_compute. reflexivity.
  - reflexivity.
  - vm_compute. reflexivity.
  - reflexivity.
Defined.

(** On a ledger that records a supply of 3 while alice holds 5, alice pays
    4 back, in a build with assertions: the process ends, and the supply would
    have been -1. *)
Lemma call_order_update_aborts_only_on_negative_supply_witness :
  (call_order_update_evaluator.do_apply (H := sample.protocol) (H0 := sample.accessor)
     (H1 := sample.build) cases.repay_four (mk_world cases.db_short_supply [])).1 = Abort ∧
  supply_of cases.db_short_supply sample.usd + -4 < 0.
Proof.
  assert (Hends : (call_order_update_evaluator.do_apply (H := sample.protocol)
                     (H0 := sample.accessor) (H1 := sample.build) cases.repay_four
                     (mk_world cases.db_short_supply [])).1 = Abort)
    by (vm_compute; reflexivity).
  split; [exact Hends |].
  apply (@call_order_update_aborts_only_on_negative_supply sample.protocol sample.accessor
           sample.build cases.repay_four (mk_world cases.db_short_supply [])
           sample_adjust_balance_credits sample_collaborators_return
           sample_check_call_orders_keeps_bitasset_data Hends).
Defined.

(** alice sells her core asset and cancels her resting order: neither ends
    the process. *)
Lemma limit_order_evaluators_return_witness :
  (limit_order_create_evaluator.execute (H := sample.protocol) (H0 := sample.accessor)
     sample.creator
     (limit_order_create_evaluator.mk_resolved "alice" (Some sample.core) (Some sample.usd))
     sample.sell_core sample.w).1 ≠ Abort ∧
  (limit_order_cancel_evaluator.do_apply (H := sample.accessor)
     sample.cancel_own sample.w_resting).1 ≠ Abort.
Proof.
  destruct (@limit_order_evaluators_return sample.protocol sample.accessor
              sample.creator sample.sell_core sample.cancel_own sample.w
              sample_adjust_balance_credits sample_collaborators_return)
    as [Hcreate _].
  destruct (@limit_order_evaluators_return sample.protocol sample.accessor
              sample.creator sample.sell_core sample.cancel_own sample.w_resting
              sample_adjust_balance_credits sample_collaborators_return)
    as [_ Hcancel].
  split; [| exact Hcancel].
  apply Hcreate. vm_compute. reflexivity.
Defined.

(** alice sells her core asset on the sample ledger: the order with id 0
    has been offered for matching. *)
Lemma limit_order_create_completed_has_called_apply_order_witness :
  calls (limit_order_create_evaluator.do_apply (H := sample.protocol) (H0 := sample.accessor)
           sample.creator sample.sell_core sample.w).2 = [called_apply_order 0].
Proof.
  apply (@limit_order_create_completed_has_called_apply_order sample.protocol sample.accessor
           sample.creator sample.sell_core sample.w
           (limit_order_create_evaluator.do_apply (H := sample.protocol)
              (H0 := sample.accessor) sample.creator sample.sell_core sample.w).2
           sample_adjust_balance_credits).
  vm_compute. reflexivity.
Defined.

(** alice borrows 10 against 40 on the sample ledger: the margin check has
    been made, once. *)
Lemma call_order_update_completed_has_checked_margin_witness :
  calls (call_order_update_evaluator.do_apply (H := sample.protocol) (H0 := sample.accessor)
      (H1 := sample.build)
           sample.borrow sample.w).2 = [called_check_call_orders sample.usd false].
Proof.
  destruct (@call_order_update_completed_has_checked_margin sample.protocol sample.accessor
      sample.build
              sample.borrow sample.w
              (call_order_update_evaluator.do_apply (H := sample.protocol)
                 (H0 := sample.accessor) (H1 := sample.build) sample.borrow sample.w).2
              sample_adjust_balance_credits)
    as (debt_asset & bitasset_id & bitasset & Hasset & Hid & Hbitasset & Hcalls).
  - vm_compute. reflexivity.
  - vm_compute in Hasset. injection Hasset as <-.
    vm_compute in Hid. injection Hid as <-.
    vm_compute in Hbitasset. injection Hbitasset as <-.
    exact Hcalls.
Defined.

(** On the ledger that records a supply of 3 while alice holds 5, alice pays
    4 back in a build that defines [NDEBUG]: a supply of -1 is stored. *)
Lemma call_order_update_unchecked_supply_is_stored_witness :
  ∃ w',
    call_order_update_evaluator.apply_delta_debt (H0 := sample.accessor)
      (H1 := sample.release_build) sample.position cases.repay_four
      (mk_world cases.db_short_supply []) = (Ok tt, w') ∧
    supply_of (ledger w') sample.usd = -1.
Proof.
  destruct (@call_order_update_unchecked_supply_is_stored sample.protocol sample.accessor
              sample.release_build sample.position cases.repay_four
              (mk_world cases.db_short_supply [])
              (credit "alice" (mk_asset (-4) sample.usd) cases.db_short_supply)
              (mk_asset_object ∅ ∅ (Some 0%N) 1) (mk_dynamic 3)
              eq_refl sample_adjust_balance_credits)
    as (w' & Hrun & _ & Hsupply & _).
  - vm_compute. discriminate.
  - vm_compute. reflexivity.
  - vm_compute. reflexivity.
  - vm_compute. reflexivity.
  - exists w'. split; [exact Hrun | exact Hsupply].
Defined.
